(** * Complaint classification and branch resolution (EPL quejas)

    A shallow embedding of the decision logic of the two webhook servers
    of the repository and of the two PL/pgSQL functions they call:

    - [analizar_sentimiento_basico] and [buscar_sucursales_inteligente]
      (PL/pgSQL, created by the database set-up script);
    - class [AnalizadorQuejas] of the AI server ([normalizarDatos],
      [categorizarQueja], [calcularUrgencia], [extraerPalabrasClave],
      [procesarQuejaConIA] and their helpers);
    - the handler of [POST /webhook/nueva-queja] of the basic server;
    - the category and subcategory seeds of the set-up script, and the
      statement built by [GET /api/quejas] of the AI server.

    Text is a sequence of UTF-16 code units, as in JavaScript; fixed-point
    [DECIMAL(3,2)] columns are integers counting hundredths. *)

From Stdlib Require Import ZArith NArith List String Ascii Lia Permutation Sorted.
From stdpp Require Import base option list gmap.

Open Scope N_scope.

Set Warnings "-register-all".

(** ** Text *)

Module Str.

(** A JavaScript string: its UTF-16 code units. *)
Abbreviation t := (list N).

(** Source literals are written as UTF-8 text and decoded to code units. *)
Fixpoint decode (bs : list N) : t :=
  match bs with
  | [] => []
  | b :: r =>
      if b <? 0x80 then b :: decode r
      else if b <? 0xE0 then
        match r with
        | b1 :: r1 => ((b - 0xC0) * 64 + (b1 - 0x80)) :: decode r1
        | [] => [0xFFFD]
        end
      else if b <? 0xF0 then
        match r with
        | b1 :: b2 :: r2 =>
            ((b - 0xE0) * 4096 + (b1 - 0x80) * 64 + (b2 - 0x80)) :: decode r2
        | _ => [0xFFFD]
        end
      else
        match r with
        | b1 :: b2 :: b3 :: r3 =>
            let cp := (b - 0xF0) * 262144 + (b1 - 0x80) * 4096
                      + (b2 - 0x80) * 64 + (b3 - 0x80) in
            let v := cp - 0x10000 in
            (0xD800 + v / 1024) :: (0xDC00 + v mod 1024) :: decode r3
        | _ => [0xFFFD]
        end
  end.

Definition lit (s : string) : t :=
  decode (map (fun a => N_of_ascii a) (list_ascii_of_string s)).

(** [String.prototype.startsWith] and [String.prototype.includes]. *)
Fixpoint startsWith (s p : t) {struct p} : bool :=
  match p, s with
  | [], _ => true
  | _ :: _, [] => false
  | x :: p', y :: s' => (x =? y) && startsWith s' p'
  end.

Fixpoint includes (s p : t) : bool :=
  startsWith s p ||
  match s with
  | [] => false
  | _ :: s' => includes s' p
  end.

Fixpoint eqb (a b : t) : bool :=
  match a, b with
  | [], [] => true
  | x :: a', y :: b' => (x =? y) && eqb a' b'
  | _, _ => false
  end.

(** Case mapping of one code unit.  Basic Latin and the Latin-1 supplement
    are covered (the alphabet of the catalogue and of the keyword lists);
    other code units are left as they are. *)
Definition lower_unit (c : N) : N :=
  if (0x41 <=? c) && (c <=? 0x5A) then c + 32
  else if (0xC0 <=? c) && (c <=? 0xDE) && negb (c =? 0xD7) then c + 32
  else c.

Definition toLowerCase (s : t) : t := map lower_unit s.

(** White space of [String.prototype.trim] and of the regular-expression
    class [\s]: WhiteSpace and LineTerminator code points. *)
Definition is_space (c : N) : bool :=
  ((0x09 <=? c) && (c <=? 0x0D)) || (c =? 0x20) || (c =? 0xA0)
  || (c =? 0x1680) || ((0x2000 <=? c) && (c <=? 0x200A))
  || (c =? 0x2028) || (c =? 0x2029) || (c =? 0x202F) || (c =? 0x205F)
  || (c =? 0x3000) || (c =? 0xFEFF).

Definition is_digit (c : N) : bool := (0x30 <=? c) && (c <=? 0x39).

(** The class [\w] of a regular expression without the [u] and [i] flags. *)
Definition is_word (c : N) : bool :=
  is_digit c || ((0x41 <=? c) && (c <=? 0x5A))
  || ((0x61 <=? c) && (c <=? 0x7A)) || (c =? 0x5F).

Fixpoint trimStart (s : t) : t :=
  match s with
  | c :: s' => if is_space c then trimStart s' else s
  | [] => []
  end.

Definition trim (s : t) : t := rev (trimStart (rev (trimStart s))).

(** [s.substring(0, n)] for a literal [n >= 0]. *)
Definition substring0 (n : nat) (s : t) : t := firstn n s.

(** [s.substring(n)] for a literal [n >= 0]. *)
Definition substringFrom (n : nat) (s : t) : t := skipn n s.

(** The characters of a text, as the database counts them: a surrogate
    pair is one character. *)
Definition alto (c : N) : bool := (0xD800 <=? c) && (c <=? 0xDBFF).
Definition bajo (c : N) : bool := (0xDC00 <=? c) && (c <=? 0xDFFF).

Fixpoint puntos (s : t) : list t :=
  match s with
  | [] => []
  | c :: s' =>
      match s' with
      | d :: s'' => if alto c && bajo d then [c; d] :: puntos s'' else [c] :: puntos s'
      | [] => [[c]]
      end
  end.

(** Code-unit order, used where the source compares or sorts text. *)
Fixpoint ltb (a b : t) : bool :=
  match a, b with
  | _, [] => false
  | [], _ :: _ => true
  | x :: a', y :: b' => (x <? y) || ((x =? y) && ltb a' b')
  end.

(** Decimal rendering of an integer ([Number.prototype.toString] on an
    integral value below 10^21). *)
Fixpoint digits_pos (fuel : nat) (n : N) (acc : t) : t :=
  match fuel with
  | O => acc
  | S f =>
      let acc' := (0x30 + n mod 10) :: acc in
      if n <? 10 then acc' else digits_pos f (n / 10) acc'
  end.

Definition of_N (n : N) : t := digits_pos (S (N.to_nat (N.log2 n))) n [].

Definition of_Z (z : Z) : t :=
  match z with
  | Zneg p => 0x2D :: of_N (Npos p)
  | _ => of_N (Z.to_N z)
  end.

End Str.

(** ** Failures *)

(** What a JavaScript exception or a rejected query carries, as far as the
    callers of this development can tell the cases apart. *)
Inductive error : Type :=
  | TypeError          (* a call on a value that has no such method *)
  | QueryError (n : nat) (* the [n]-th statement sent on the connection failed *)
  | ConnectError       (* [pool.connect()] was rejected *)
  | SqlError.          (* an error raised while a statement was evaluated *)

Inductive result (A : Type) : Type :=
  | Ok (a : A)
  | Throw (e : error).
Arguments Ok {A} a.
Arguments Throw {A} e.

#[global] Instance result_ret : MRet result := fun A a => Ok a.

#[global] Instance result_bind : MBind result := fun A B k m =>
  match m with
  | Ok a => k a
  | Throw e => Throw e
  end.

(** ** The PL/pgSQL functions *)

Module Sql.

(** SQL truth values and nullable text: [None] is NULL. *)
Abbreviation tri := (option bool).
Abbreviation text := (option Str.t).

Definition is_true (a : tri) : bool :=
  match a with
  | Some true => true
  | _ => false
  end.

Definition OR (a b : tri) : tri :=
  match a, b with
  | Some true, _ | _, Some true => Some true
  | Some false, Some false => Some false
  | _, _ => None
  end.

Definition AND (a b : tri) : tri :=
  match a, b with
  | Some false, _ | _, Some false => Some false
  | Some true, Some true => Some true
  | _, _ => None
  end.

Definition eq_text (a b : text) : tri :=
  match a, b with
  | Some x, Some y => Some (Str.eqb x y)
  | _, _ => None
  end.

Definition eq_int (a b : option Z) : tri :=
  match a, b with
  | Some x, Some y => Some (Z.eqb x y)
  | _, _ => None
  end.

Definition eq_bool (a b : tri) : tri :=
  match a, b with
  | Some x, Some y => Some (Bool.eqb x y)
  | _, _ => None
  end.

Definition LOWER (a : text) : text := option_map Str.toLowerCase a.

(** The operator [||] on text. *)
Definition concat (a b : text) : text :=
  match a, b with
  | Some x, Some y => Some (x ++ y)
  | _, _ => None
  end.

(** The cast [::TEXT] of an integer. *)
Definition int_to_text (a : option Z) : text := option_map Str.of_Z a.

(** [LIKE] with the default escape character: [%] matches any run of
    characters, [_] any one character, and a backslash makes the next
    pattern character literal.  PostgreSQL rejects a pattern that ends in a
    lone backslash when the match gets there; the patterns of this program
    all end in [%], so that case (rendered as no match) does not arise. *)
Fixpoint like_match (p : Str.t) : Str.t -> bool :=
  match p with
  | [] => fun s => match s with [] => true | _ :: _ => false end
  | c :: p' =>
      if c =? 0x25 then
        fix skip (s : Str.t) : bool :=
          like_match p' s ||
          match s with
          | [] => false
          | _ :: s' => skip s'
          end
      else if c =? 0x5F then
        fun s => match s with [] => false | _ :: s' => like_match p' s' end
      else if c =? 0x5C then
        match p' with
        | [] => fun _ => false
        | e :: p'' =>
            fun s =>
              match s with
              | [] => false
              | x :: s' => (x =? e) && like_match p'' s'
              end
        end
      else
        fun s =>
          match s with
          | [] => false
          | x :: s' => (x =? c) && like_match p' s'
          end
  end.

Definition LIKE (s p : text) : tri :=
  match s, p with
  | Some s, Some p => Some (like_match p s)
  | _, _ => None
  end.

(** [CASE WHEN c1 THEN v1 ... ELSE d END]: the first branch whose condition
    is true. *)
Fixpoint CASE {A} (branches : list (tri * A)) (default : A) : A :=
  match branches with
  | [] => default
  | (c, v) :: rest => if is_true c then v else CASE rest default
  end.

(** *** analizar_sentimiento_basico *)

Definition palabras_negativas : list Str.t :=
  map Str.lit ["malo"; "terrible"; "horrible"; "asqueroso"; "pésimo";
               "nunca"; "jamás"; "odio"]%string.

Definition palabras_positivas : list Str.t :=
  map Str.lit ["bueno"; "excelente"; "rico"; "sabroso"; "recomiendo";
               "perfecto"; "genial"]%string.

(** A row of [RETURNS TABLE(sentimiento VARCHAR(20), score DECIMAL(3,2))];
    the score counts hundredths. *)
Record Sentimiento : Type := {
  sentimiento : Str.t;
  score : Z
}.

Definition pct : text := Some (Str.lit "%").

(** One [FOREACH palabra IN ARRAY ... LOOP] with its counter. *)
Definition contar (palabras : list Str.t) (texto_lower : text) : Z :=
  fold_left
    (fun cuenta palabra =>
       if is_true (LIKE texto_lower (concat (concat pct (Some palabra)) pct))
       then (cuenta + 1)%Z else cuenta)
    palabras 0%Z.

Definition analizar_sentimiento_basico (texto : text) : Sentimiento :=
  let texto_lower := LOWER texto in
  let score_neg := contar palabras_negativas texto_lower in
  let score_pos := contar palabras_positivas texto_lower in
  if (score_neg >? score_pos + 1)%Z then
    {| sentimiento := Str.lit "muy_negativo"; score := (-80)%Z |}
  else if (score_neg >? score_pos)%Z then
    {| sentimiento := Str.lit "negativo"; score := (-40)%Z |}
  else if (score_pos >? score_neg)%Z then
    {| sentimiento := Str.lit "positivo"; score := 60%Z |}
  else
    {| sentimiento := Str.lit "neutral"; score := 0%Z |}.

(** *** Columns *)

(** Storing a value in a column [VARCHAR(n)]: a value of more than [n]
    characters is refused, unless what exceeds is spaces only, which are
    then dropped. *)
Definition VARCHAR (n : nat) (v : text) : result text :=
  match v with
  | None => Ok None
  | Some s =>
      let p := Str.puntos s in
      if (length p <=? n)%nat then Ok (Some s)
      else if forallb (fun x => Str.eqb x [0x20]) (skipn n p)
      then Ok (Some (List.concat (firstn n p)))
      else Throw SqlError
  end.

(** The type of a column, as [RETURN QUERY] compares it: lengths and
    precisions do not count. *)
Inductive Tipo : Type :=
  | INTEGER
  | TEXT
  | CHARACTER_VARYING
  | NUMERIC.

Definition Tipo_eqb (a b : Tipo) : bool :=
  match a, b with
  | INTEGER, INTEGER | TEXT, TEXT | CHARACTER_VARYING, CHARACTER_VARYING
  | NUMERIC, NUMERIC => true
  | _, _ => false
  end.

Fixpoint mismos_tipos (a b : list Tipo) : bool :=
  match a, b with
  | [], [] => true
  | x :: a', y :: b' => Tipo_eqb x y && mismos_tipos a' b'
  | _, _ => false
  end.

(** [RETURN QUERY] in a function that [RETURNS TABLE]: the columns of the
    query are matched with those of the table by position and without
    conversion; a column of another type is error 42804, raised before any
    row is returned. *)
Definition RETURN_QUERY {A} (tabla consulta : list Tipo) (rows : result (list A))
  : result (list A) :=
  if mismos_tipos tabla consulta then rows else Throw SqlError.

(** *** buscar_sucursales_inteligente *)

Record Estado : Type := {
  e_id : Z;
  e_nombre : Str.t;
  e_codigo : Str.t
}.

Record Municipio : Type := {
  m_id : Z;
  m_nombre : Str.t;
  m_estado_id : option Z
}.

Record Sucursal : Type := {
  s_id : Z;
  s_external_key : option Z;
  s_nombre : Str.t;
  s_municipio_id : option Z;
  s_activa : option bool
}.

Record Catalogo : Type := {
  sucursales : list Sucursal;
  municipios : list Municipio;
  estados : list Estado
}.

(** [FROM sucursales s JOIN municipios m ON s.municipio_id = m.id
     JOIN estados e ON m.estado_id = e.id]. *)
Definition unir (c : Catalogo) : list (Sucursal * Municipio * Estado) :=
  s ← sucursales c;
  m ← filter (fun m => is_true (eq_int (s_municipio_id s) (Some (m_id m))) = true)
             (municipios c);
  e ← filter (fun e => is_true (eq_int (m_estado_id m) (Some (e_id e))) = true)
             (estados c);
  [(s, m, e)].

(** The six conditions of the two [CASE] expressions, in their order. *)
Definition condiciones (busqueda : text) (f : Sucursal * Municipio * Estado)
  : list tri :=
  let '(s, m, e) := f in
  let patron := LOWER (concat (concat pct busqueda) pct) in
  [ eq_text (int_to_text (s_external_key s)) busqueda;
    eq_text (LOWER (Some (s_nombre s))) (LOWER busqueda);
    eq_text (LOWER (Some (m_nombre m))) (LOWER busqueda);
    LIKE (LOWER (Some (s_nombre s))) patron;
    LIKE (LOWER (Some (m_nombre m))) patron;
    eq_text (LOWER (Some (e_codigo e))) (LOWER busqueda) ].

Definition confianza_de (busqueda : text) (f : Sucursal * Municipio * Estado) : Z :=
  CASE (combine (condiciones busqueda f) [100; 95; 85; 75; 65; 60]%Z) 30%Z.

Definition razon_de (busqueda : text) (f : Sucursal * Municipio * Estado) : Str.t :=
  CASE (combine (condiciones busqueda f)
          (map Str.lit ["ID exacto"; "Nombre exacto"; "Ciudad exacta";
                        "Nombre parcial"; "Ciudad parcial"; "Estado"]%string))
       (Str.lit "Coincidencia baja").

(** The [WHERE] clause. *)
Definition filtro (busqueda : text) (f : Sucursal * Municipio * Estado) : tri :=
  let '(s, m, e) := f in
  let patron := LOWER (concat (concat pct busqueda) pct) in
  AND (eq_bool (s_activa s) (Some true))
      (OR (OR (OR (eq_text (int_to_text (s_external_key s)) busqueda)
                  (LIKE (LOWER (Some (s_nombre s))) patron))
              (LIKE (LOWER (Some (m_nombre m))) patron))
          (eq_text (LOWER (Some (e_codigo e))) (LOWER busqueda))).

(** A row of the [RETURNS TABLE]; [confianza] counts hundredths. *)
Record Candidata : Type := {
  sucursal_id : Z;
  nombre : Str.t;
  municipio : Str.t;
  estado : Str.t;
  confianza : Z;
  razon : Str.t
}.

Definition fila (busqueda : text) (f : Sucursal * Municipio * Estado) : Candidata :=
  let '(s, m, e) := f in
  {| sucursal_id := s_id s;
     nombre := s_nombre s;
     municipio := m_nombre m;
     estado := e_nombre e;
     confianza := confianza_de busqueda f;
     razon := razon_de busqueda f |}.

(** [ORDER BY confianza DESC, s.nombre]: [a] may stay before [b].  Names are
    compared by code units; the collation of the database may order two
    names otherwise. *)
Definition antes (a b : Candidata) : bool :=
  (confianza b <? confianza a)%Z
  || ((confianza a =? confianza b)%Z && negb (Str.ltb (nombre b) (nombre a))).

Fixpoint insertar (x : Candidata) (l : list Candidata) : list Candidata :=
  match l with
  | [] => [x]
  | y :: l' => if antes y x then y :: insertar x l' else x :: l
  end.

Definition ordenar (l : list Candidata) : list Candidata :=
  fold_left (fun acc x => insertar x acc) l [].

(** [LIMIT limite]: NULL means no limit, a negative count is an error. *)
Definition LIMIT (limite : option Z) (l : list Candidata) : result (list Candidata) :=
  match limite with
  | None => Ok l
  | Some n => if (n <? 0)%Z then Throw SqlError else Ok (firstn (Z.to_nat n) l)
  end.

(** The [SELECT] of the function, from its select list to [LIMIT limite]. *)
Definition consulta_sucursales (c : Catalogo) (busqueda : text)
    (limite : option Z) : result (list Candidata) :=
  LIMIT limite
    (ordenar (map (fila busqueda)
                  (filter (fun f => is_true (filtro busqueda f) = true) (unir c)))).

(** [RETURNS TABLE(sucursal_id INTEGER, nombre TEXT, municipio TEXT,
     estado TEXT, confianza DECIMAL(3,2), razon VARCHAR(100))]. *)
Definition columnas_tabla : list Tipo :=
  [INTEGER; TEXT; TEXT; TEXT; NUMERIC; CHARACTER_VARYING].

(** The select list: [s.id], [s.nombre] (declared [VARCHAR(200)]),
    [m.nombre] and [e.nombre] (declared [VARCHAR(100)]), a [CASE] over
    numeric constants and a [CASE] over string constants. *)
Definition columnas_consulta : list Tipo :=
  [INTEGER; CHARACTER_VARYING; CHARACTER_VARYING; CHARACTER_VARYING; NUMERIC; TEXT].

Definition buscar_sucursales_inteligente (c : Catalogo) (busqueda : text)
    (limite : option Z) : result (list Candidata) :=
  RETURN_QUERY columnas_tabla columnas_consulta (consulta_sucursales c busqueda limite).

End Sql.

(** ** JavaScript values *)

Module Js.

(** The values a parsed JSON request body is made of, and [undefined] for a
    property that is not there.  [Num] carries integral numbers. *)
Inductive value : Type :=
  | Undefined
  | Null
  | Bool (b : bool)
  | Num (n : Z)
  | String (s : Str.t)
  | Array (l : list value)
  | Object (props : list (Str.t * value)).

Definition truthy (v : value) : bool :=
  match v with
  | Undefined | Null => false
  | Bool b => b
  | Num n => negb (n =? 0)%Z
  | String s => match s with [] => false | _ :: _ => true end
  | Array _ | Object _ => true
  end.

(** [a || b]. *)
Definition or_ (a b : value) : value := if truthy a then a else b.

(** Own property of an object created by [JSON.parse]. *)
Fixpoint own (props : list (Str.t * value)) (k : Str.t) : option value :=
  match props with
  | [] => None
  | (k', v) :: rest => if Str.eqb k' k then Some v else own rest k
  end.

Fixpoint join (parts : list Str.t) : Str.t :=
  match parts with
  | [] => []
  | [p] => p
  | p :: rest => p ++ 0x2C :: join rest
  end.

(** [v.toString()] on a value that has the method, which is also what
    [Array.prototype.join] makes of an element.  A parsed object inherits
    [Object.prototype.toString] unless a property of its own, which cannot
    be a function, hides it. *)
Fixpoint toString (v : value) : result Str.t :=
  match v with
  | Undefined | Null => Throw TypeError
  | Bool true => Ok (Str.lit "true")
  | Bool false => Ok (Str.lit "false")
  | Num n => Ok (Str.of_Z n)
  | String s => Ok s
  | Array l =>
      (fix elements (l : list value) (acc : list Str.t) : result Str.t :=
         match l with
         | [] => Ok (join (rev acc))
         | (Undefined | Null) :: l' => elements l' ([] :: acc)
         | x :: l' =>
             match toString x with
             | Ok s => elements l' (s :: acc)
             | Throw e => Throw e
             end
         end) l []
  | Object props =>
      match own props (Str.lit "toString") with
      | Some _ => Throw TypeError
      | None => Ok (Str.lit "[object Object]")
      end
  end.

(** [v.includes(x)] for a string [x]: a method of strings and of arrays
    only. *)
Definition includes (v : value) (x : Str.t) : result bool :=
  match v with
  | String s => Ok (Str.includes s x)
  | Array l =>
      Ok (existsb (fun e => match e with String s => Str.eqb s x | _ => false end) l)
  | _ => Throw TypeError
  end.

(** [v === x] for a string [x]. *)
Definition eq_string (v : value) (x : Str.t) : bool :=
  match v with
  | String s => Str.eqb s x
  | _ => false
  end.

End Js.

(** ** The database, as seen from one connection *)

Module Db.

Record Cliente : Type := {
  c_id : Z;
  c_nombre : option Str.t;
  c_telefono : option Str.t;
  c_segmento_cliente : option Str.t;
  c_total_quejas : Z
}.

(** The columns of [quejas] that either webhook fills; [score_sentimiento]
    and [confianza_mapeo] count hundredths.  The JSON column [analisis_ia],
    which repeats the derived columns next to the time of processing, is
    left out. *)
Record Queja : Type := {
  q_id : Z;
  q_cliente_id : Z;
  q_sucursal_id : option Z;
  q_descripcion : Str.t;
  q_fecha_creacion : Z;
  q_ubicacion_original : option Str.t;
  q_categoria_id : option Z;
  q_subcategoria_id : option Z;
  q_sentimiento : Str.t;
  q_score_sentimiento : Z;
  q_urgencia : Z;
  q_palabras_clave : option (list Str.t);
  q_confianza_mapeo : option Z;
  q_sucursales_candidatas : option (list Z);
  q_datos_originales : gmap Str.t Js.value
}.

Record Insight : Type := {
  i_id : Z;
  i_titulo : Str.t;
  i_descripcion : Str.t
}.

(** The tables the webhooks write. *)
Record Tablas : Type := {
  clientes : list Cliente;
  quejas : list Queja;
  insights_ia : list Insight
}.

(** The sequences behind the [SERIAL] keys.  They are not transactional: a
    value drawn in a transaction that is rolled back is not given again. *)
Record Secuencias : Type := {
  clientes_id_seq : Z;
  quejas_id_seq : Z;
  insights_ia_id_seq : Z
}.

(** The server and the session of the one connection in use: the committed
    tables, the sequences, the tables as the open transaction sees them
    (with a flag set once a statement has failed in it), and the number of
    requests sent so far. *)
Record Mundo : Type := {
  confirmado : Tablas;
  secuencias : Secuencias;
  transaccion : option (Tablas * bool);
  enviadas : nat
}.

(** Computations that talk to the server and may throw. *)
Definition M (A : Type) : Type := Mundo -> result A * Mundo.

#[global] Instance M_ret : MRet M := fun A a w => (Ok a, w).

#[global] Instance M_bind : MBind M := fun A B k m w =>
  match m w with
  | (Ok a, w') => k a w'
  | (Throw e, w') => (Throw e, w')
  end.

Definition lift {A} (r : result A) : M A := fun w => (r, w).

(** [try { m } catch (error) { h error }]. *)
Definition try_catch {A} (m : M A) (h : error -> M A) : M A := fun w =>
  match m w with
  | (Ok a, w') => (Ok a, w')
  | (Throw e, w') => h e w'
  end.

Definition throw {A} (e : error) : M A := fun w => (Throw e, w).

(** What a statement does when the server accepts it: a result, the tables
    and the sequences after it; or an error of its own. *)
Definition Sentencia (A : Type) : Type :=
  Tablas -> Secuencias -> result (A * Tablas * Secuencias).

Section Conexion.

(** Which requests the server rejects, by their rank on the connection:
    lost connection, time-out, violated constraint, and so on. *)
Variable falla : nat -> bool.

Definition enviar (w : Mundo) : Mundo :=
  {| confirmado := confirmado w; secuencias := secuencias w;
     transaccion := transaccion w; enviadas := S (enviadas w) |}.

Definition con_transaccion (w : Mundo) (t : option (Tablas * bool)) : Mundo :=
  {| confirmado := confirmado w; secuencias := secuencias w;
     transaccion := t; enviadas := enviadas w |}.

(** A failed statement leaves an open transaction aborted. *)
Definition abortar (w : Mundo) : Mundo :=
  con_transaccion w
    match transaccion w with
    | Some (t, _) => Some (t, true)
    | None => None
    end.

(** [pool.connect()]. *)
Definition connect : M unit := fun w =>
  let n := enviadas w in
  if falla n then (Throw ConnectError, enviar w) else (Ok (), enviar w).

(** [client.query(...)] for a statement other than transaction control. *)
Definition query {A} (s : Sentencia A) : M A := fun w =>
  let n := enviadas w in
  let w := enviar w in
  if falla n then (Throw (QueryError n), abortar w)
  else
    match transaccion w with
    | Some (_, true) => (Throw (QueryError n), w)
    | Some (t, false) =>
        match s t (secuencias w) with
        | Ok (a, t', s') =>
            (Ok a, {| confirmado := confirmado w; secuencias := s';
                      transaccion := Some (t', false); enviadas := enviadas w |})
        | Throw e => (Throw e, abortar w)
        end
    | None =>
        match s (confirmado w) (secuencias w) with
        | Ok (a, t', s') =>
            (Ok a, {| confirmado := t'; secuencias := s';
                      transaccion := None; enviadas := enviadas w |})
        | Throw e => (Throw e, w)
        end
    end.

(** [client.query('BEGIN')]. *)
Definition BEGIN : M unit := fun w =>
  let n := enviadas w in
  let w := enviar w in
  if falla n then (Throw (QueryError n), abortar w)
  else
    match transaccion w with
    | Some _ => (Ok (), w)
    | None => (Ok (), con_transaccion w (Some (confirmado w, false)))
    end.

(** [client.query('COMMIT')]: the tables of the transaction become the
    committed ones; an aborted transaction is rolled back instead.  A
    [COMMIT] that is rejected commits nothing. *)
Definition COMMIT : M unit := fun w =>
  let n := enviadas w in
  let w := enviar w in
  if falla n then (Throw (QueryError n), abortar w)
  else
    match transaccion w with
    | Some (t, false) =>
        (Ok (), {| confirmado := t; secuencias := secuencias w;
                   transaccion := None; enviadas := enviadas w |})
    | Some (_, true) => (Ok (), con_transaccion w None)
    | None => (Ok (), w)
    end.

(** [client.query('ROLLBACK')].  When the request itself is rejected the
    connection is gone, and the server drops the transaction with it. *)
Definition ROLLBACK : M unit := fun w =>
  let n := enviadas w in
  let w := enviar w in
  if falla n then (Throw (QueryError n), con_transaccion w None)
  else (Ok (), con_transaccion w None).

End Conexion.

(** *** The statements *)

Definition SELECT {A} (f : Tablas -> A) : Sentencia A :=
  fun t s => Ok (f t, t, s).

(** [SELECT id FROM clientes WHERE telefono = $1]. *)
Definition select_cliente_por_telefono (telefono : option Str.t) : Sentencia (list Z) :=
  SELECT (fun t =>
    map c_id
      (filter (fun c => Sql.is_true (Sql.eq_text (c_telefono c) telefono) = true)
              (clientes t))).

(** [INSERT INTO clientes (nombre, telefono, segmento_cliente)
     VALUES ($1, $2, $3) RETURNING id]; the basic server leaves the last
    columns to their defaults.  The columns are declared [VARCHAR(200)],
    [VARCHAR(20)] and [VARCHAR(50)]. *)
Definition insert_cliente (nombre telefono segmento : option Str.t) : Sentencia Z :=
  fun t s =>
    nombre ← Sql.VARCHAR 200 nombre;
    telefono ← Sql.VARCHAR 20 telefono;
    segmento ← Sql.VARCHAR 50 segmento;
    let id := clientes_id_seq s in
    Ok (id,
        {| clientes := clientes t ++
             [{| c_id := id; c_nombre := nombre; c_telefono := telefono;
                 c_segmento_cliente := segmento; c_total_quejas := 0 |}];
           quejas := quejas t; insights_ia := insights_ia t |},
        {| clientes_id_seq := id + 1; quejas_id_seq := quejas_id_seq s;
           insights_ia_id_seq := insights_ia_id_seq s |})%Z.

(** [INSERT INTO quejas (...) VALUES (...) RETURNING id]; [descripcion] is
    declared [NOT NULL].  The row is given without its key. *)
Definition insert_queja (descripcion : option Str.t) (fila : Str.t -> Z -> Queja)
  : Sentencia Z :=
  fun t s =>
    match descripcion with
    | None => Throw SqlError
    | Some d =>
        let id := quejas_id_seq s in
        Ok (id,
            {| clientes := clientes t; quejas := quejas t ++ [fila d id];
               insights_ia := insights_ia t |},
            {| clientes_id_seq := clientes_id_seq s; quejas_id_seq := id + 1;
               insights_ia_id_seq := insights_ia_id_seq s |})%Z
    end.

(** [UPDATE clientes SET total_quejas =
       (SELECT COUNT( * ) FROM quejas WHERE cliente_id = $1), ...
     WHERE id = $1]. *)
Definition update_estadisticas (clienteId : Z) : Sentencia unit :=
  fun t s =>
    let total :=
      Z.of_nat (length (filter (fun q => q_cliente_id q = clienteId) (quejas t))) in
    Ok ((),
        {| clientes :=
             map (fun c =>
                    if (c_id c =? clienteId)%Z then
                      {| c_id := c_id c; c_nombre := c_nombre c;
                         c_telefono := c_telefono c;
                         c_segmento_cliente := c_segmento_cliente c;
                         c_total_quejas := total |}
                    else c)
                 (clientes t);
           quejas := quejas t; insights_ia := insights_ia t |},
        s).

(** [INSERT INTO insights_ia (...) VALUES ('queja_critica', $1, $2, ...)];
    [titulo] is declared [VARCHAR(200)]. *)
Definition insert_insight (titulo descripcion : Str.t) : Sentencia unit :=
  fun t s =>
    titulo ← Sql.VARCHAR 200 (Some titulo);
    let titulo := default [] titulo in
    let id := insights_ia_id_seq s in
    Ok ((),
        {| clientes := clientes t; quejas := quejas t;
           insights_ia := insights_ia t ++
             [{| i_id := id; i_titulo := titulo; i_descripcion := descripcion |}] |},
        {| clientes_id_seq := clientes_id_seq s; quejas_id_seq := quejas_id_seq s;
           insights_ia_id_seq := id + 1 |})%Z.

End Db.

(** ** The AI server: class AnalizadorQuejas *)

Module Analizador.

Import Js.

(** *** Normalisation *)

(** The request body: the own properties of [req.body]. *)
Abbreviation Datos := (gmap Str.t value).

Section Normalizar.

(** The clock read by [new Date()] and the host's [Date.parse], both in
    milliseconds since the epoch; [None] is an invalid date. *)
Variable ahora : Z.
Variable Date_parse : Str.t -> option Z.

Definition campo (datos : Datos) (k : string) : value :=
  default Undefined (datos !! Str.lit k).

Definition limpiarTexto (texto : value) : result (option Str.t) :=
  if negb (truthy texto) then Ok None
  else
    s ← toString texto;
    Ok (Some (Str.substring0 1000 (Str.trim s))).

Definition limpiarTelefono (telefono : value) : result (option Str.t) :=
  if negb (truthy telefono) then Ok None
  else if eq_string telefono (Str.lit "edna") then Ok None
  else
    es_url ← includes telefono (Str.lit "url");
    if es_url : bool then Ok None
    else
      s ← toString telefono;
      let soloNumeros := filter (fun c => Str.is_digit c = true) s in
      if (length soloNumeros =? 10)%nat then Ok (Some soloNumeros)
      else if (length soloNumeros =? 12)%nat
              && Str.startsWith soloNumeros (Str.lit "52")
      then Ok (Some (Str.substringFrom 2 soloNumeros))
      else Ok None.

(** [new Date(v)] for a value of the request body. *)
Definition new_Date (v : value) : result (option Z) :=
  match v with
  | Undefined => Ok None
  | Null => Ok (Some 0%Z)
  | Bool b => Ok (Some (if b then 1 else 0)%Z)
  | Num n =>
      Ok (if (Z.abs n <=? 8640000000000000)%Z then Some n else None)
  | String s => Ok (Date_parse s)
  | Array _ | Object _ => s ← toString v; Ok (Date_parse s)
  end.

(** The argument is a value of the body or, when [None], the [Date] made by
    [new Date()] at the call.  No value of the body is an instance of
    [Date]; whatever [new Date(fecha)] throws is caught. *)
Definition parsearFecha (fecha : option value) : Z :=
  match fecha with
  | None => ahora
  | Some v =>
      match new_Date v with
      | Ok (Some ms) => ms
      | Ok None => ahora
      | Throw _ => ahora
      end
  end.

Record DatosNormalizados : Type := {
  nombre : option Str.t;
  telefono : option Str.t;
  descripcion : option Str.t;
  sucursal : option Str.t;
  fecha_creacion : Z
}.

Definition normalizarDatos (datos : Datos) : result DatosNormalizados :=
  nombre ← limpiarTexto (or_ (campo datos "nombre") (campo datos "Nombre"));
  telefono ← limpiarTelefono (or_ (campo datos "telefono") (campo datos "Telefono"));
  descripcion ←
    limpiarTexto
      (or_ (or_ (or_ (campo datos "descripcion") (campo datos "Descripción"))
                (campo datos "descripción"))
           (String (Str.lit "Sin descripción")));
  sucursal ← limpiarTexto (or_ (campo datos "sucursal") (campo datos "Sucursal"));
  let fecha := or_ (campo datos "fecha_creacion") (campo datos "Created on") in
  Ok {| nombre := nombre;
        telefono := telefono;
        descripcion := descripcion;
        sucursal := sucursal;
        fecha_creacion :=
          parsearFecha (if truthy fecha then Some fecha else None) |}.

End Normalizar.

(** *** The category cache *)

(** A row of the query of [cargarCaches] over [categorias_quejas] left-joined
    with [subcategorias_quejas]; the keyword arrays hold text. *)
Record FilaCategoria : Type := {
  f_id : Z;
  f_nombre : Str.t;
  f_subcategoria : option Str.t;
  f_keywords : option (list Str.t)
}.

(** The objects pushed on [subcategorias]: [{ nombre, keywords }]. *)
Record Subcategoria : Type := {
  sub_nombre : Str.t;
  sub_keywords : list Str.t
}.

(** The objects stored in the cache: [{ id, nombre, subcategorias }]. *)
Record Categoria : Type := {
  cat_id : Z;
  cat_nombre : Str.t;
  cat_subcategorias : list Subcategoria
}.

(** A property read on a cached subcategory. *)
Definition prop_subcategoria (s : Subcategoria) (k : string) : value :=
  if String.eqb k "nombre" then String (sub_nombre s)
  else if String.eqb k "keywords" then Array (map String (sub_keywords s))
  else Undefined.

(** [categoriasCache], a [Map]: its entries in insertion order. *)
Abbreviation Cache := (list (Z * Categoria)).

Definition Map_has (m : Cache) (k : Z) : bool :=
  existsb (fun e => (fst e =? k)%Z) m.

(** [m.set(k, v)] : a new key goes last, a known key keeps its place. *)
Fixpoint Map_set (m : Cache) (k : Z) (v : Categoria) : Cache :=
  match m with
  | [] => [(k, v)]
  | (k', v') :: m' => if (k' =? k)%Z then (k, v) :: m' else (k', v') :: Map_set m' k v
  end.

(** [m.get(k).subcategorias.push(s)]: the stored object is changed in
    place. *)
Fixpoint Map_push (m : Cache) (k : Z) (s : Subcategoria) : Cache :=
  match m with
  | [] => []
  | (k', v') :: m' =>
      if (k' =? k)%Z then
        (k', {| cat_id := cat_id v'; cat_nombre := cat_nombre v';
                cat_subcategorias := cat_subcategorias v' ++ [s] |}) :: m'
      else (k', v') :: Map_push m' k s
  end.

(** The body of [categorias.rows.forEach] in [cargarCaches]. *)
Definition cargar_fila (cache : Cache) (row : FilaCategoria) : Cache :=
  let cache :=
    if negb (Map_has cache (f_id row)) then
      Map_set cache (f_id row)
        {| cat_id := f_id row; cat_nombre := f_nombre row; cat_subcategorias := [] |}
    else cache in
  match f_subcategoria row with
  | Some ((_ :: _) as subcategoria) =>
      Map_push cache (f_id row)
        {| sub_nombre := subcategoria;
           sub_keywords := default [] (f_keywords row) |}
  | _ => cache
  end.

(** [categoriasCache.clear()] followed by the loop over the rows. *)
Definition cargarCaches (rows : list FilaCategoria) : Cache :=
  fold_left cargar_fila rows [].

(** *** categorizarQueja *)

(** The object returned by [categorizarQueja]. *)
Abbreviation Categorizacion := (gmap string value).

Definition categorizacion (categoria_id : value) (categoria_nombre : value)
    (subcategoria_id subcategoria_nombre keyword_encontrada : value)
  : Categorizacion :=
  {[ "categoria_id"%string := categoria_id;
     "categoria_nombre"%string := categoria_nombre;
     "subcategoria_id"%string := subcategoria_id;
     "subcategoria_nombre"%string := subcategoria_nombre;
     "keyword_encontrada"%string := keyword_encontrada ]}.

Definition prop (o : gmap string value) (k : string) : value :=
  default Undefined (o !! k).

(** [for (const keyword of subcategoria.keywords)]. *)
Fixpoint buscar_keyword (descripcionLower : Str.t) (keywords : list Str.t)
  : option Str.t :=
  match keywords with
  | [] => None
  | keyword :: rest =>
      if Str.includes descripcionLower (Str.toLowerCase keyword) then Some keyword
      else buscar_keyword descripcionLower rest
  end.

(** [for (const subcategoria of categoria.subcategorias)]. *)
Fixpoint buscar_subcategoria (descripcionLower : Str.t) (categoriaId : Z)
    (categoria : Categoria) (subs : list Subcategoria) : option Categorizacion :=
  match subs with
  | [] => None
  | subcategoria :: rest =>
      match buscar_keyword descripcionLower (sub_keywords subcategoria) with
      | Some keyword =>
          Some (categorizacion
                  (Num categoriaId)
                  (String (cat_nombre categoria))
                  (prop_subcategoria subcategoria "id")
                  (prop_subcategoria subcategoria "nombre")
                  (String keyword))
      | None => buscar_subcategoria descripcionLower categoriaId categoria rest
      end
  end.

(** [for (const [categoriaId, categoria] of categoriasCache)]. *)
Fixpoint buscar_categoria (descripcionLower : Str.t) (cache : Cache)
  : option Categorizacion :=
  match cache with
  | [] => None
  | (categoriaId, categoria) :: rest =>
      match buscar_subcategoria descripcionLower categoriaId categoria
              (cat_subcategorias categoria) with
      | Some r => Some r
      | None => buscar_categoria descripcionLower rest
      end
  end.

Definition categoria_por_defecto : Categorizacion :=
  categorizacion (Num 10) (String (Str.lit "Satisfacción General")) Null Null Null.

Definition categorizarQueja (cache : Cache) (descripcion : Str.t) : Categorizacion :=
  let descripcionLower := Str.toLowerCase descripcion in
  default categoria_por_defecto (buscar_categoria descripcionLower cache).

(** *** calcularUrgencia *)

Definition palabrasUrgentes : list Str.t :=
  map Str.lit ["intoxicación"; "enfermo"; "vómito"; "ambulancia"; "hospital"]%string.

(** [categoria.descripcion?.toLowerCase() || '']. *)
Definition descripcion_de (categoria : gmap string value) : result Str.t :=
  match prop categoria "descripcion" with
  | Undefined | Null => Ok []
  | String s => Ok (Str.toLowerCase s)
  | _ => Throw TypeError
  end.

Definition calcularUrgencia (sentimiento : Sql.Sentimiento)
    (categoria : gmap string value) : result Z :=
  let urgencia := 1%Z in
  let urgencia :=
    if Str.eqb (Sql.sentimiento sentimiento) (Str.lit "muy_negativo")
    then (urgencia + 2)%Z
    else if Str.eqb (Sql.sentimiento sentimiento) (Str.lit "negativo")
    then (urgencia + 1)%Z
    else urgencia in
  let urgencia :=
    if eq_string (prop categoria "categoria_nombre") (Str.lit "Higiene y Limpieza")
    then (urgencia + 2)%Z
    else if eq_string (prop categoria "categoria_nombre") (Str.lit "Calidad del Producto")
    then (urgencia + 1)%Z
    else if eq_string (prop categoria "categoria_nombre") (Str.lit "Personal")
    then (urgencia + 1)%Z
    else urgencia in
  descripcionLower ← descripcion_de categoria;
  let urgencia :=
    if existsb (fun palabra => Str.includes descripcionLower palabra) palabrasUrgentes
    then 5%Z else urgencia in
  Ok (Z.min urgencia 5).

(** *** extraerPalabrasClave *)

Definition palabrasComunes : list Str.t :=
  map Str.lit ["el"; "la"; "de"; "que"; "y"; "a"; "en"; "un"; "es"; "se"; "no";
               "te"; "lo"; "le"; "da"; "su"; "por"; "son"; "con"; "para"; "al";
               "del"; "está"; "muy"; "me"; "pero"; "todo"; "mi"; "fue"; "era"]%string.

(** [.replace(/[^\w\s]/g, ' ')]. *)
Definition reemplazar_signos (s : Str.t) : Str.t :=
  map (fun c => if Str.is_word c || Str.is_space c then c else 0x20) s.

(** [.split(/\s+/)]: the pieces between the maximal runs of white space,
    the empty pieces at both ends included. *)
Fixpoint split_aux (s : Str.t) (actual : Str.t) (en_hueco : bool) : list Str.t :=
  match s with
  | [] => [rev actual]
  | c :: s' =>
      if Str.is_space c then
        if en_hueco then split_aux s' actual true
        else rev actual :: split_aux s' [] true
      else split_aux s' (c :: actual) false
  end.

Definition split (s : Str.t) : list Str.t := split_aux s [] false.

(** [isNaN(s)] on a string: whether [StringToNumber] fails on it. *)
Fixpoint span (p : N -> bool) (s : Str.t) : Str.t * Str.t :=
  match s with
  | c :: s' => if p c then let '(a, b) := span p s' in (c :: a, b) else ([], s)
  | [] => ([], [])
  end.

Definition todos (p : N -> bool) (s : Str.t) : bool :=
  match s with
  | [] => false
  | _ :: _ => forallb p s
  end.

Definition exponente (s : Str.t) : bool :=
  match s with
  | [] => true
  | c :: r =>
      ((c =? 0x65) || (c =? 0x45)) &&
      todos Str.is_digit
        match r with
        | c2 :: r2 => if (c2 =? 0x2B) || (c2 =? 0x2D) then r2 else r
        | [] => r
        end
  end.

Definition decimal (s : Str.t) : bool :=
  Str.eqb s (Str.lit "Infinity") ||
  let '(entero, r) := span Str.is_digit s in
  match r with
  | 0x2E :: r1 =>
      let '(fraccion, r2) := span Str.is_digit r1 in
      (negb (length entero =? 0)%nat || negb (length fraccion =? 0)%nat)
      && exponente r2
  | _ => negb (length entero =? 0)%nat && exponente r
  end.

Definition is_hex (c : N) : bool :=
  Str.is_digit c || ((0x61 <=? c) && (c <=? 0x66)) || ((0x41 <=? c) && (c <=? 0x46)).

Definition no_decimal (s : Str.t) : bool :=
  match s with
  | 0x30 :: x :: r =>
      (((x =? 0x78) || (x =? 0x58)) && todos is_hex r)
      || (((x =? 0x6F) || (x =? 0x4F)) && todos (fun c => (0x30 <=? c) && (c <=? 0x37)) r)
      || (((x =? 0x62) || (x =? 0x42)) && todos (fun c => (0x30 <=? c) && (c <=? 0x31)) r)
  | _ => false
  end.

Definition isNaN (s : Str.t) : bool :=
  match Str.trim s with
  | [] => false
  | (c :: r) as s' =>
      negb (no_decimal s'
            || decimal (if (c =? 0x2B) || (c =? 0x2D) then r else s'))
  end.

Definition palabras_de (descripcion : Str.t) : list Str.t :=
  filter
    (fun palabra =>
       ((3 <? length palabra)%nat
        && negb (existsb (Str.eqb palabra) palabrasComunes)
        && isNaN palabra) = true)
    (split (reemplazar_signos (Str.toLowerCase descripcion))).

(** What a property of [frecuencia] can hold: a count, or the text that
    [+ 1] makes of a value that is not a number. *)
Inductive fval : Type :=
  | Cuenta (n : Z)
  | Texto (s : Str.t).

(** The own properties of [frecuencia], in the order of their creation. *)
Abbreviation Frecuencia := (list (Str.t * fval)).

(** What an object literal inherits from [Object.prototype]: its methods,
    and the accessor [__proto__]. *)
Definition metodos_heredados : list (string * string) :=
  [ ("constructor", "Object"); ("hasOwnProperty", "hasOwnProperty");
    ("isPrototypeOf", "isPrototypeOf");
    ("propertyIsEnumerable", "propertyIsEnumerable");
    ("toLocaleString", "toLocaleString"); ("toString", "toString");
    ("valueOf", "valueOf"); ("__defineGetter__", "__defineGetter__");
    ("__defineSetter__", "__defineSetter__");
    ("__lookupGetter__", "__lookupGetter__");
    ("__lookupSetter__", "__lookupSetter__") ]%string.

Definition __proto__ : Str.t := Str.lit "__proto__".

Fixpoint get_own (o : Frecuencia) (k : Str.t) : option fval :=
  match o with
  | [] => None
  | (k', v) :: o' => if Str.eqb k' k then Some v else get_own o' k
  end.

(** [(o[k] || 0) + 1]. *)
Definition mas_uno (o : Frecuencia) (k : Str.t) : fval :=
  match get_own o k with
  | Some (Cuenta n) => Cuenta (if (n =? 0)%Z then 1 else n + 1)
  | Some (Texto []) => Cuenta 1
  | Some (Texto s) => Texto (s ++ Str.lit "1")
  | None =>
      if Str.eqb k __proto__ then Texto (Str.lit "[object Object]1")
      else
        match find (fun m => Str.eqb (Str.lit (fst m)) k) metodos_heredados with
        | Some (_, f) =>
            Texto (Str.lit "function " ++ Str.lit f ++ Str.lit "() { [native code] }1")
        | None => Cuenta 1
        end
  end.

Fixpoint set_own (o : Frecuencia) (k : Str.t) (v : fval) : Frecuencia :=
  match o with
  | [] => [(k, v)]
  | (k', v') :: o' => if Str.eqb k' k then (k', v) :: o' else (k', v') :: set_own o' k v
  end.

(** [o[k] = v] for a [v] that is not an object: the setter of [__proto__]
    ignores it, any other key becomes or stays an own property. *)
Definition asignar (o : Frecuencia) (k : Str.t) (v : fval) : Frecuencia :=
  if Str.eqb k __proto__ then o else set_own o k v.

(** The array index a property key denotes, if it is one. *)
Definition indice (k : Str.t) : option N :=
  match k with
  | [] => None
  | [0x30] => Some 0
  | c :: _ =>
      if Str.is_digit c && negb (c =? 0x30) && forallb Str.is_digit k then
        let n := fold_left (fun acc d => acc * 10 + (d - 0x30)) k 0 in
        if n <? 4294967295 then Some n else None
      else None
  end.

Fixpoint insertar_indice (x : N * (Str.t * fval)) (l : list (N * (Str.t * fval)))
  : list (N * (Str.t * fval)) :=
  match l with
  | [] => [x]
  | y :: l' => if fst y <=? fst x then y :: insertar_indice x l' else x :: l
  end.

(** [Object.entries(o)]: array indices in ascending order, then the other
    keys in the order of their creation. *)
Definition Object_entries (o : Frecuencia) : list (Str.t * fval) :=
  map snd
    (fold_left (fun acc e => match indice (fst e) with
                             | Some n => insertar_indice (n, e) acc
                             | None => acc
                             end) o [])
  ++ filter (fun e => indice (fst e) = None) o.

(** The comparator [([,a], [,b]) => b - a]; a result that is not a number
    counts as zero for [sort]. *)
Definition comparar (x y : Str.t * fval) : Z :=
  match snd x, snd y with
  | Cuenta a, Cuenta b => b - a
  | _, _ => 0
  end.

(** [Array.prototype.sort] is stable; with a consistent comparator every
    engine returns the list computed here, by insertion.  Among three or
    more entries of which one does not hold a number the comparator is not
    consistent, and the order an engine leaves may differ from this one. *)
Fixpoint insertar (x : Str.t * fval) (l : list (Str.t * fval)) : list (Str.t * fval) :=
  match l with
  | [] => [x]
  | y :: l' => if (comparar y x <=? 0)%Z then y :: insertar x l' else x :: l
  end.

Definition sort (l : list (Str.t * fval)) : list (Str.t * fval) :=
  fold_left (fun acc x => insertar x acc) l [].

Definition contar_palabras (palabras : list Str.t) : Frecuencia :=
  fold_left (fun frecuencia palabra =>
               asignar frecuencia palabra (mas_uno frecuencia palabra))
            palabras [].

Definition extraerPalabrasClave (descripcion : Str.t) : list Str.t :=
  let palabras := palabras_de descripcion in
  let frecuencia := contar_palabras palabras in
  map fst (firstn 5 (sort (Object_entries frecuencia))).

(** *** procesarQuejaConIA *)

Section Procesar.

Import Db.

Variable ahora : Z.
Variable Date_parse : Str.t -> option Z.
Variable falla : nat -> bool.

(** The tables [sucursales], [municipios] and [estados], which the webhook
    only reads, and [categoriasCache] as it is when the request arrives. *)
Variable catalogo : Sql.Catalogo.
Variable cache : Cache.

(** A normalised field used as a string: a method call on [null] throws. *)
Definition no_nulo (s : option Str.t) : result Str.t :=
  match s with
  | Some s => Ok s
  | None => Throw TypeError
  end.

Definition analizarSentimiento (texto : option Str.t) : M Sql.Sentimiento :=
  query falla (SELECT (fun _ => Sql.analizar_sentimiento_basico texto)).

(** The object returned by [buscarSucursalInteligente]; [confianza] counts
    hundredths. *)
Record Busqueda : Type := {
  b_sucursal_id : option Z;
  b_sucursal_nombre : Str.t;
  b_confianza : Z;
  b_candidatas : list Z
}.

Definition buscarSucursalInteligente (ubicacionOriginal : option Str.t) : M Busqueda :=
  match ubicacionOriginal with
  | None | Some [] =>
      mret {| b_sucursal_id := None;
              b_sucursal_nombre := Str.lit "Sin especificar";
              b_confianza := 0; b_candidatas := [] |}
  | Some _ =>
      rows ← query falla
               (fun t s =>
                  rows ← Sql.buscar_sucursales_inteligente catalogo
                           ubicacionOriginal (Some 3%Z);
                  Ok (rows, t, s));
      match rows with
      | [] =>
          mret {| b_sucursal_id := None;
                  b_sucursal_nombre := Str.lit "No encontrada";
                  b_confianza := 0; b_candidatas := [] |}
      | mejor :: _ =>
          mret {| b_sucursal_id := Some (Sql.sucursal_id mejor);
                  b_sucursal_nombre := Sql.nombre mejor;
                  b_confianza := Sql.confianza mejor;
                  b_candidatas := map Sql.sucursal_id rows |}
      end
  end.

Definition obtenerOCrearCliente (datos : DatosNormalizados) : M Z :=
  let existente : M (option Z) :=
    match telefono datos with
    | None | Some [] => mret None
    | Some _ =>
        rows ← query falla (select_cliente_por_telefono (telefono datos));
        mret (head rows)
    end in
  e ← existente;
  match e with
  | Some id => mret id
  | None =>
      let segmento :=
        match telefono datos with
        | None | Some [] => Str.lit "anonimo"
        | Some _ => Str.lit "nuevo"
        end in
      query falla (insert_cliente (nombre datos) (telefono datos) (Some segmento))
  end.

Definition actualizarEstadisticasCliente (clienteId : Z) : M unit :=
  query falla (update_estadisticas clienteId).

(** A value inside a template literal. *)
Definition plantilla (v : value) : result Str.t :=
  match v with
  | Undefined => Ok (Str.lit "undefined")
  | Null => Ok (Str.lit "null")
  | _ => toString v
  end.

Definition generarInsightsSiEsNecesario (quejaId : Z) (categoria : Categorizacion)
    (urgencia : Z) : M unit :=
  if (4 <=? urgencia)%Z then
    nombre ← lift (plantilla (prop categoria "categoria_nombre"));
    query falla
      (insert_insight
         (Str.lit "Queja crítica: " ++ nombre)
         (Str.lit "Se detectó una queja de alta urgencia (" ++ Str.of_Z urgencia
          ++ Str.lit "/5) en categoría " ++ nombre))
  else mret ().

(** A query parameter bound to an integer column. *)
Definition entero (v : value) : option Z :=
  match v with
  | Num n => Some n
  | _ => None
  end.

(** What [procesarQuejaConIA] returns. *)
Record Resultado : Type := {
  r_success : bool;
  r_queja_id : Z;
  r_sentimiento : Str.t;
  r_categoria : value;
  r_urgencia : Z;
  r_sucursal : Str.t;
  r_confianza_mapeo : Z
}.

Definition procesarQuejaConIA (datosOriginales : Datos) : M Resultado :=
  _ ← connect falla;
  try_catch
    (_ ← BEGIN falla;
     datosNormalizados ← lift (normalizarDatos ahora Date_parse datosOriginales);
     sentimientoAnalisis ← analizarSentimiento (descripcion datosNormalizados);
     texto ← lift (no_nulo (descripcion datosNormalizados));
     let categorizacion := categorizarQueja cache texto in
     busquedaSucursal ← buscarSucursalInteligente (sucursal datosNormalizados);
     urgencia ← lift (calcularUrgencia sentimientoAnalisis categorizacion);
     let palabrasClave := extraerPalabrasClave texto in
     clienteId ← obtenerOCrearCliente datosNormalizados;
     quejaId ←
       query falla
         (insert_queja (descripcion datosNormalizados)
            (fun d id =>
               {| q_id := id;
                  q_cliente_id := clienteId;
                  q_sucursal_id := b_sucursal_id busquedaSucursal;
                  q_descripcion := d;
                  q_fecha_creacion := fecha_creacion datosNormalizados;
                  q_ubicacion_original := sucursal datosNormalizados;
                  q_categoria_id := entero (prop categorizacion "categoria_id");
                  q_subcategoria_id := entero (prop categorizacion "subcategoria_id");
                  q_sentimiento := Sql.sentimiento sentimientoAnalisis;
                  q_score_sentimiento := Sql.score sentimientoAnalisis;
                  q_urgencia := urgencia;
                  q_palabras_clave := Some palabrasClave;
                  q_confianza_mapeo := Some (b_confianza busquedaSucursal);
                  q_sucursales_candidatas := Some (b_candidatas busquedaSucursal);
                  q_datos_originales := datosOriginales |}));
     _ ← actualizarEstadisticasCliente clienteId;
     _ ← generarInsightsSiEsNecesario quejaId categorizacion urgencia;
     _ ← COMMIT falla;
     mret {| r_success := true;
             r_queja_id := quejaId;
             r_sentimiento := Sql.sentimiento sentimientoAnalisis;
             r_categoria := prop categorizacion "categoria_nombre";
             r_urgencia := urgencia;
             r_sucursal := b_sucursal_nombre busquedaSucursal;
             r_confianza_mapeo := b_confianza busquedaSucursal |})
    (fun error => _ ← ROLLBACK falla; throw error).

(** The response of [POST /webhook/nueva-queja]. *)
Record Respuesta : Type := {
  status : Z;
  success : bool;
  data : option Resultado
}.

Definition webhook_nueva_queja (body : Datos) (w : Mundo) : Respuesta * Mundo :=
  match procesarQuejaConIA body w with
  | (Ok resultado, w') =>
      ({| status := 200; success := true; data := Some resultado |}, w')
  | (Throw _, w') =>
      ({| status := 500; success := false; data := None |}, w')
  end.

End Procesar.

End Analizador.

(** ** The basic server *)

Module Basico.

Import Js Db.

(** *** Step 4 of the handler: the urgency *)

Definition palabrasUrgentes : list Str.t :=
  map Str.lit ["horrible"; "asqueroso"; "intoxicación"; "enfermo"]%string.

(** [descripcion.toLowerCase()]: a method of strings only. *)
Definition toLowerCase (v : value) : result Str.t :=
  match v with
  | String s => Ok (Str.toLowerCase s)
  | _ => Throw TypeError
  end.

(** [palabrasUrgentes.some(palabra =>
       descripcion.toLowerCase().includes(palabra))]. *)
Fixpoint some_urgente (descripcion : value) (palabras : list Str.t) : result bool :=
  match palabras with
  | [] => Ok false
  | palabra :: rest =>
      d ← toLowerCase descripcion;
      if Str.includes d palabra then Ok true else some_urgente descripcion rest
  end.

Definition calcular_urgencia (sentimiento : Sql.Sentimiento) (descripcion : value)
  : result Z :=
  let urgencia := 1%Z in
  let urgencia :=
    if Str.eqb (Sql.sentimiento sentimiento) (Str.lit "muy_negativo") then 4%Z
    else if Str.eqb (Sql.sentimiento sentimiento) (Str.lit "negativo") then 3%Z
    else if Str.eqb (Sql.sentimiento sentimiento) (Str.lit "positivo") then 1%Z
    else urgencia in
  urgente ← some_urgente descripcion palabrasUrgentes;
  Ok (if urgente : bool then 5%Z else urgencia).

(** *** The handler of POST /webhook/nueva-queja *)

Section Webhook.

Variable ahora : Z.
Variable falla : nat -> bool.
Variable catalogo : Sql.Catalogo.

(** The text the driver sends for a parameter that is an array or an
    object. *)
Variable serializar : value -> Str.t.

(** A query parameter bound to a text column: [undefined] and [null] are
    sent as NULL. *)
Definition parametro (v : value) : option Str.t :=
  match v with
  | Undefined | Null => None
  | Bool true => Some (Str.lit "true")
  | Bool false => Some (Str.lit "false")
  | Num n => Some (Str.of_Z n)
  | String s => Some s
  | Array _ | Object _ => Some (serializar v)
  end.

Definition campo (body : gmap Str.t value) (k : string) : value :=
  default Undefined (body !! Str.lit k).

(** [SELECT s.id, s.nombre FROM sucursales s
     JOIN municipios m ON s.municipio_id = m.id
     WHERE LOWER(s.nombre) LIKE LOWER($1) OR LOWER(m.nombre) LIKE LOWER($1)
     LIMIT 1]. *)
Definition select_sucursal (patron : Str.t) : Sentencia (option Z) :=
  SELECT (fun _ =>
    head
      (s ← Sql.sucursales catalogo;
       m ← filter (fun m => Sql.is_true
                              (Sql.eq_int (Sql.s_municipio_id s) (Some (Sql.m_id m)))
                            = true)
                  (Sql.municipios catalogo);
       if Sql.is_true
            (Sql.OR (Sql.LIKE (Sql.LOWER (Some (Sql.s_nombre s)))
                              (Sql.LOWER (Some patron)))
                    (Sql.LIKE (Sql.LOWER (Some (Sql.m_nombre m)))
                              (Sql.LOWER (Some patron))))
       then [Sql.s_id s] else [])).

(** The body of the successful response. *)
Record Analisis : Type := {
  a_queja_id : Z;
  a_sentimiento : Str.t;
  a_score : Z;
  a_urgencia : Z;
  a_sucursal_mapeada : bool
}.

Definition procesar (body : gmap Str.t value) : M Analisis :=
  _ ← connect falla;
  let nombre := campo body "nombre" in
  let telefono := campo body "telefono" in
  let descripcion := campo body "descripcion" in
  let sucursal := campo body "sucursal" in
  sentimiento ←
    query falla (SELECT (fun _ => Sql.analizar_sentimiento_basico (parametro descripcion)));
  sucursalId ←
    (if truthy sucursal then
       s ← lift (Analizador.plantilla sucursal);
       query falla (select_sucursal (Str.lit "%" ++ s ++ Str.lit "%"))
     else mret None);
  clienteId ←
    (if truthy telefono && negb (eq_string telefono (Str.lit "edna")) then
       clienteExistente ←
         query falla (select_cliente_por_telefono (parametro telefono));
       match clienteExistente with
       | id :: _ => mret id
       | [] =>
           query falla (insert_cliente (parametro nombre) (parametro telefono) None)
       end
     else
       query falla
         (insert_cliente
            (parametro (or_ nombre (String (Str.lit "Cliente Anónimo")))) None None));
  urgencia ← lift (calcular_urgencia sentimiento descripcion);
  quejaId ←
    query falla
      (insert_queja (parametro descripcion)
         (fun d id =>
            {| q_id := id;
               q_cliente_id := clienteId;
               q_sucursal_id := sucursalId;
               q_descripcion := d;
               q_fecha_creacion := ahora;
               q_ubicacion_original := parametro sucursal;
               q_categoria_id := None;
               q_subcategoria_id := None;
               q_sentimiento := Sql.sentimiento sentimiento;
               q_score_sentimiento := Sql.score sentimiento;
               q_urgencia := urgencia;
               q_palabras_clave := None;
               q_confianza_mapeo := None;
               q_sucursales_candidatas := None;
               q_datos_originales := body |}));
  mret {| a_queja_id := quejaId;
          a_sentimiento := Sql.sentimiento sentimiento;
          a_score := Sql.score sentimiento;
          a_urgencia := urgencia;
          a_sucursal_mapeada :=
            match sucursalId with
            | Some id => negb (id =? 0)%Z
            | None => false
            end |}.

Record Respuesta : Type := {
  status : Z;
  success : bool;
  analisis : option Analisis
}.

Definition webhook_nueva_queja (body : gmap Str.t value) (w : Mundo)
  : Respuesta * Mundo :=
  match procesar body w with
  | (Ok a, w') => ({| status := 200; success := true; analisis := Some a |}, w')
  | (Throw _, w') => ({| status := 500; success := false; analisis := None |}, w')
  end.

End Webhook.

End Basico.

(** ** The specification's wording *)

Module Spec.

(** A keyword is present in a text as a case-insensitive substring. *)
Definition presente (texto palabra : Str.t) : bool :=
  Str.includes (Str.toLowerCase texto) (Str.toLowerCase palabra).

(** The number of keywords of a list that are present in a text. *)
Definition cuenta (palabras : list Str.t) (texto : Str.t) : nat :=
  length (List.filter (presente texto) palabras).

Definition negCount (texto : Str.t) : nat := cuenta Sql.palabras_negativas texto.
Definition posCount (texto : Str.t) : nat := cuenta Sql.palabras_positivas texto.

(** The classification of section 4.2. *)
Definition clasificar (neg pos : nat) : Sql.Sentimiento :=
  if (pos + 1 <? neg)%nat then
    {| Sql.sentimiento := Str.lit "muy_negativo"; Sql.score := (-80)%Z |}
  else if (pos <? neg)%nat then
    {| Sql.sentimiento := Str.lit "negativo"; Sql.score := (-40)%Z |}
  else if (neg <? pos)%nat then
    {| Sql.sentimiento := Str.lit "positivo"; Sql.score := 60%Z |}
  else
    {| Sql.sentimiento := Str.lit "neutral"; Sql.score := 0%Z |}.

(** A character that stands for itself in a [LIKE] pattern. *)
Definition plano (c : N) : bool :=
  negb (c =? 0x25) && negb (c =? 0x5F) && negb (c =? 0x5C).

(** The confidences of tiers 1 to 6, in hundredths. *)
Definition niveles : list Z := [100; 95; 85; 75; 65; 60]%Z.

(** The keywords of the cache in the order of the three nested loops:
    categories, then the subcategories of each, then the keywords of each
    subcategory. *)
Definition aplanar (cache : Analizador.Cache)
  : list (Z * Analizador.Categoria * Analizador.Subcategoria * Str.t) :=
  flat_map
    (fun e : Z * Analizador.Categoria =>
       flat_map
         (fun s => map (fun k => (fst e, snd e, s, k)) (Analizador.sub_keywords s))
         (Analizador.cat_subcategorias (snd e)))
    cache.

(** The keyword of an entry matches the text. *)
Definition coincide (texto : Str.t)
    (x : Z * Analizador.Categoria * Analizador.Subcategoria * Str.t) : bool :=
  presente texto (snd x).

(** The object built at the [return] inside the loops. *)
Definition construir (x : Z * Analizador.Categoria * Analizador.Subcategoria * Str.t)
  : Analizador.Categorizacion :=
  let '(id, c, s, k) := x in
  Analizador.categorizacion
    (Js.Num id) (Js.String (Analizador.cat_nombre c))
    (Analizador.prop_subcategoria s "id")
    (Analizador.prop_subcategoria s "nombre")
    (Js.String k).

(** The bonuses of section 4.5 and the urgent words of the basic server. *)
Definition bono_sentimiento (s : Sql.Sentimiento) : Z :=
  if Str.eqb (Sql.sentimiento s) (Str.lit "muy_negativo") then 2
  else if Str.eqb (Sql.sentimiento s) (Str.lit "negativo") then 1
  else 0.

Definition bono_categoria (nombre : Js.value) : Z :=
  if Js.eq_string nombre (Str.lit "Higiene y Limpieza") then 2
  else if Js.eq_string nombre (Str.lit "Calidad del Producto") then 1
  else if Js.eq_string nombre (Str.lit "Personal") then 1
  else 0.

Definition urgente_basico (texto : Str.t) : bool :=
  existsb (fun palabra => Str.includes (Str.toLowerCase texto) palabra)
          Basico.palabrasUrgentes.

(** The text holds one of the emergency keywords of [calcularUrgencia]. *)
Definition emergencia (texto : Str.t) : bool :=
  existsb (fun palabra => Str.includes (Str.toLowerCase texto) palabra)
          Analizador.palabrasUrgentes.

(** A computation run inside an open transaction leaves the committed
    tables alone, and leaves the transaction open unless it throws. *)
Definition dentro {A} (m : Db.M A) : Prop :=
  forall w,
    Db.transaccion w <> None ->
    match m w with
    | (Ok _, w') =>
        Db.confirmado w' = Db.confirmado w /\ Db.transaccion w' <> None
    | (Throw _, w') => Db.confirmado w' = Db.confirmado w
    end.

(** A computation run inside an open transaction either closes it, with a
    result that satisfies [P], or throws, and in the latter case leaves the
    committed tables alone. *)
Definition atomico {A} (P : A -> Prop) (m : Db.M A) : Prop :=
  forall w,
    Db.transaccion w <> None ->
    match m w with
    | (Ok a, w') => Db.transaccion w' = None /\ P a
    | (Throw _, w') => Db.confirmado w' = Db.confirmado w
    end.

(** The request rank at which the one failure of a run happens. *)
Definition falla_en (k : nat) : nat -> bool := fun n => Nat.eqb n k.

(** The frequency of a token among the tokens of a text. *)
Definition veces (p : Str.t) (l : list Str.t) : nat :=
  length (List.filter (Str.eqb p) l).

(** The distinct tokens, in the order of their first occurrence. *)
Fixpoint primeras (l : list Str.t) : list Str.t :=
  match l with
  | [] => []
  | x :: l' => x :: List.filter (fun y => negb (Str.eqb y x)) (primeras l')
  end.

(** [a] stands before an occurrence of [b] in [l]. *)
Definition antes_en {A} (l : list A) (a b : A) : Prop :=
  exists l1 l2, l = l1 ++ a :: l2 /\ In b l2.

(** The order of section 4.6 on the tokens of a text: by frequency,
    greatest first, and among equally frequent tokens by first
    occurrence. *)
Definition precede (l : list Str.t) (a b : Str.t) : Prop :=
  (veces b l < veces a l)%nat
  \/ (veces a l = veces b l /\ antes_en (primeras l) a b).

(** A property name that an object literal inherits. *)
Definition heredada (k : Str.t) : bool :=
  Str.eqb k Analizador.__proto__
  || existsb (fun m => Str.eqb (Str.lit (fst m)) k) Analizador.metodos_heredados.

(** The own properties of [frecuencia] after counting, when no token is an
    inherited name. *)
Definition tabla (l : list Str.t) : Analizador.Frecuencia :=
  map (fun p => (p, Analizador.Cuenta (Z.of_nat (veces p l)))) (primeras l).

(** The count an entry of [frecuencia] holds. *)
Definition peso (e : Str.t * Analizador.fval) : Z :=
  match snd e with
  | Analizador.Cuenta n => n
  | Analizador.Texto _ => 0
  end.

(** The entry holds a number. *)
Definition es_cuenta (e : Str.t * Analizador.fval) : Prop :=
  exists n, snd e = Analizador.Cuenta n.

(** The order in which a stable sort by decreasing count leaves the
    entries of [L]. *)
Definition orden (L : list (Str.t * Analizador.fval)) (a b : Str.t * Analizador.fval)
  : Prop :=
  (peso b < peso a)%Z \/ (peso a = peso b /\ antes_en L a b).

End Spec.

(** ** Sample data *)

Module Ejemplos.

Import Js.

(** Part of the catalogue that the set-up script inserts. *)
Definition catalogo : Sql.Catalogo :=
  {| Sql.sucursales :=
       [ {| Sql.s_id := 1; Sql.s_external_key := Some 1%Z;
            Sql.s_nombre := Str.lit "1 - Pino Suarez";
            Sql.s_municipio_id := Some 1%Z; Sql.s_activa := Some true |};
         {| Sql.s_id := 2; Sql.s_external_key := Some 10%Z;
            Sql.s_nombre := Str.lit "10 - Barragan";
            Sql.s_municipio_id := Some 2%Z; Sql.s_activa := Some true |};
         {| Sql.s_id := 3; Sql.s_external_key := Some 65%Z;
            Sql.s_nombre := Str.lit "65 - Pedro Cardenas";
            Sql.s_municipio_id := Some 9%Z; Sql.s_activa := Some true |} ];
     Sql.municipios :=
       [ {| Sql.m_id := 1; Sql.m_nombre := Str.lit "Monterrey";
            Sql.m_estado_id := Some 1%Z |};
         {| Sql.m_id := 2; Sql.m_nombre := Str.lit "San Nicolas de los Garza";
            Sql.m_estado_id := Some 1%Z |};
         {| Sql.m_id := 9; Sql.m_nombre := Str.lit "Matamoros";
            Sql.m_estado_id := Some 2%Z |} ];
     Sql.estados :=
       [ {| Sql.e_id := 1; Sql.e_nombre := Str.lit "Nuevo León";
            Sql.e_codigo := Str.lit "NL" |};
         {| Sql.e_id := 2; Sql.e_nombre := Str.lit "Tamaulipas";
            Sql.e_codigo := Str.lit "TM" |} ] |}.

Definition pino_suarez : Sql.Candidata :=
  {| Sql.sucursal_id := 1;
     Sql.nombre := Str.lit "1 - Pino Suarez";
     Sql.municipio := Str.lit "Monterrey";
     Sql.estado := Str.lit "Nuevo León";
     Sql.confianza := 85;
     Sql.razon := Str.lit "Ciudad exacta" |}.

(** Rows of the query of [cargarCaches], after the subcategories that the
    set-up script inserts. *)
Definition filas : list Analizador.FilaCategoria :=
  [ {| Analizador.f_id := 1; Analizador.f_nombre := Str.lit "Calidad del Producto";
       Analizador.f_subcategoria := Some (Str.lit "Comida Fría");
       Analizador.f_keywords :=
         Some (map Str.lit ["frio"; "fría"; "temperatura"; "caliente"; "tibio"]%string) |};
    {| Analizador.f_id := 1; Analizador.f_nombre := Str.lit "Calidad del Producto";
       Analizador.f_subcategoria := Some (Str.lit "Sabor Desagradable");
       Analizador.f_keywords :=
         Some (map Str.lit ["malo"; "sabor"; "feo"; "horrible"; "raro"]%string) |};
    {| Analizador.f_id := 3; Analizador.f_nombre := Str.lit "Higiene y Limpieza";
       Analizador.f_subcategoria := Some (Str.lit "Restaurante Sucio");
       Analizador.f_keywords :=
         Some (map Str.lit ["sucio"; "cochino"; "limpieza"; "asqueroso"]%string) |};
    {| Analizador.f_id := 10; Analizador.f_nombre := Str.lit "Satisfacción General";
       Analizador.f_subcategoria := None;
       Analizador.f_keywords := None |} ].

Definition cache : Analizador.Cache := Analizador.cargarCaches filas.

(** An empty database on a fresh connection. *)
Definition mundo : Db.Mundo :=
  {| Db.confirmado := {| Db.clientes := []; Db.quejas := []; Db.insights_ia := [] |};
     Db.secuencias := {| Db.clientes_id_seq := 1; Db.quejas_id_seq := 1;
                         Db.insights_ia_id_seq := 1 |};
     Db.transaccion := None;
     Db.enviadas := 0 |}.

(** A request body with the given text properties. *)
Definition body (campos : list (string * value)) : gmap Str.t value :=
  list_to_map (map (fun '(k, v) => (Str.lit k, v)) campos).

(** Texts and sentiments used below. *)
Definition texto_hospital : Str.t := Str.lit "Me llevaron al hospital".
Definition texto_frio : Str.t := Str.lit "El pollo estaba frio".
Definition texto_mal : Str.t := Str.lit "Todo mal".
Definition texto_pesimo : Str.t := Str.lit "Pésimo servicio".
Definition negativo : Sql.Sentimiento :=
  {| Sql.sentimiento := Str.lit "negativo"; Sql.score := (-40)%Z |}.

(** Request bodies used below. *)
Definition solo_espacios : gmap Str.t value :=
  body [("descripcion", String (Str.lit "   "))]%string.

Definition telefono_numerico : gmap Str.t value :=
  body [("nombre", String (Str.lit "Ana"));
        ("telefono", Num 5512345678);
        ("descripcion", String (Str.lit "Todo mal"))]%string.

Definition queja_ana : gmap Str.t value :=
  body [("nombre", String (Str.lit "Ana"));
        ("telefono", String (Str.lit "5512345678"));
        ("descripcion", String (Str.lit "Todo mal"))]%string.

Definition texto_pollo : Str.t :=
  Str.lit "el pollo pollo estaba horrible horrible horrible".
Definition texto_constructor : Str.t := Str.lit "El constructor pollo pollo".

Definition sin_descripcion : gmap Str.t value :=
  body [("nombre", String (Str.lit "Ana"))]%string.

End Ejemplos.

(** ** Shapes of results *)

Module Forma.

(** A normalised text field holds at most 1000 code units. *)
Definition corto (s : option Str.t) : Prop :=
  match s with
  | Some s => (length s <= 1000)%nat
  | None => True
  end.

(** A normalised telephone: none, or ten digits. *)
Definition telefono_valido (s : option Str.t) : Prop :=
  match s with
  | Some d => length d = 10%nat /\ forallb Str.is_digit d = true
  | None => True
  end.

(** The property names that [normalizarDatos] reads. *)
Definition nombres_leidos : list string :=
  ["nombre"; "Nombre"; "telefono"; "Telefono"; "descripcion"; "Descripción";
   "descripción"; "sucursal"; "Sucursal"; "fecha_creacion"; "Created on"]%string.

(** The order of [ORDER BY confianza DESC, s.nombre]: [a] is listed no later
    than [b]. *)
Definition no_despues (a b : Sql.Candidata) : Prop :=
  (Sql.confianza b < Sql.confianza a)%Z
  \/ (Sql.confianza a = Sql.confianza b
      /\ Str.ltb (Sql.nombre b) (Sql.nombre a) = false).

(** The joined rows of the active branches. *)
Definition activas (c : Sql.Catalogo) : list (Sql.Sucursal * Sql.Municipio * Sql.Estado) :=
  filter (fun f => Sql.is_true (Sql.eq_bool (Sql.s_activa (fst (fst f))) (Some true)) = true)
         (Sql.unir c).

(** The conditions of the [CASE] with the confidence of each. *)
Definition niveles_de (busqueda : Sql.text) (f : Sql.Sucursal * Sql.Municipio * Sql.Estado)
  : list (Sql.tri * Z) :=
  combine (Sql.condiciones busqueda f) Spec.niveles.

(** The order of [ORDER BY confianza DESC] alone. *)
Definition por_confianza (a b : Sql.Candidata) : Prop :=
  (Sql.confianza b <= Sql.confianza a)%Z.

End Forma.
(** ** The cache, read off the rows *)

Module Filas.

Import Analizador.

(** The distinct ids, in the order of their first occurrence. *)
Fixpoint primeras_ids (l : list Z) : list Z :=
  match l with
  | [] => []
  | x :: l' => x :: List.filter (fun y => negb (y =? x)%Z) (primeras_ids l')
  end.

(** The subcategory that a row contributes to the category [id]. *)
Definition subcategoria_de (id : Z) (row : FilaCategoria) : list Subcategoria :=
  if (f_id row =? id)%Z then
    match f_subcategoria row with
    | Some ((_ :: _) as s) =>
        [{| sub_nombre := s; sub_keywords := default [] (f_keywords row) |}]
    | _ => []
    end
  else [].

Definition subcategorias_de (id : Z) (rows : list FilaCategoria) : list Subcategoria :=
  flat_map (subcategoria_de id) rows.

(** The name in the first row of the category [id]. *)
Definition nombre_de (id : Z) (rows : list FilaCategoria) : Str.t :=
  match List.find (fun row => (f_id row =? id)%Z) rows with
  | Some row => f_nombre row
  | None => []
  end.

Definition categoria_de (rows : list FilaCategoria) (id : Z) : Z * Categoria :=
  (id, {| cat_id := id; cat_nombre := nombre_de id rows;
          cat_subcategorias := subcategorias_de id rows |}).

(** The cache that a list of rows stands for. *)
Definition tabla (rows : list FilaCategoria) : Cache :=
  map (categoria_de rows) (primeras_ids (map f_id rows)).

(** Some subcategory of the cache holds the empty keyword. *)
Definition keyword_vacia (cache : Cache) : bool :=
  existsb (fun x => match snd x with [] => true | _ :: _ => false end)
          (Spec.aplanar cache).

End Filas.

(** ** The alphabet of the keywords *)

Module Letras.

(** A lower-case ASCII letter, a digit or the underscore. *)
Definition minuscula (c : N) : bool :=
  Str.is_digit c || ((0x61 <=? c) && (c <=? 0x7A)) || (c =? 0x5F).

End Letras.

(** ** What the pipeline writes *)

Module Escritura.

(** The customer row with its complaint counter set. *)
Definition con_total (total : Z) (c : Db.Cliente) : Db.Cliente :=
  {| Db.c_id := Db.c_id c; Db.c_nombre := Db.c_nombre c;
     Db.c_telefono := Db.c_telefono c;
     Db.c_segmento_cliente := Db.c_segmento_cliente c;
     Db.c_total_quejas := total |}.

(** The complaints of a customer. *)
Definition quejas_de (clienteId : Z) (t : Db.Tablas) : Z :=
  Z.of_nat (length (filter (fun q => Db.q_cliente_id q = clienteId) (Db.quejas t))).

(** The customers whose phone is the given one. *)
Definition con_telefono (telefono : option Str.t) (t : Db.Tablas) : list Db.Cliente :=
  filter (fun c => Sql.is_true (Sql.eq_text (Db.c_telefono c) telefono) = true)
         (Db.clientes t).

(** The body carries a usable phone: one with a digit in it. *)
Definition identificado (telefono : option Str.t) : bool :=
  match telefono with
  | None | Some [] => false
  | Some _ => true
  end.

(** A connection with an open transaction in good standing: the committed
    tables, the tables as the transaction sees them, the sequences and the
    number of requests sent. *)
Definition en_curso (c t : Db.Tablas) (s : Db.Secuencias) (n : nat) : Db.Mundo :=
  {| Db.confirmado := c; Db.secuencias := s; Db.transaccion := Some (t, false);
     Db.enviadas := n |}.

(** A connection with no transaction open. *)
Definition libre (t : Db.Tablas) (s : Db.Secuencias) (n : nat) : Db.Mundo :=
  {| Db.confirmado := t; Db.secuencias := s; Db.transaccion := None;
     Db.enviadas := n |}.

(** The tables with one more customer or one more complaint. *)
Definition mas_cliente (t : Db.Tablas) (c : Db.Cliente) : Db.Tablas :=
  {| Db.clientes := Db.clientes t ++ [c]; Db.quejas := Db.quejas t;
     Db.insights_ia := Db.insights_ia t |}.

Definition mas_queja (t : Db.Tablas) (q : Db.Queja) : Db.Tablas :=
  {| Db.clientes := Db.clientes t; Db.quejas := Db.quejas t ++ [q];
     Db.insights_ia := Db.insights_ia t |}.

End Escritura.

(** ** The query of GET /api/quejas *)

Module Listado.

Import Js.

(** One [if (filtro) { paramCount++; query += ...; params.push(filtro) }]. *)
Definition filtrar (clausula : string) (filtro : value)
    (estado : Str.t * list value * N) : Str.t * list value * N :=
  let '(query, params, paramCount) := estado in
  if truthy filtro then
    let paramCount := paramCount + 1 in
    (query ++ Str.lit clausula ++ Str.of_N paramCount, params ++ [filtro], paramCount)
  else estado.

(** The text and the parameters that the handler sends, from the four
    properties of [req.query] it reads; [limit] is 20 when absent. *)
Definition construir_consulta (limit sentimiento categoria urgencia_min : value)
  : Str.t * list value :=
  let limit := match limit with Undefined => Num 20 | _ => limit end in
  let estado := (Str.lit "SELECT * FROM vista_quejas_para_ia WHERE 1=1", [], 0) in
  let estado := filtrar " AND sentimiento = $" sentimiento estado in
  let estado := filtrar " AND categoria = $" categoria estado in
  let estado := filtrar " AND urgencia >= $" urgencia_min estado in
  let '(query, params, paramCount) := estado in
  let paramCount := paramCount + 1 in
  (query ++ Str.lit " ORDER BY fecha_creacion DESC LIMIT $" ++ Str.of_N paramCount,
   params ++ [limit]).

(** The numbers of the placeholders [$n] of a statement, in text order. *)
Fixpoint marcadores (s : Str.t) : list N :=
  match s with
  | [] => []
  | c :: s' =>
      (if c =? 0x24 then
         [fold_left (fun acc d => acc * 10 + (d - 0x30))
                    (fst (Analizador.span Str.is_digit s')) 0]
       else [])
      ++ marcadores s'
  end.

End Listado.

(** ** The category seeds of the set-up script *)

Module Semillas.

(** The columns of [categorias_quejas] and [subcategorias_quejas] that the
    script fills. *)
Record CategoriaQueja : Type := {
  c_id : Z;
  c_nombre : Str.t;
  c_descripcion : Str.t;
  c_nivel_criticidad : Z;
  c_tiempo_resolucion_esperado : Z;
  c_requiere_seguimiento : bool
}.

Record SubcategoriaQueja : Type := {
  sc_id : Z;
  sc_nombre : Str.t;
  sc_categoria_id : Z;
  sc_descripcion : Str.t;
  sc_keywords : option (list Str.t)
}.

(** The two tables and the sequences behind their [SERIAL] keys. *)
Record Base : Type := {
  categorias_quejas : list CategoriaQueja;
  categorias_quejas_id_seq : Z;
  subcategorias_quejas : list SubcategoriaQueja;
  subcategorias_quejas_id_seq : Z
}.

Definition categorias : list (Str.t * Str.t * Z * Z * bool) :=
  map (fun '(nombre, desc, criticidad, tiempo, seguimiento) =>
         (Str.lit nombre, Str.lit desc, criticidad, tiempo, seguimiento))
    [ ("Calidad del Producto", "Problemas con la comida, sabor, temperatura", 4, 30, true);
      ("Servicio al Cliente", "Atención del personal, tiempos de espera", 3, 60, true);
      ("Higiene y Limpieza", "Problemas de limpieza en restaurante", 5, 15, true);
      ("Precio y Facturación", "Problemas con precios, cobros incorrectos", 2, 120, false);
      ("Infraestructura", "Problemas con instalaciones, equipos", 3, 480, false);
      ("Entrega a Domicilio", "Problemas con delivery, tiempos, estado", 3, 45, true);
      ("Promociones", "Problemas con ofertas, descuentos", 2, 90, false);
      ("Personal", "Comportamiento inapropiado del staff", 4, 30, true);
      ("Tecnología", "Apps, sistemas de pago, WiFi", 2, 180, false);
      ("Satisfacción General", "Comentarios generales positivos/negativos", 1, 240, false)
    ]%string%Z.

Definition subcategorias : list (Str.t * Z * Str.t * list Str.t) :=
  map (fun '(nombre, catId, desc, keywords) =>
         (Str.lit nombre, catId, Str.lit desc, map Str.lit keywords))
    [ ("Comida Fría", 1, "Pollo o acompañamientos servidos fríos",
       ["frio"; "fría"; "temperatura"; "caliente"; "tibio"]);
      ("Pollo Crudo", 1, "Pollo mal cocido o crudo",
       ["crudo"; "rosa"; "sangre"; "mal cocido"; "rojo"]);
      ("Sabor Desagradable", 1, "Problemas con el sabor",
       ["malo"; "sabor"; "feo"; "horrible"; "raro"]);
      ("Demora Excesiva", 2, "Tiempos de espera muy largos",
       ["espera"; "demora"; "tarde"; "lento"; "tiempo"]);
      ("Personal Grosero", 2, "Mala actitud del personal",
       ["grosero"; "mala actitud"; "descortés"; "mal trato"]);
      ("Restaurante Sucio", 3, "Falta de limpieza en general",
       ["sucio"; "cochino"; "limpieza"; "asqueroso"]);
      ("Baños Sucios", 3, "Problemas específicos en baños",
       ["baño"; "sanitario"; "wc"; "sucio"]);
      ("Cobro Incorrecto", 4, "Problemas con facturación",
       ["cobro"; "precio"; "factura"; "caro"; "cuenta"]);
      ("Delivery Tardío", 6, "Problemas con entrega a domicilio",
       ["delivery"; "domicilio"; "entrega"; "tardó"]);
      ("App No Funciona", 9, "Problemas con aplicación móvil",
       ["app"; "aplicación"; "celular"; "no funciona"])
    ]%string%Z.

(** [INSERT INTO categorias_quejas (...) VALUES ($1, ..., $5) ON CONFLICT
    (nombre) DO NOTHING]: the key is drawn from the sequence whether or not
    the row goes in; a row of the same name makes the statement do nothing;
    a row of the same key is an error. *)
Definition insertar_categoria (fila : Str.t * Str.t * Z * Z * bool) (b : Base)
  : result unit * Base :=
  let '(nombre, desc, criticidad, tiempo, seguimiento) := fila in
  let id := categorias_quejas_id_seq b in
  let b := {| categorias_quejas := categorias_quejas b;
              categorias_quejas_id_seq := id + 1;
              subcategorias_quejas := subcategorias_quejas b;
              subcategorias_quejas_id_seq := subcategorias_quejas_id_seq b |} in
  if existsb (fun c => Str.eqb (c_nombre c) nombre) (categorias_quejas b) then (Ok tt, b)
  else if existsb (fun c => (c_id c =? id)%Z) (categorias_quejas b) then (Throw SqlError, b)
  else
    (Ok tt,
     {| categorias_quejas :=
          categorias_quejas b
          ++ [{| c_id := id; c_nombre := nombre; c_descripcion := desc;
                 c_nivel_criticidad := criticidad;
                 c_tiempo_resolucion_esperado := tiempo;
                 c_requiere_seguimiento := seguimiento |}];
        categorias_quejas_id_seq := categorias_quejas_id_seq b;
        subcategorias_quejas := subcategorias_quejas b;
        subcategorias_quejas_id_seq := subcategorias_quejas_id_seq b |}).

(** [INSERT INTO subcategorias_quejas (...) VALUES ($1, ..., $4) ON CONFLICT
    DO NOTHING]: the primary key is the only unique index of the table, so
    the clause applies to a row of the same key only; the category must
    exist ([REFERENCES categorias_quejas(id)]). *)
Definition insertar_subcategoria (fila : Str.t * Z * Str.t * list Str.t) (b : Base)
  : result unit * Base :=
  let '(nombre, catId, desc, keywords) := fila in
  let id := subcategorias_quejas_id_seq b in
  let b := {| categorias_quejas := categorias_quejas b;
              categorias_quejas_id_seq := categorias_quejas_id_seq b;
              subcategorias_quejas := subcategorias_quejas b;
              subcategorias_quejas_id_seq := id + 1 |} in
  if existsb (fun sc => (sc_id sc =? id)%Z) (subcategorias_quejas b) then (Ok tt, b)
  else if negb (existsb (fun c => (c_id c =? catId)%Z) (categorias_quejas b))
  then (Throw SqlError, b)
  else
    (Ok tt,
     {| categorias_quejas := categorias_quejas b;
        categorias_quejas_id_seq := categorias_quejas_id_seq b;
        subcategorias_quejas :=
          subcategorias_quejas b
          ++ [{| sc_id := id; sc_nombre := nombre; sc_categoria_id := catId;
                 sc_descripcion := desc; sc_keywords := Some keywords |}];
        subcategorias_quejas_id_seq := subcategorias_quejas_id_seq b |}).

(** [for (const fila of filas) { await client.query(...) }] inside the
    [try] of the script: the first error ends the loop. *)
Fixpoint for_of {A : Type} (paso : A -> Base -> result unit * Base) (filas : list A)
    (b : Base) : result unit * Base :=
  match filas with
  | [] => (Ok tt, b)
  | fila :: filas' =>
      match paso fila b with
      | (Ok _, b') => for_of paso filas' b'
      | (Throw e, b') => (Throw e, b')
      end
  end.

(** The two loops of [configurarBaseDatosIA], one after the other. *)
Definition insertar_categorias_y_subcategorias (b : Base) : result unit * Base :=
  match for_of insertar_categoria categorias b with
  | (Ok _, b') => for_of insertar_subcategoria subcategorias b'
  | (Throw e, b') => (Throw e, b')
  end.

(** The query of [cargarCaches]: [categorias_quejas c LEFT JOIN
    subcategorias_quejas sc ON c.id = sc.categoria_id], here in the order of
    the tables (the query itself fixes no order). *)
Definition consulta_categorias (b : Base) : list Analizador.FilaCategoria :=
  flat_map
    (fun c =>
       match List.filter (fun sc => (sc_categoria_id sc =? c_id c)%Z)
                         (subcategorias_quejas b) with
       | [] =>
           [{| Analizador.f_id := c_id c; Analizador.f_nombre := c_nombre c;
               Analizador.f_subcategoria := None; Analizador.f_keywords := None |}]
       | l =>
           map (fun sc =>
                  {| Analizador.f_id := c_id c; Analizador.f_nombre := c_nombre c;
                     Analizador.f_subcategoria := Some (sc_nombre sc);
                     Analizador.f_keywords := sc_keywords sc |}) l
       end)
    (categorias_quejas b).

(** The rows that a run of the subcategory loop adds, from the key [id] on. *)
Fixpoint filas_nuevas (id : Z) (filas : list (Str.t * Z * Str.t * list Str.t))
  : list SubcategoriaQueja :=
  match filas with
  | [] => []
  | (nombre, catId, desc, keywords) :: filas' =>
      {| sc_id := id; sc_nombre := nombre; sc_categoria_id := catId;
         sc_descripcion := desc; sc_keywords := Some keywords |}
      :: filas_nuevas (id + 1) filas'
  end.

(** The tables after a run of the subcategory loop that adds every row. *)
Definition tras_subcategorias (L : list (Str.t * Z * Str.t * list Str.t)) (b : Base) : Base :=
  {| categorias_quejas := categorias_quejas b;
     categorias_quejas_id_seq := categorias_quejas_id_seq b;
     subcategorias_quejas :=
       subcategorias_quejas b ++ filas_nuevas (subcategorias_quejas_id_seq b) L;
     subcategorias_quejas_id_seq :=
       subcategorias_quejas_id_seq b + Z.of_nat (length L) |}.

(** Keys come from the sequences: every key in a table is below the next
    value of its sequence. *)
Definition claves_de_secuencia (b : Base) : Prop :=
  Forall (fun c => (c_id c < categorias_quejas_id_seq b)%Z) (categorias_quejas b)
  /\ Forall (fun sc => (sc_id sc < subcategorias_quejas_id_seq b)%Z)
            (subcategorias_quejas b).

(** The tables before the first run of the script. *)
Definition vacia : Base :=
  {| categorias_quejas := []; categorias_quejas_id_seq := 1;
     subcategorias_quejas := []; subcategorias_quejas_id_seq := 1 |}.

(** The tables after the first run. *)
Definition sembrada : Base := snd (insertar_categorias_y_subcategorias vacia).

(** The category names that no subcategory of the seeds belongs to, the
    default category apart. *)
Definition sin_subcategorias : list Str.t :=
  map Str.lit ["Infraestructura"; "Promociones"; "Personal"]%string.

(** No row with a subcategory shares its category id with a row that
    carries one of the [nombres]. *)
Definition sin_alcance (nombres : list Str.t) (rows : list Analizador.FilaCategoria) : bool :=
  forallb
    (fun row =>
       forallb
         (fun primera =>
            implb (match Analizador.f_subcategoria row with Some _ => true | None => false end
                   && (Analizador.f_id primera =? Analizador.f_id row)%Z)
                  (negb (existsb (Str.eqb (Analizador.f_nombre primera)) nombres)))
         rows)
    rows.

End Semillas.

(** ** More sample data *)

Module Muestras.

(** What the query of the resolver gives on the sample catalogue for the hint "%". *)
Definition todas_con_porcentaje : list Sql.Candidata :=
  Eval vm_compute in
    match Sql.consulta_sucursales Ejemplos.catalogo (Some (Str.lit "%")) None with
    | Ok rows => rows
    | Throw _ => []
    end.

(** The body that the [/test-ia] endpoint of the AI server submits, at some
    instant. *)
Definition queja_prueba : gmap Str.t Js.value :=
  Ejemplos.body
    [("nombre", Js.String (Str.lit "Cliente Prueba IA"));
     ("telefono", Js.String (Str.lit "5512345678"));
     ("descripcion",
      Js.String (Str.lit "El pollo estaba horrible y frío, el servicio fue pésimo y tardaron mucho"));
     ("sucursal", Js.String (Str.lit "monterrey"));
     ("fecha_creacion", Js.String (Str.lit "2024-01-01T00:00:00.000Z"))]%string.

(** A customer as the normaliser leaves it, and a transaction just opened on
    the empty database. *)
Definition ana : Analizador.DatosNormalizados :=
  {| Analizador.nombre := Some (Str.lit "Ana");
     Analizador.telefono := Some (Str.lit "5512345678");
     Analizador.descripcion := Some (Str.lit "La comida estaba fria");
     Analizador.sucursal := None;
     Analizador.fecha_creacion := 0 |}.

Definition recien_abierta : Db.Mundo :=
  Escritura.en_curso (Db.confirmado Ejemplos.mundo) (Db.confirmado Ejemplos.mundo)
    (Db.secuencias Ejemplos.mundo) 2.

Definition tras_primera : Db.Mundo :=
  Eval vm_compute in
    snd (Analizador.obtenerOCrearCliente (fun _ => false) ana recien_abierta).

Definition tras_segunda : Db.Mundo :=
  Eval vm_compute in
    snd (Analizador.obtenerOCrearCliente (fun _ => false) ana tras_primera).

End Muestras.

(** * Properties *)

(** ** Text *)

Lemma startsWith_app (s p : Str.t) :
  Str.startsWith s p = true <-> exists b, s = p ++ b.
Proof.
  revert s. induction p as [|x p IH]; intros s; simpl.
  - split; [intros _; by exists s | done].
  - destruct s as [|y s]; simpl.
    + split; [done | intros [b Hb]; discriminate].
    + rewrite andb_true_iff, IH, N.eqb_eq. split.
      * intros [-> [b ->]]. by exists b.
      * intros [b Hb]. injection Hb as -> ->. split; [done | by exists b].
Qed.

(** [includes] is the substring test. *)
Lemma includes_substring (s p : Str.t) :
  Str.includes s p = true <-> exists a b, s = a ++ p ++ b.
Proof.
  induction s as [|y s IH].
  - simpl. rewrite orb_false_r, startsWith_app. split.
    + intros [b ->]. by exists [], b.
    + intros [a [b H]]. destruct a; [by exists b | discriminate].
  - cbn [Str.includes]. rewrite orb_true_iff, startsWith_app, IH. split.
    + intros [[b ->] | [a [b ->]]]; [by exists [], b | by exists (y :: a), b].
    + intros [a [b H]]. destruct a as [|z a].
      * left. by exists b.
      * right. injection H as -> ->. by exists a, b.
Qed.

(** ** LIKE against a pattern without wild cards *)

Lemma like_percent (s : Str.t) : Sql.like_match [0x25] s = true.
Proof. induction s as [|x s IH]; [reflexivity | by destruct s]. Qed.

Lemma like_prefix (p s : Str.t) :
  forallb Spec.plano p = true ->
  Sql.like_match (p ++ [0x25]) s = Str.startsWith s p.
Proof.
  revert s. induction p as [|c p IH]; intros s Hp.
  - simpl app. rewrite like_percent. by destruct s.
  - simpl in Hp. apply andb_true_iff in Hp as [Hc Hp].
    unfold Spec.plano in Hc.
    apply andb_true_iff in Hc as [Hc H3]. apply andb_true_iff in Hc as [H1 H2].
    apply negb_true_iff in H1, H2, H3.
    simpl app. cbn [Sql.like_match]. rewrite H1, H2, H3.
    destruct s as [|x s]; [reflexivity|].
    cbn [Str.startsWith]. rewrite IH by done. by rewrite N.eqb_sym.
Qed.

Lemma like_any (p s : Str.t) :
  Sql.like_match (0x25 :: p) s =
  Sql.like_match p s ||
  match s with
  | [] => false
  | _ :: s' => Sql.like_match (0x25 :: p) s'
  end.
Proof. by destruct s. Qed.

Lemma like_contains (p s : Str.t) :
  forallb Spec.plano p = true ->
  Sql.like_match (0x25 :: p ++ [0x25]) s = Str.includes s p.
Proof.
  intros Hp. induction s as [|x s IH]; rewrite like_any, like_prefix by done.
  - reflexivity.
  - by rewrite IH.
Qed.

(** ** The sentiment scorer *)

Lemma contar_acc (palabras : list Str.t) (texto : Str.t) (acc : Z) :
  Forall (fun k => forallb Spec.plano k = true /\ Str.toLowerCase k = k) palabras ->
  fold_left
    (fun cuenta palabra =>
       if Sql.is_true
            (Sql.LIKE (Sql.LOWER (Some texto))
                      (Sql.concat (Sql.concat Sql.pct (Some palabra)) Sql.pct))
       then (cuenta + 1)%Z else cuenta)
    palabras acc
  = (acc + Z.of_nat (Spec.cuenta palabras texto))%Z.
Proof.
  intros H. revert acc. induction H as [|k l [Hk Hl] _ IH]; intros acc.
  - unfold Spec.cuenta. simpl. lia.
  - cbn [fold_left]. rewrite IH. unfold Spec.cuenta. cbn [List.filter].
    unfold Spec.presente at 2. rewrite Hl.
    change (Sql.LIKE _ _)
      with (Some (Sql.like_match (0x25 :: k ++ [0x25]) (Str.toLowerCase texto))).
    rewrite like_contains by done. unfold Sql.is_true.
    destruct (Str.includes _ k); cbn [length]; lia.
Qed.

Lemma contar_cuenta (palabras : list Str.t) (texto : Str.t) :
  Forall (fun k => forallb Spec.plano k = true /\ Str.toLowerCase k = k) palabras ->
  Sql.contar palabras (Sql.LOWER (Some texto)) = Z.of_nat (Spec.cuenta palabras texto).
Proof. intros H. unfold Sql.contar. by rewrite contar_acc. Qed.

Lemma palabras_negativas_planas :
  Forall (fun k => forallb Spec.plano k = true /\ Str.toLowerCase k = k)
         Sql.palabras_negativas.
Proof. repeat constructor. Qed.

Lemma palabras_positivas_planas :
  Forall (fun k => forallb Spec.plano k = true /\ Str.toLowerCase k = k)
         Sql.palabras_positivas.
Proof. repeat constructor. Qed.

(** C2.  For every text the scorer returns the classification of section 4.2
    applied to the number of negative and of positive keywords present in
    the text as case-insensitive substrings: very negative with -0.80 when
    negCount > posCount + 1, negative with -0.40 when negCount > posCount,
    positive with 0.60 when posCount > negCount, neutral with 0.00
    otherwise.  The keywords of either list are pairwise distinct, so the
    counts are of distinct keywords; the empty text, like every tie, is
    neutral. *)
Theorem sentiment_classification (texto : Str.t) :
  Sql.analizar_sentimiento_basico (Some texto)
    = Spec.clasificar (Spec.negCount texto) (Spec.posCount texto)
  /\ NoDup Sql.palabras_negativas
  /\ NoDup Sql.palabras_positivas
  /\ Sql.analizar_sentimiento_basico (Some [])
     = {| Sql.sentimiento := Str.lit "neutral"; Sql.score := 0%Z |}
  /\ (forall n, Spec.clasificar n n
      = {| Sql.sentimiento := Str.lit "neutral"; Sql.score := 0%Z |}).
Proof.
  split; [|split; [|split; [|split]]].
  - unfold Sql.analizar_sentimiento_basico, Spec.clasificar, Spec.negCount, Spec.posCount.
    rewrite !contar_cuenta
      by (apply palabras_negativas_planas || apply palabras_positivas_planas).
    set (n := Spec.cuenta Sql.palabras_negativas texto).
    set (p := Spec.cuenta Sql.palabras_positivas texto).
    destruct (Nat.ltb_spec (p + 1) n), (Nat.ltb_spec p n), (Nat.ltb_spec n p);
      repeat match goal with
             | |- context [(?a >? ?b)%Z] => destruct (Z.gtb_spec a b); try lia
             end; reflexivity.
  - apply (bool_decide_unpack _). vm_compute. reflexivity.
  - apply (bool_decide_unpack _). vm_compute. reflexivity.
  - vm_compute. reflexivity.
  - intros n. unfold Spec.clasificar.
    destruct (Nat.ltb_spec (n + 1) n); [lia|].
    destruct (Nat.ltb_spec n n); [lia|]. reflexivity.
Qed.

(** ** The branch resolver *)

Lemma insertar_In (x y : Sql.Candidata) (l : list Sql.Candidata) :
  In y (Sql.insertar x l) -> y = x \/ In y l.
Proof.
  induction l as [|z l IH]; simpl.
  - intros [<-|[]]. by left.
  - destruct (Sql.antes z x); simpl; intuition.
Qed.

Lemma ordenar_In (y : Sql.Candidata) (l : list Sql.Candidata) :
  In y (Sql.ordenar l) -> In y l.
Proof.
  unfold Sql.ordenar.
  assert (forall acc, In y (fold_left (fun acc x => Sql.insertar x acc) l acc) ->
                      In y acc \/ In y l) as H.
  { induction l as [|x l IH]; intros acc; simpl; [by left|].
    intros Hy. apply IH in Hy as [Hy|Hy]; [|by right; right].
    apply insertar_In in Hy as [->|Hy]; [right; by left | by left]. }
  intros Hy. by apply H in Hy as [[]|Hy].
Qed.

Lemma In_take {A} (n : nat) (l : list A) (y : A) :
  In y (firstn n l) -> In y l.
Proof.
  revert l. induction n as [|n IH]; intros [|x l]; simpl; try tauto.
  intros [->|H]; [by left | right; by apply IH].
Qed.

Lemma LIMIT_In (limite : option Z) (l rows : list Sql.Candidata) (y : Sql.Candidata) :
  Sql.LIMIT limite l = Ok rows -> In y rows -> In y l.
Proof.
  unfold Sql.LIMIT. destruct limite as [n|].
  - destruct (n <? 0)%Z; [discriminate|]. intros [= <-]. apply In_take.
  - by intros [= <-].
Qed.

(** A row that passes the [WHERE] clause satisfies one of the six
    conditions of the [CASE], so that the [ELSE] branch is not taken. *)
Lemma filtro_nivel (busqueda : Sql.text) (f : Sql.Sucursal * Sql.Municipio * Sql.Estado) :
  Sql.is_true (Sql.filtro busqueda f) = true ->
  existsb Sql.is_true (Sql.condiciones busqueda f) = true
  /\ In (Sql.confianza_de busqueda f) Spec.niveles
  /\ Sql.razon_de busqueda f <> Str.lit "Coincidencia baja".
Proof.
  destruct f as [[s m] e].
  unfold Sql.filtro, Sql.confianza_de, Sql.razon_de, Sql.condiciones.
  set (patron := Sql.LOWER (Sql.concat (Sql.concat Sql.pct busqueda) Sql.pct)).
  destruct (Sql.eq_bool (Sql.s_activa s) (Some true)) as [[|]|];
  destruct (Sql.eq_text (Sql.int_to_text (Sql.s_external_key s)) busqueda) as [[|]|];
  destruct (Sql.eq_text (Sql.LOWER (Some (Sql.s_nombre s))) (Sql.LOWER busqueda)) as [[|]|];
  destruct (Sql.eq_text (Sql.LOWER (Some (Sql.m_nombre m))) (Sql.LOWER busqueda)) as [[|]|];
  destruct (Sql.LIKE (Sql.LOWER (Some (Sql.s_nombre s))) patron) as [[|]|];
  destruct (Sql.LIKE (Sql.LOWER (Some (Sql.m_nombre m))) patron) as [[|]|];
  destruct (Sql.eq_text (Sql.LOWER (Some (Sql.e_codigo e))) (Sql.LOWER busqueda)) as [[|]|];
  intros H; try discriminate H; clear H;
  (split; [reflexivity | split; [vm_compute; tauto | vm_compute; discriminate]]).
Qed.

(** As it is declared the function returns no row at all: the second,
    third, fourth and sixth columns of its select list are not of the types
    of its [RETURNS TABLE], and [RETURN QUERY] raises on every call. *)
Lemma buscar_sucursales_inteligente_raises (c : Sql.Catalogo) (busqueda : Sql.text)
    (limite : option Z) :
  Sql.buscar_sucursales_inteligente c busqueda limite = Throw SqlError.
Proof. reflexivity. Qed.

(** What [RETURN QUERY] hands over are the rows of its query. *)
Lemma RETURN_QUERY_Ok {A} (tabla consulta : list Sql.Tipo) (r : result (list A))
    (rows : list A) :
  Sql.RETURN_QUERY tabla consulta r = Ok rows -> r = Ok rows.
Proof. unfold Sql.RETURN_QUERY. by destruct (Sql.mismos_tipos _ _). Qed.

(** C6.  Every row of the [SELECT] of the branch resolver, and with it
    every candidate that the resolver returns, comes from a joined row that
    passes the prequalification filter; such a row satisfies at least one of
    the six tier conditions, and so the candidate's confidence is one of
    1.00, 0.95, 0.85, 0.75, 0.65 and 0.60: the 0.30 "weak match" branch is
    never taken. *)
Theorem confidence_tiers (c : Sql.Catalogo) (busqueda : Sql.text) (limite : option Z)
    (rows : list Sql.Candidata) (r : Sql.Candidata) :
  Sql.consulta_sucursales c busqueda limite = Ok rows
  \/ Sql.buscar_sucursales_inteligente c busqueda limite = Ok rows ->
  In r rows ->
  In (Sql.confianza r) Spec.niveles
  /\ Sql.confianza r <> 30%Z
  /\ Sql.razon r <> Str.lit "Coincidencia baja"
  /\ exists f, In f (Sql.unir c)
       /\ r = Sql.fila busqueda f
       /\ Sql.is_true (Sql.filtro busqueda f) = true
       /\ existsb Sql.is_true (Sql.condiciones busqueda f) = true.
Proof.
  intros Hrows Hr.
  assert (Sql.consulta_sucursales c busqueda limite = Ok rows) as Hsel.
  { destruct Hrows as [H|H]; [exact H|].
    unfold Sql.buscar_sucursales_inteligente in H. by apply RETURN_QUERY_Ok in H. }
  clear Hrows. unfold Sql.consulta_sucursales in Hsel.
  eapply LIMIT_In in Hr; [|exact Hsel].
  apply ordenar_In, in_map_iff in Hr as [f [<- Hf]].
  apply list_elem_of_In, list_elem_of_filter in Hf as [Hfil Hf].
  apply list_elem_of_In in Hf.
  destruct (filtro_nivel busqueda f Hfil) as [Hex [Hniv Hraz]].
  assert (Sql.confianza (Sql.fila busqueda f) = Sql.confianza_de busqueda f) as Hc
    by (by destruct f as [[? ?] ?]).
  assert (Sql.razon (Sql.fila busqueda f) = Sql.razon_de busqueda f) as Hz
    by (by destruct f as [[? ?] ?]).
  rewrite Hc, Hz. split; [done|]. split.
  - intros H30. rewrite H30 in Hniv. vm_compute in Hniv. intuition discriminate.
  - split; [done|]. by exists f.
Qed.

(** The [SELECT] on the sample catalogue for "monterrey" with limit 3:
    its one row is "1 - Pino Suarez", a city match at 0.85. *)
Lemma confidence_tiers_witness :
  In (Sql.confianza Ejemplos.pino_suarez) Spec.niveles
  /\ Sql.confianza Ejemplos.pino_suarez <> 30%Z
  /\ Sql.razon Ejemplos.pino_suarez <> Str.lit "Coincidencia baja"
  /\ exists f, In f (Sql.unir Ejemplos.catalogo)
       /\ Ejemplos.pino_suarez = Sql.fila (Some (Str.lit "monterrey")) f
       /\ Sql.is_true (Sql.filtro (Some (Str.lit "monterrey")) f) = true
       /\ existsb Sql.is_true (Sql.condiciones (Some (Str.lit "monterrey")) f) = true.
Proof.
  apply (confidence_tiers Ejemplos.catalogo (Some (Str.lit "monterrey")) (Some 3%Z)
           [Ejemplos.pino_suarez] Ejemplos.pino_suarez).
  - left. vm_compute. reflexivity.
  - simpl. left. reflexivity.
Defined.

(** ** The categorizer *)

Lemma find_split {A} (p : A -> bool) (l : list A) (x : A) :
  List.find p l = Some x ->
  exists pre post, l = pre ++ x :: post
    /\ Forall (fun y => p y = false) pre /\ p x = true.
Proof.
  induction l as [|y l IH]; simpl; [discriminate|].
  destruct (p y) eqn:Hy.
  - intros [= ->]. by exists [], l.
  - intros H. destruct (IH H) as [pre [post [-> [Hpre Hx]]]].
    exists (y :: pre), post. split; [done|]. split; [by constructor | done].
Qed.

Lemma find_none_Forall {A} (p : A -> bool) (l : list A) :
  List.find p l = None -> Forall (fun y => p y = false) l.
Proof.
  induction l as [|y l IH]; simpl; [constructor|].
  destruct (p y) eqn:Hy; [discriminate|]. intros H. constructor; auto.
Qed.

Lemma find_app {A} (p : A -> bool) (l1 l2 : list A) :
  List.find p (l1 ++ l2)
  = match List.find p l1 with Some x => Some x | None => List.find p l2 end.
Proof. induction l1 as [|y l1 IH]; simpl; [done|]. by destruct (p y). Qed.

Lemma buscar_keyword_find (texto : Str.t) (id : Z) (c : Analizador.Categoria)
    (s : Analizador.Subcategoria) (ks : list Str.t) :
  List.find (Spec.coincide texto) (map (fun k => (id, c, s, k)) ks)
  = option_map (fun k => (id, c, s, k))
      (Analizador.buscar_keyword (Str.toLowerCase texto) ks).
Proof.
  induction ks as [|k ks IH]; simpl; [done|].
  unfold Spec.coincide at 1, Spec.presente. simpl.
  by destruct (Str.includes _ _).
Qed.

Lemma buscar_subcategoria_find (texto : Str.t) (id : Z) (c : Analizador.Categoria)
    (subs : list Analizador.Subcategoria) :
  Analizador.buscar_subcategoria (Str.toLowerCase texto) id c subs
  = option_map Spec.construir
      (List.find (Spec.coincide texto)
         (flat_map (fun s => map (fun k => (id, c, s, k)) (Analizador.sub_keywords s))
                   subs)).
Proof.
  induction subs as [|s subs IH]; simpl; [done|].
  rewrite find_app, buscar_keyword_find.
  by destruct (Analizador.buscar_keyword _ _).
Qed.

Lemma buscar_categoria_find (texto : Str.t) (cache : Analizador.Cache) :
  Analizador.buscar_categoria (Str.toLowerCase texto) cache
  = option_map Spec.construir (List.find (Spec.coincide texto) (Spec.aplanar cache)).
Proof.
  induction cache as [|[id c] cache IH]; simpl; [done|].
  rewrite find_app, buscar_subcategoria_find. simpl.
  destruct (List.find _ (flat_map _ (Analizador.cat_subcategorias c)));
    simpl; [done | apply IH].
Qed.

Lemma prop_categorizacion (a b c d e : Js.value) :
  let o := Analizador.categorizacion a b c d e in
  Analizador.prop o "categoria_id" = a
  /\ Analizador.prop o "categoria_nombre" = b
  /\ Analizador.prop o "subcategoria_id" = c
  /\ Analizador.prop o "subcategoria_nombre" = d
  /\ Analizador.prop o "keyword_encontrada" = e
  /\ Analizador.prop o "descripcion" = Js.Undefined.
Proof. repeat split; reflexivity. Qed.

(** C4.  The categorizer returns the result of the first keyword that
    matches (case-insensitive substring test) in the order of the cache:
    categories in registration order, their subcategories in registration
    order, the keywords of each in list order.  No entry before the one
    that produced the result matches, whatever matches after it; when no
    keyword matches at all the result is the default category, with no
    subcategory and no matched keyword. *)
Theorem categorizer_first_match (cache : Analizador.Cache) (texto : Str.t) :
  let r := Analizador.categorizarQueja cache texto in
  match List.find (Spec.coincide texto) (Spec.aplanar cache) with
  | Some (id, c, s, k) =>
      (exists pre post,
          Spec.aplanar cache = pre ++ (id, c, s, k) :: post
          /\ Forall (fun y => Spec.coincide texto y = false) pre
          /\ Spec.presente texto k = true)
      /\ In s (Analizador.cat_subcategorias c)
      /\ In k (Analizador.sub_keywords s)
      /\ Analizador.prop r "categoria_id" = Js.Num id
      /\ Analizador.prop r "categoria_nombre" = Js.String (Analizador.cat_nombre c)
      /\ Analizador.prop r "subcategoria_nombre" = Js.String (Analizador.sub_nombre s)
      /\ Analizador.prop r "keyword_encontrada" = Js.String k
  | None =>
      Forall (fun y => Spec.coincide texto y = false) (Spec.aplanar cache)
      /\ r = Analizador.categoria_por_defecto
      /\ Analizador.prop r "categoria_id" = Js.Num 10
      /\ Analizador.prop r "categoria_nombre" = Js.String (Str.lit "Satisfacción General")
      /\ Analizador.prop r "subcategoria_id" = Js.Null
      /\ Analizador.prop r "subcategoria_nombre" = Js.Null
      /\ Analizador.prop r "keyword_encontrada" = Js.Null
  end.
Proof.
  intros r. subst r. unfold Analizador.categorizarQueja.
  rewrite buscar_categoria_find.
  destruct (List.find _ _) as [[[[id c] s] k]|] eqn:Hfind.
  - split; [by apply find_split in Hfind|].
    apply find_some in Hfind as [Hin _].
    unfold Spec.aplanar in Hin.
    apply in_flat_map in Hin as [[id' c'] [_ Hin]].
    apply in_flat_map in Hin as [s' [Hs Hin]].
    apply in_map_iff in Hin as [k' [[= <- <- <- <-] Hk]].
    split; [done|]. split; [done|].
    simpl. unfold Spec.construir.
    destruct (prop_categorizacion (Js.Num id') (Js.String (Analizador.cat_nombre c'))
                (Analizador.prop_subcategoria s' "id")
                (Analizador.prop_subcategoria s' "nombre") (Js.String k'))
      as (H1 & H2 & _ & H4 & H5 & _).
    by rewrite H1, H2, H4, H5.
  - split; [by apply find_none_Forall|]. simpl. repeat split.
Qed.

(** C8.  The objects that [cargarCaches] stores for the subcategories hold
    a name and a keyword list and nothing else, so [subcategoria.id] is
    [undefined] in every result of the categorizer: the result carries the
    name of the matched subcategory but never its id, and the column
    [subcategoria_id] of the complaint is always NULL.  On the text "El
    pollo estaba frio" the keyword "frio" of "Comida Fría" matches and the
    id is [undefined]. *)
Theorem subcategory_id_never_set :
  (forall cache texto,
      let r := Analizador.categorizarQueja cache texto in
      (Analizador.prop r "subcategoria_id" = Js.Undefined
       \/ Analizador.prop r "subcategoria_id" = Js.Null)
      /\ Analizador.entero (Analizador.prop r "subcategoria_id") = None)
  /\ (let r := Analizador.categorizarQueja Ejemplos.cache Ejemplos.texto_frio in
      Analizador.prop r "keyword_encontrada" = Js.String (Str.lit "frio")
      /\ Analizador.prop r "subcategoria_nombre" = Js.String (Str.lit "Comida Fría")
      /\ Analizador.prop r "subcategoria_id" = Js.Undefined).
Proof.
  split.
  - intros cache texto r. subst r. unfold Analizador.categorizarQueja.
    rewrite buscar_categoria_find.
    destruct (List.find _ _) as [[[[id c] s] k]|]; simpl.
    + unfold Spec.construir.
      destruct (prop_categorizacion (Js.Num id) (Js.String (Analizador.cat_nombre c))
                  (Analizador.prop_subcategoria s "id")
                  (Analizador.prop_subcategoria s "nombre") (Js.String k))
        as (_ & _ & H3 & _).
      rewrite H3. split; [by left | reflexivity].
    + split; [by right | reflexivity].
  - vm_compute. repeat split.
Qed.

(** ** Urgency *)

Lemma descripcion_de_categorizacion (a b c d e : Js.value) :
  Analizador.descripcion_de (Analizador.categorizacion a b c d e) = Ok [].
Proof. reflexivity. Qed.

Lemma calcularUrgencia_categorizacion (s : Sql.Sentimiento) (a b c d e : Js.value) :
  Analizador.calcularUrgencia s (Analizador.categorizacion a b c d e)
  = Ok (Z.min (1 + Spec.bono_sentimiento s + Spec.bono_categoria b) 5).
Proof.
  unfold Analizador.calcularUrgencia.
  rewrite descripcion_de_categorizacion.
  destruct (prop_categorizacion a b c d e) as (_ & -> & _).
  unfold Spec.bono_sentimiento, Spec.bono_categoria.
  cbn [mbind result_bind].
  change (existsb _ Analizador.palabrasUrgentes) with false. cbv iota.
  destruct (Str.eqb (Sql.sentimiento s) (Str.lit "muy_negativo")),
    (Str.eqb (Sql.sentimiento s) (Str.lit "negativo")),
    (Js.eq_string b (Str.lit "Higiene y Limpieza")),
    (Js.eq_string b (Str.lit "Calidad del Producto")),
    (Js.eq_string b (Str.lit "Personal")); reflexivity.
Qed.

Lemma categorizarQueja_forma (cache : Analizador.Cache) (texto : Str.t) :
  exists a b c d e,
    Analizador.categorizarQueja cache texto = Analizador.categorizacion a b c d e.
Proof.
  unfold Analizador.categorizarQueja. rewrite buscar_categoria_find.
  destruct (List.find _ _) as [[[[id c] s] k]|]; simpl; unfold Spec.construir;
    repeat eexists.
Qed.

Lemma some_urgente_texto (texto : Str.t) (palabras : list Str.t) :
  Basico.some_urgente (Js.String texto) palabras
  = Ok (existsb (fun palabra => Str.includes (Str.toLowerCase texto) palabra) palabras).
Proof.
  induction palabras as [|p l IH]; simpl; [done|].
  destruct (Str.includes _ p); [done | apply IH].
Qed.

Lemma calcular_urgencia_texto (s : Sql.Sentimiento) (texto : Str.t) :
  Basico.calcular_urgencia s (Js.String texto)
  = Ok (if Spec.urgente_basico texto then 5
        else if (Spec.bono_sentimiento s =? 2)%Z then 4
        else if (Spec.bono_sentimiento s =? 1)%Z then 3
        else 1)%Z.
Proof.
  unfold Basico.calcular_urgencia. rewrite some_urgente_texto.
  unfold Spec.urgente_basico, Spec.bono_sentimiento. cbn [mbind result_bind].
  destruct (existsb _ Basico.palabrasUrgentes); [done|].
  destruct (Str.eqb (Sql.sentimiento s) (Str.lit "muy_negativo")),
    (Str.eqb (Sql.sentimiento s) (Str.lit "negativo")),
    (Str.eqb (Sql.sentimiento s) (Str.lit "positivo")); reflexivity.
Qed.

(** C3.  The override of [calcularUrgencia] reads the complaint text from
    the property [descripcion] of its second argument, and the object that
    [categorizarQueja] returns has no such property: the override never
    applies in the pipeline, whose urgency is the clamped sum alone.  For
    "Me llevaron al hospital", which holds the emergency keyword "hospital",
    the pipeline computes urgency 1.  The basic server tests the text
    itself and gives 5 on its own urgent words. *)
Theorem emergency_override_skipped :
  (forall s cache texto,
      Analizador.descripcion_de (Analizador.categorizarQueja cache texto) = Ok []
      /\ exists nombre,
           Analizador.prop (Analizador.categorizarQueja cache texto) "categoria_nombre"
           = nombre
           /\ Analizador.calcularUrgencia s (Analizador.categorizarQueja cache texto)
              = Ok (Z.min (1 + Spec.bono_sentimiento s + Spec.bono_categoria nombre) 5))
  /\ Spec.emergencia Ejemplos.texto_hospital = true
  /\ Analizador.calcularUrgencia
       (Sql.analizar_sentimiento_basico (Some Ejemplos.texto_hospital))
       (Analizador.categorizarQueja Ejemplos.cache Ejemplos.texto_hospital)
     = Ok 1%Z
  /\ (forall s texto,
        Basico.calcular_urgencia s (Js.String texto)
        = Ok (if Spec.urgente_basico texto then 5
              else if (Spec.bono_sentimiento s =? 2)%Z then 4
              else if (Spec.bono_sentimiento s =? 1)%Z then 3
              else 1)%Z).
Proof.
  split; [|split; [|split]].
  - intros s cache texto.
    destruct (categorizarQueja_forma cache texto) as (a & b & c & d & e & ->).
    split; [apply descripcion_de_categorizacion|].
    exists b. split; [apply prop_categorizacion | apply calcularUrgencia_categorizacion].
  - vm_compute. reflexivity.
  - vm_compute. reflexivity.
  - apply calcular_urgencia_texto.
Qed.

(** C10, as stated, fails.  On the text "Pésimo servicio" the scorer
    answers negative and the categorizer, on the sample cache, the default
    category; the text holds no urgent word of either server.  The basic
    server computes 3 and [calcularUrgencia] computes 2. *)
Lemma urgency_implementations_differ :
  let s := Sql.analizar_sentimiento_basico (Some Ejemplos.texto_pesimo) in
  let categoria := Analizador.categorizarQueja Ejemplos.cache Ejemplos.texto_pesimo in
  Sql.sentimiento s = Str.lit "negativo"
  /\ categoria = Analizador.categoria_por_defecto
  /\ Spec.urgente_basico Ejemplos.texto_pesimo = false
  /\ Spec.emergencia Ejemplos.texto_pesimo = false
  /\ Basico.calcular_urgencia s (Js.String Ejemplos.texto_pesimo) = Ok 3%Z
  /\ Analizador.calcularUrgencia s categoria = Ok 2%Z
  /\ Basico.calcular_urgencia s (Js.String Ejemplos.texto_pesimo)
     <> Analizador.calcularUrgencia s categoria.
Proof. vm_compute. repeat split; discriminate. Qed.

(** [calcularUrgencia] on any object, by what its [descripcion] holds. *)
Lemma calcularUrgencia_forma (s : Sql.Sentimiento) (cat : gmap string Js.value) :
  Analizador.calcularUrgencia s cat
  = let suma :=
      Z.min (1 + Spec.bono_sentimiento s
             + Spec.bono_categoria (Analizador.prop cat "categoria_nombre")) 5 in
    match Analizador.prop cat "descripcion" with
    | Js.Undefined | Js.Null => Ok suma
    | Js.String d => Ok (if Spec.emergencia d then 5%Z else suma)
    | _ => Throw TypeError
    end.
Proof.
  unfold Analizador.calcularUrgencia, Analizador.descripcion_de.
  unfold Spec.bono_sentimiento, Spec.bono_categoria, Spec.emergencia.
  destruct (Analizador.prop cat "descripcion") as [ | |b|n|d|l|props];
    cbn [mbind result_bind]; try done.
  - change (existsb _ Analizador.palabrasUrgentes) with false. cbv iota zeta.
    destruct (Str.eqb (Sql.sentimiento s) (Str.lit "muy_negativo")),
      (Str.eqb (Sql.sentimiento s) (Str.lit "negativo")),
      (Js.eq_string (Analizador.prop cat "categoria_nombre") (Str.lit "Higiene y Limpieza")),
      (Js.eq_string (Analizador.prop cat "categoria_nombre") (Str.lit "Calidad del Producto")),
      (Js.eq_string (Analizador.prop cat "categoria_nombre") (Str.lit "Personal"));
      reflexivity.
  - change (existsb _ Analizador.palabrasUrgentes) with false. cbv iota zeta.
    destruct (Str.eqb (Sql.sentimiento s) (Str.lit "muy_negativo")),
      (Str.eqb (Sql.sentimiento s) (Str.lit "negativo")),
      (Js.eq_string (Analizador.prop cat "categoria_nombre") (Str.lit "Higiene y Limpieza")),
      (Js.eq_string (Analizador.prop cat "categoria_nombre") (Str.lit "Calidad del Producto")),
      (Js.eq_string (Analizador.prop cat "categoria_nombre") (Str.lit "Personal"));
      reflexivity.
  - cbv zeta.
    destruct (existsb _ Analizador.palabrasUrgentes); [reflexivity|].
    destruct (Str.eqb (Sql.sentimiento s) (Str.lit "muy_negativo")),
      (Str.eqb (Sql.sentimiento s) (Str.lit "negativo")),
      (Js.eq_string (Analizador.prop cat "categoria_nombre") (Str.lit "Higiene y Limpieza")),
      (Js.eq_string (Analizador.prop cat "categoria_nombre") (Str.lit "Calidad del Producto")),
      (Js.eq_string (Analizador.prop cat "categoria_nombre") (Str.lit "Personal"));
      reflexivity.
Qed.

(** C10, amended.  On a description that holds no urgent word of the basic
    server and no emergency keyword of the AI server, the basic server maps
    the sentiment directly (very negative 4, negative 3, otherwise 1) and
    [calcularUrgencia] adds the bonuses of the sentiment and of the category
    to a base of 1, up to 5, whether its override looks at the text of the
    complaint or, as in the code, at a property of the categorization that
    is not there.  The two return the same urgency exactly in two cases:
    the sentiment is very negative or negative and the category is "Calidad
    del Producto" or "Personal" (4 or 3); the sentiment is neither and the
    category carries no bonus (1). *)
Theorem urgency_agreement (s : Sql.Sentimiento) (categoria : gmap string Js.value)
    (texto : Str.t) :
  Spec.urgente_basico texto = false ->
  Spec.emergencia texto = false ->
  Analizador.prop categoria "descripcion" = Js.Undefined
  \/ Analizador.prop categoria "descripcion" = Js.String texto ->
  let bono := Spec.bono_categoria (Analizador.prop categoria "categoria_nombre") in
  Basico.calcular_urgencia s (Js.String texto)
  = Ok (match Spec.bono_sentimiento s with 2 => 4 | 1 => 3 | _ => 1 end)%Z
  /\ Analizador.calcularUrgencia s categoria
     = Ok (Z.min (1 + Spec.bono_sentimiento s + bono) 5)
  /\ (Basico.calcular_urgencia s (Js.String texto)
      = Analizador.calcularUrgencia s categoria
      <->
      ((1 <= Spec.bono_sentimiento s)%Z /\ bono = 1%Z)
      \/ (Spec.bono_sentimiento s = 0%Z /\ bono = 0%Z)).
Proof.
  intros Hbasico Hemergencia Hdescripcion bono.
  rewrite calcular_urgencia_texto, calcularUrgencia_forma, Hbasico. cbv zeta.
  fold bono.
  assert (match Analizador.prop categoria "descripcion" with
          | Js.Undefined | Js.Null =>
              Ok (Z.min (1 + Spec.bono_sentimiento s + bono) 5)
          | Js.String d0 =>
              Ok (if Spec.emergencia d0 then 5%Z
                  else Z.min (1 + Spec.bono_sentimiento s + bono) 5)
          | _ => Throw TypeError
          end = Ok (Z.min (1 + Spec.bono_sentimiento s + bono) 5)) as ->.
  { destruct Hdescripcion as [-> | ->]; [done|]. by rewrite Hemergencia. }
  assert (Spec.bono_sentimiento s = 0 \/ Spec.bono_sentimiento s = 1
          \/ Spec.bono_sentimiento s = 2)%Z as Hs.
  { unfold Spec.bono_sentimiento.
    destruct (Str.eqb _ _); [tauto|]. destruct (Str.eqb _ _); tauto. }
  assert (bono = 0 \/ bono = 1 \/ bono = 2)%Z as Hb.
  { unfold bono, Spec.bono_categoria.
    destruct (Js.eq_string _ _); [tauto|]. destruct (Js.eq_string _ _); [tauto|].
    destruct (Js.eq_string _ _); tauto. }
  clearbody bono.
  destruct Hs as [-> | [-> | ->]]; destruct Hb as [-> | [-> | ->]];
    simpl; (split; [reflexivity|]); (split; [reflexivity|]);
    split; intros H; try discriminate H;
    try (injection H as H; discriminate H);
    intuition (try discriminate; try lia).
Qed.

Lemma urgency_agreement_witness :
  Basico.calcular_urgencia Ejemplos.negativo (Js.String Ejemplos.texto_pesimo) = Ok 3%Z
  /\ Analizador.calcularUrgencia Ejemplos.negativo Analizador.categoria_por_defecto
     = Ok 2%Z
  /\ (Basico.calcular_urgencia Ejemplos.negativo (Js.String Ejemplos.texto_pesimo)
      = Analizador.calcularUrgencia Ejemplos.negativo Analizador.categoria_por_defecto
      <->
      ((1 <= 1)%Z /\ 0%Z = 1%Z) \/ (1%Z = 0%Z /\ 0%Z = 0%Z)).
Proof.
  apply (urgency_agreement Ejemplos.negativo Analizador.categoria_por_defecto
           Ejemplos.texto_pesimo); [reflexivity | reflexivity | left; reflexivity].
Defined.

(** ** The normalizer *)

Lemma In_drop {A} (n : nat) (l : list A) (y : A) : In y (skipn n l) -> In y l.
Proof.
  revert l. induction n as [|n IH]; intros [|x l]; simpl; try tauto.
  intros H. right. by apply IH.
Qed.

Section Normalizador.

Variable ahora : Z.
Variable Date_parse : Str.t -> option Z.

Lemma limpiarTexto_texto (s : Str.t) :
  Analizador.limpiarTexto (Js.String s)
  = Ok (match s with
        | [] => None
        | _ :: _ => Some (Str.substring0 1000 (Str.trim s))
        end).
Proof. by destruct s. Qed.

Lemma filter_digits (s : Str.t) :
  forallb Str.is_digit (filter (fun c => Str.is_digit c = true) s) = true.
Proof.
  apply forallb_forall. intros c Hc.
  by apply list_elem_of_In, list_elem_of_filter in Hc as [Hc _].
Qed.

(** A telephone that is a string never makes [limpiarTelefono] throw: the
    outcome is "no phone" or ten digits. *)
Lemma limpiarTelefono_texto (s : Str.t) :
  exists r,
    Analizador.limpiarTelefono (Js.String s) = Ok r
    /\ match r with
       | None => True
       | Some d => length d = 10%nat /\ forallb Str.is_digit d = true
       end.
Proof.
  unfold Analizador.limpiarTelefono.
  destruct (negb (Js.truthy (Js.String s))); [by eexists|].
  destruct (Js.eq_string (Js.String s) (Str.lit "edna")); [by eexists|].
  cbn [Js.includes Js.toString mbind result_bind].
  destruct (Str.includes s (Str.lit "url")); [by eexists|].
  set (d := filter (fun c => Str.is_digit c = true) s).
  pose proof (filter_digits s) as Hd. fold d in Hd.
  destruct (Nat.eqb_spec (length d) 10) as [H10|_].
  - eexists. split; [done|]. done.
  - destruct (Nat.eqb_spec (length d) 12) as [H12|_]; [|by eexists].
    destruct (Str.startsWith d (Str.lit "52")); [|by eexists].
    eexists. split; [done|]. split.
    + unfold Str.substringFrom. rewrite length_skipn. lia.
    + apply forallb_forall. intros c Hc.
      apply (proj1 (forallb_forall _ _) Hd).
      by apply In_drop in Hc.
Qed.

(** The normalised text is never null. *)
Lemma descripcion_no_nula (datos : gmap Str.t Js.value) (d : Analizador.DatosNormalizados) :
  Analizador.normalizarDatos ahora Date_parse datos = Ok d ->
  Analizador.descripcion d <> None.
Proof.
  unfold Analizador.normalizarDatos.
  destruct (Analizador.limpiarTexto (Js.or_ (Analizador.campo datos "nombre") _))
    as [n|]; cbn [mbind result_bind]; [|done].
  destruct (Analizador.limpiarTelefono _) as [t|]; cbn [mbind result_bind]; [|done].
  set (v := Js.or_ _ (Js.String (Str.lit "Sin descripción"))).
  assert (Js.truthy v = true) as Hv.
  { subst v. unfold Js.or_ at 1. by destruct (Js.truthy (Js.or_ _ _)) eqn:H. }
  assert (Analizador.limpiarTexto v
          = Js.toString v ≫= fun s => Ok (Some (Str.substring0 1000 (Str.trim s)))) as ->
    by (unfold Analizador.limpiarTexto; by rewrite Hv).
  destruct (Js.toString v) as [s|]; cbn [mbind result_bind]; [|done].
  destruct (Analizador.limpiarTexto (Js.or_ (Analizador.campo datos "sucursal") _))
    as [u|]; cbn [mbind result_bind]; [|done].
  by intros [= <-].
Qed.

(** On a body whose properties are all strings [normalizarDatos] returns. *)
Lemma normalizarDatos_textos (datos : gmap Str.t Js.value) :
  (forall k v, datos !! k = Some v -> exists s, v = Js.String s) ->
  exists d, Analizador.normalizarDatos ahora Date_parse datos = Ok d.
Proof.
  intros H.
  assert (forall k, Analizador.campo datos k = Js.Undefined
                    \/ exists s, Analizador.campo datos k = Js.String s) as Hc.
  { intros k. unfold Analizador.campo.
    destruct (datos !! Str.lit k) as [v|] eqn:Hk; [|by left].
    apply H in Hk as [s ->]. right. by exists s. }
  assert (forall a b, (a = Js.Undefined \/ exists s, a = Js.String s) ->
                      (b = Js.Undefined \/ exists s, b = Js.String s) ->
                      Js.or_ a b = Js.Undefined \/ exists s, Js.or_ a b = Js.String s) as Hor.
  { intros a b [->|[s ->]] Hb; [done|]. unfold Js.or_.
    destruct (Js.truthy (Js.String s)); [right; by exists s | done]. }
  assert (forall v, (v = Js.Undefined \/ exists s, v = Js.String s) ->
                    exists r, Analizador.limpiarTexto v = Ok r) as Htexto.
  { intros v [->|[s ->]]; [by eexists|]. rewrite limpiarTexto_texto. by eexists. }
  assert (forall v, (v = Js.Undefined \/ exists s, v = Js.String s) ->
                    exists r, Analizador.limpiarTelefono v = Ok r) as Htel.
  { intros v [->|[s ->]]; [by eexists|].
    destruct (limpiarTelefono_texto s) as [r [Hr _]]. by exists r. }
  unfold Analizador.normalizarDatos.
  destruct (Htexto _ (Hor _ _ (Hc "nombre"%string) (Hc "Nombre"%string))) as [n ->].
  destruct (Htel _ (Hor _ _ (Hc "telefono"%string) (Hc "Telefono"%string))) as [t ->].
  cbn [mbind result_bind].
  destruct (Htexto _ (Hor _ _ (Hor _ _ (Hor _ _ (Hc "descripcion"%string)
                                          (Hc "Descripción"%string))
                                  (Hc "descripción"%string))
                        (or_intror (ex_intro _ (Str.lit "Sin descripción") eq_refl))))
    as [d ->].
  destruct (Htexto _ (Hor _ _ (Hc "sucursal"%string) (Hc "Sucursal"%string))) as [u ->].
  cbn [mbind result_bind]. by eexists.
Qed.

End Normalizador.

(** C5.  A description made of white space only is truthy, so the sentinel
    "Sin descripción" is not put in its place, and trimming leaves the empty
    string: the normalised text is empty. *)
Theorem blank_description_normalised_empty (ahora : Z) (Date_parse : Str.t -> option Z) :
  Analizador.normalizarDatos ahora Date_parse Ejemplos.solo_espacios
  = Ok {| Analizador.nombre := None;
          Analizador.telefono := None;
          Analizador.descripcion := Some [];
          Analizador.sucursal := None;
          Analizador.fecha_creacion := ahora |}.
Proof. reflexivity. Qed.

(** C7.  A telephone sent as a JSON number has no method [includes]: the
    call in [limpiarTelefono] throws, and so does [normalizarDatos]. *)
Theorem numeric_phone_throws (ahora : Z) (Date_parse : Str.t -> option Z) :
  Analizador.limpiarTelefono (Js.Num 5512345678) = Throw TypeError
  /\ Analizador.normalizarDatos ahora Date_parse Ejemplos.telefono_numerico
     = Throw TypeError.
Proof. split; reflexivity. Qed.

(** ** The pipeline and its transaction *)

Section Transaccion.

Variable falla : nat -> bool.

Lemma dentro_ret {A} (a : A) : Spec.dentro (mret a : Db.M A).
Proof. intros w Hw. simpl. done. Qed.

Lemma dentro_lift {A} (r : result A) : Spec.dentro (Db.lift r).
Proof. intros w Hw. unfold Db.lift. by destruct r. Qed.

Lemma dentro_bind {A B} (m : Db.M A) (k : A -> Db.M B) :
  Spec.dentro m -> (forall a, Spec.dentro (k a)) -> Spec.dentro (m ≫= k).
Proof.
  intros Hm Hk w Hw. unfold mbind, Db.M_bind.
  specialize (Hm w Hw). destruct (m w) as [[a|e] w1]; [|done].
  destruct Hm as [Hc Ht]. specialize (Hk a w1 Ht).
  destruct (k a w1) as [[b|e] w2]; [|congruence].
  destruct Hk as [Hc2 Ht2]. split; congruence.
Qed.

Lemma dentro_query {A} (s : Db.Sentencia A) : Spec.dentro (Db.query falla s).
Proof.
  intros w Hw. unfold Db.query.
  destruct (falla (Db.enviadas w)); [done|].
  simpl. destruct (Db.transaccion w) as [[t [|]]|]; [done| |done].
  destruct (s t (Db.secuencias w)) as [[[a t'] s']|e]; simpl; done.
Qed.

Lemma atomico_bind {A B} (P : B -> Prop) (m : Db.M A) (k : A -> Db.M B) :
  Spec.dentro m -> (forall a, Spec.atomico P (k a)) -> Spec.atomico P (m ≫= k).
Proof.
  intros Hm Hk w Hw. unfold mbind, Db.M_bind.
  specialize (Hm w Hw). destruct (m w) as [[a|e] w1]; [|done].
  destruct Hm as [Hc Ht]. specialize (Hk a w1 Ht).
  destruct (k a w1) as [[b|e] w2]; [done | congruence].
Qed.

Lemma atomico_COMMIT {A} (P : A -> Prop) (a : A) :
  P a -> Spec.atomico P (Db.COMMIT falla ≫= fun _ => mret a).
Proof.
  intros Ha w Hw. unfold mbind, Db.M_bind, Db.COMMIT.
  destruct (falla (Db.enviadas w)); [done|].
  simpl. by destruct (Db.transaccion w) as [[t [|]]|].
Qed.

(** [try { BEGIN; resto } catch (error) { ROLLBACK; throw error }] on a
    connection with no transaction open. *)
Lemma try_BEGIN_ROLLBACK {A} (P : A -> Prop) (resto : Db.M A) (w : Db.Mundo) :
  Spec.atomico P resto ->
  Db.transaccion w = None ->
  match Db.try_catch (Db.BEGIN falla ≫= fun _ => resto)
          (fun error => Db.ROLLBACK falla ≫= fun _ => Db.throw error) w with
  | (Ok a, w') => Db.transaccion w' = None /\ P a
  | (Throw _, w') => Db.confirmado w' = Db.confirmado w /\ Db.transaccion w' = None
  end.
Proof.
  intros Hat Hw.
  unfold Db.try_catch, mbind, Db.M_bind, Db.BEGIN, Db.ROLLBACK, Db.throw.
  destruct (falla (Db.enviadas w)).
  { simpl. by destruct (falla _). }
  simpl. change (Db.transaccion (Db.enviar w)) with (Db.transaccion w). rewrite Hw.
  match goal with
  | |- context [resto ?w0] =>
      specialize (Hat w0); destruct (resto w0) as [[a|e] w1]
  end.
  - by apply Hat.
  - simpl in Hat. specialize (Hat ltac:(done)).
    simpl. by destruct (falla _).
Qed.

Section Pasos.

Variable catalogo : Sql.Catalogo.

Lemma dentro_analizarSentimiento (texto : option Str.t) :
  Spec.dentro (Analizador.analizarSentimiento falla texto).
Proof. apply dentro_query. Qed.

Lemma dentro_buscarSucursalInteligente (u : option Str.t) :
  Spec.dentro (Analizador.buscarSucursalInteligente falla catalogo u).
Proof.
  unfold Analizador.buscarSucursalInteligente.
  destruct u as [[|x u]|]; try apply dentro_ret.
  apply dentro_bind; [apply dentro_query|].
  intros [|mejor rows]; apply dentro_ret.
Qed.

Lemma dentro_obtenerOCrearCliente (datos : Analizador.DatosNormalizados) :
  Spec.dentro (Analizador.obtenerOCrearCliente falla datos).
Proof.
  unfold Analizador.obtenerOCrearCliente.
  apply dentro_bind.
  - destruct (Analizador.telefono datos) as [[|x t]|]; try apply dentro_ret.
    apply dentro_bind; [apply dentro_query | intros; apply dentro_ret].
  - intros [id|]; [apply dentro_ret | apply dentro_query].
Qed.

Lemma dentro_generarInsights (quejaId : Z) (categoria : Analizador.Categorizacion)
    (urgencia : Z) :
  Spec.dentro (Analizador.generarInsightsSiEsNecesario falla quejaId categoria urgencia).
Proof.
  unfold Analizador.generarInsightsSiEsNecesario.
  destruct (4 <=? urgencia)%Z; [|apply dentro_ret].
  apply dentro_bind; [apply dentro_lift | intros; apply dentro_query].
Qed.

End Pasos.

End Transaccion.

(** What [procesarQuejaConIA] does on a connection with no transaction
    open: when it throws, the committed tables are those it found, whichever
    request failed and whatever was written before; when it returns, the
    transaction is closed. *)
Theorem procesarQuejaConIA_atomic (ahora : Z) (Date_parse : Str.t -> option Z)
    (falla : nat -> bool) (catalogo : Sql.Catalogo) (cache : Analizador.Cache)
    (datos : gmap Str.t Js.value) (w : Db.Mundo) :
  Db.transaccion w = None ->
  match Analizador.procesarQuejaConIA ahora Date_parse falla catalogo cache datos w with
  | (Ok r, w') => Db.transaccion w' = None /\ Analizador.r_success r = true
  | (Throw _, w') => Db.confirmado w' = Db.confirmado w /\ Db.transaccion w' = None
  end.
Proof.
  intros Hw. unfold Analizador.procesarQuejaConIA.
  unfold mbind at 1, Db.M_bind at 1. unfold Db.connect at 1.
  destruct (falla (Db.enviadas w)); [done|].
  change (Db.confirmado w) with (Db.confirmado (Db.enviar w)).
  apply (try_BEGIN_ROLLBACK falla (fun r => Analizador.r_success r = true));
    [|exact Hw].
  repeat first
    [ apply atomico_COMMIT; reflexivity
    | apply atomico_bind; [|intros ?]
    | apply dentro_lift
    | apply dentro_query
    | apply dentro_analizarSentimiento
    | apply dentro_buscarSucursalInteligente
    | apply dentro_obtenerOCrearCliente
    | apply dentro_generarInsights
    | progress cbv zeta ].
Qed.

(** X26.  The webhook of the AI server answers 200 with the result of the
    pipeline or, on every failure of the pipeline, 500 with the committed
    tables as they were: whichever request is rejected and whatever the
    body, no partial write is left. *)
Corollary webhook_all_or_nothing (ahora : Z) (Date_parse : Str.t -> option Z)
    (falla : nat -> bool) (catalogo : Sql.Catalogo) (cache : Analizador.Cache)
    (body : gmap Str.t Js.value) (w : Db.Mundo) :
  Db.transaccion w = None ->
  let '(respuesta, w') :=
    Analizador.webhook_nueva_queja ahora Date_parse falla catalogo cache body w in
  (Analizador.success respuesta = true
   /\ Analizador.status respuesta = 200%Z
   /\ exists r, Analizador.data respuesta = Some r /\ Analizador.r_success r = true)
  \/ (Analizador.success respuesta = false
      /\ Analizador.status respuesta = 500%Z
      /\ Db.confirmado w' = Db.confirmado w).
Proof.
  intros Hw. unfold Analizador.webhook_nueva_queja.
  pose proof (procesarQuejaConIA_atomic ahora Date_parse falla catalogo cache body w Hw)
    as H.
  destruct (Analizador.procesarQuejaConIA _ _ _ _ _ _ _) as [[r|e] w'].
  - left. simpl. destruct H as [_ H]. eauto.
  - right. simpl. by destruct H as [H _].
Qed.

(** C1.  The handler of the basic server sends its statements outside any
    transaction.  For the complaint of a new customer, when the insertion
    into [quejas] (the fifth request on the connection) is rejected, the
    response is an error, and the customer row inserted just before stays
    in the committed tables: a partial write.  The same happens with no
    request rejected when the body has no description: the customer is
    inserted, then [descripcion.toLowerCase()] throws.  On the AI server the
    first complaint with the same insertion rejected leaves the tables as
    they were. *)
Theorem basic_webhook_partial_write :
  let '(respuesta, w') :=
    Basico.webhook_nueva_queja 0 (Spec.falla_en 4) Ejemplos.catalogo (fun _ => [])
      Ejemplos.queja_ana Ejemplos.mundo in
  let '(respuesta2, w2) :=
    Basico.webhook_nueva_queja 0 (fun _ => false) Ejemplos.catalogo (fun _ => [])
      Ejemplos.sin_descripcion Ejemplos.mundo in
  let '(respuesta_ia, w_ia) :=
    Analizador.webhook_nueva_queja 0 (fun _ => None) (Spec.falla_en 5)
      Ejemplos.catalogo Ejemplos.cache Ejemplos.queja_ana Ejemplos.mundo in
  Db.clientes (Db.confirmado Ejemplos.mundo) = []
  /\ Basico.success respuesta = false
  /\ Basico.status respuesta = 500%Z
  /\ Db.quejas (Db.confirmado w') = []
  /\ map Db.c_nombre (Db.clientes (Db.confirmado w')) = [Some (Str.lit "Ana")]
  /\ Basico.success respuesta2 = false
  /\ Db.quejas (Db.confirmado w2) = []
  /\ map Db.c_nombre (Db.clientes (Db.confirmado w2)) = [Some (Str.lit "Ana")]
  /\ Analizador.success respuesta_ia = false
  /\ Db.confirmado w_ia = Db.confirmado Ejemplos.mundo.
Proof. vm_compute. repeat split. Qed.

(** ** The keyword extractor *)

Lemma Str_eqb_eq (a b : Str.t) : Str.eqb a b = true <-> a = b.
Proof.
  revert b. induction a as [|x a IH]; intros [|y b]; simpl; try done.
  rewrite andb_true_iff, N.eqb_eq, IH. split; [by intros [-> ->] | by intros [= -> ->]].
Qed.

Lemma Str_eqb_refl (a : Str.t) : Str.eqb a a = true.
Proof. by apply Str_eqb_eq. Qed.

Lemma Str_eqb_neq (a b : Str.t) : Str.eqb a b = false <-> a <> b.
Proof.
  rewrite <- Str_eqb_eq. destruct (Str.eqb a b); split; congruence.
Qed.

Lemma Str_eqb_sym (a b : Str.t) : Str.eqb a b = Str.eqb b a.
Proof.
  destruct (Str.eqb a b) eqn:H1, (Str.eqb b a) eqn:H2; try done.
  - apply Str_eqb_eq in H1 as ->. by rewrite Str_eqb_refl in H2.
  - apply Str_eqb_eq in H2 as ->. by rewrite Str_eqb_refl in H1.
Qed.

(** *** Counting *)

Lemma veces_snoc (p x : Str.t) (l : list Str.t) :
  Spec.veces p (l ++ [x]) = (Spec.veces p l + if Str.eqb p x then 1 else 0)%nat.
Proof.
  unfold Spec.veces. rewrite List.filter_app, length_app. simpl.
  by destruct (Str.eqb p x).
Qed.

Lemma existsb_eqb_In (x : Str.t) (l : list Str.t) :
  existsb (Str.eqb x) l = true <-> In x l.
Proof.
  rewrite existsb_exists. split.
  - intros [y [Hy Hxy]]. by apply Str_eqb_eq in Hxy as ->.
  - intros H. exists x. split; [done | apply Str_eqb_refl].
Qed.

Lemma primeras_In (x : Str.t) (l : list Str.t) : In x (Spec.primeras l) <-> In x l.
Proof.
  induction l as [|y l IH]; simpl; [done|].
  rewrite filter_In, IH, negb_true_iff, Str_eqb_neq.
  destruct (decide (y = x)) as [->|Hne]; [tauto|].
  split; [tauto|]. intros [H|H]; [tauto|]. right. split; [done | congruence].
Qed.

Lemma primeras_NoDup (l : list Str.t) : NoDup (Spec.primeras l).
Proof.
  induction l as [|y l IH]; simpl; [constructor|].
  apply NoDup_cons_2.
  - rewrite list_elem_of_In, filter_In, negb_true_iff, Str_eqb_neq. tauto.
  - apply NoDup_ListNoDup, List.NoDup_filter, NoDup_ListNoDup, IH.
Qed.

Lemma primeras_snoc (x : Str.t) (l : list Str.t) :
  Spec.primeras (l ++ [x])
  = if existsb (Str.eqb x) l then Spec.primeras l else Spec.primeras l ++ [x].
Proof.
  induction l as [|y l IH]; simpl; [done|].
  rewrite IH. rewrite (Str_eqb_sym x y).
  destruct (Str.eqb y x) eqn:Hyx; simpl.
  - apply Str_eqb_eq in Hyx as ->.
    destruct (existsb (Str.eqb x) l); [done|].
    rewrite List.filter_app. simpl. rewrite Str_eqb_refl. simpl.
    by rewrite app_nil_r.
  - destruct (existsb (Str.eqb x) l); [done|].
    rewrite List.filter_app. simpl. rewrite (Str_eqb_sym x y), Hyx. done.
Qed.

Lemma get_own_map (g : Str.t -> Analizador.fval) (L : list Str.t) (x : Str.t) :
  Analizador.get_own (map (fun p => (p, g p)) L) x
  = if existsb (Str.eqb x) L then Some (g x) else None.
Proof.
  induction L as [|y L IH]; simpl; [done|].
  rewrite (Str_eqb_sym x y). destruct (Str.eqb y x) eqn:Hyx; simpl; [|done].
  by apply Str_eqb_eq in Hyx as ->.
Qed.

Lemma set_own_absent (g : Str.t -> Analizador.fval) (L : list Str.t) (x : Str.t)
    (v : Analizador.fval) :
  existsb (Str.eqb x) L = false ->
  Analizador.set_own (map (fun p => (p, g p)) L) x v
  = map (fun p => (p, g p)) L ++ [(x, v)].
Proof.
  induction L as [|y L IH]; simpl; [done|].
  rewrite (Str_eqb_sym x y). intros H. apply orb_false_iff in H as [Hyx HL].
  rewrite Hyx. by rewrite IH.
Qed.

Lemma set_own_present (g : Str.t -> Analizador.fval) (L : list Str.t) (x : Str.t)
    (v : Analizador.fval) :
  List.NoDup L -> In x L ->
  Analizador.set_own (map (fun p => (p, g p)) L) x v
  = map (fun p => (p, if Str.eqb p x then v else g p)) L.
Proof.
  induction 1 as [|y L Hy HL IH]; simpl; [done|].
  destruct (Str.eqb y x) eqn:Hyx.
  - apply Str_eqb_eq in Hyx as ->. intros _. f_equal.
    apply map_ext_in. intros p Hp.
    destruct (Str.eqb p x) eqn:Hpx; [|done].
    apply Str_eqb_eq in Hpx as ->. done.
  - intros [->|Hx]; [by rewrite Str_eqb_refl in Hyx|]. by rewrite IH.
Qed.

Lemma heredada_false (x : Str.t) :
  Spec.heredada x = false ->
  Str.eqb x Analizador.__proto__ = false
  /\ find (fun m => Str.eqb (Str.lit (fst m)) x) Analizador.metodos_heredados = None.
Proof.
  unfold Spec.heredada. intros H. apply orb_false_iff in H as [H1 H2].
  split; [done|].
  destruct (find _ _) as [m|] eqn:Hf; [|done].
  apply find_some in Hf as [Hin Hm].
  assert (existsb (fun m => Str.eqb (Str.lit (fst m)) x) Analizador.metodos_heredados = true)
    as He by (apply existsb_exists; eauto).
  congruence.
Qed.

Lemma veces_absent (x : Str.t) (l : list Str.t) :
  existsb (Str.eqb x) l = false -> Spec.veces x l = 0%nat.
Proof.
  unfold Spec.veces. induction l as [|y l IH]; simpl; [done|].
  intros H. apply orb_false_iff in H as [Hy Hl]. rewrite Hy. by apply IH.
Qed.

Lemma contar_paso (pre : list Str.t) (x : Str.t) :
  Spec.heredada x = false ->
  Analizador.asignar (Spec.tabla pre) x (Analizador.mas_uno (Spec.tabla pre) x)
  = Spec.tabla (pre ++ [x]).
Proof.
  intros Hx. apply heredada_false in Hx as [Hproto Hmet].
  unfold Analizador.asignar, Analizador.mas_uno. rewrite Hproto, Hmet.
  unfold Spec.tabla. rewrite get_own_map, primeras_snoc.
  assert (existsb (Str.eqb x) (Spec.primeras pre) = existsb (Str.eqb x) pre) as Hex.
  { apply eq_true_iff_eq. by rewrite !existsb_eqb_In, primeras_In. }
  rewrite Hex. destruct (existsb (Str.eqb x) pre) eqn:Hin.
  - rewrite set_own_present.
    + apply map_ext. intros p. f_equal. rewrite veces_snoc.
      destruct (Str.eqb p x) eqn:Hpx.
      * apply Str_eqb_eq in Hpx as ->. f_equal.
        destruct (Z.eqb_spec (Z.of_nat (Spec.veces x pre)) 0); lia.
      * f_equal. lia.
    + apply NoDup_ListNoDup, primeras_NoDup.
    + apply primeras_In. by apply existsb_eqb_In.
  - rewrite set_own_absent by congruence.
    rewrite map_app. simpl. f_equal.
    + apply map_ext_in. intros p Hp. f_equal. rewrite veces_snoc.
      destruct (Str.eqb p x) eqn:Hpx; [|f_equal; lia].
      apply Str_eqb_eq in Hpx as ->. apply (proj1 (primeras_In _ _)) in Hp.
      apply (proj2 (existsb_eqb_In _ _)) in Hp. congruence.
    + f_equal. f_equal. f_equal. rewrite veces_snoc, Str_eqb_refl.
      by rewrite veces_absent.
Qed.

Lemma contar_palabras_tabla (palabras : list Str.t) :
  Forall (fun p => Spec.heredada p = false) palabras ->
  Analizador.contar_palabras palabras = Spec.tabla palabras.
Proof.
  unfold Analizador.contar_palabras.
  assert (forall pre,
             Forall (fun p => Spec.heredada p = false) palabras ->
             fold_left (fun frecuencia palabra =>
                          Analizador.asignar frecuencia palabra
                            (Analizador.mas_uno frecuencia palabra))
                       palabras (Spec.tabla pre)
             = Spec.tabla (pre ++ palabras)) as H.
  { induction palabras as [|x l IH]; intros pre Hl; simpl.
    - by rewrite app_nil_r.
    - apply Forall_cons in Hl as [Hx Hl].
      rewrite contar_paso by done. rewrite IH by done.
      by rewrite <- app_assoc. }
  apply (H []).
Qed.

(** *** Tokens are not array indices *)

Lemma digit_not_space (c : N) : Str.is_digit c = true -> Str.is_space c = false.
Proof.
  unfold Str.is_digit, Str.is_space. intros H.
  apply andb_true_iff in H as [H1 H2]. apply N.leb_le in H1, H2.
  repeat (apply orb_false_intro);
    try (apply N.eqb_neq; lia);
    apply andb_false_iff; (left; apply N.leb_gt; lia) || (right; apply N.leb_gt; lia).
Qed.

Lemma trimStart_digits (s : Str.t) :
  forallb Str.is_digit s = true -> Str.trimStart s = s.
Proof.
  destruct s as [|c s]; simpl; [done|].
  intros H. apply andb_true_iff in H as [Hc _]. by rewrite digit_not_space.
Qed.

Lemma trim_digits (s : Str.t) : forallb Str.is_digit s = true -> Str.trim s = s.
Proof.
  intros H. unfold Str.trim. rewrite (trimStart_digits s H).
  rewrite trimStart_digits; [apply rev_involutive|].
  apply forallb_forall. intros c Hc. apply in_rev in Hc.
  by apply (proj1 (forallb_forall _ _) H).
Qed.

Lemma span_all (p : N -> bool) (s : Str.t) :
  forallb p s = true -> Analizador.span p s = (s, []).
Proof.
  induction s as [|c s IH]; simpl; [done|].
  intros H. apply andb_true_iff in H as [Hc Hs]. by rewrite Hc, IH.
Qed.

Lemma digits_not_NaN (s : Str.t) :
  forallb Str.is_digit s = true -> Analizador.isNaN s = false.
Proof.
  intros H. unfold Analizador.isNaN. rewrite trim_digits by done.
  destruct s as [|c r] eqn:Hs; [done|]. rewrite <- Hs in *.
  assert (((c =? 0x2B) || (c =? 0x2D)) = false) as ->.
  { assert (Str.is_digit c = true) as Hc
      by (rewrite Hs in H; simpl in H; by apply andb_true_iff in H as [? _]).
    unfold Str.is_digit in Hc. apply andb_true_iff in Hc as [H1 H2].
    apply N.leb_le in H1, H2.
    apply orb_false_intro; apply N.eqb_neq; lia. }
  unfold Analizador.decimal. rewrite span_all by done.
  assert (negb (length s =? 0)%nat = true) as -> by (by rewrite Hs).
  simpl. by rewrite !orb_true_r.
Qed.

Lemma indice_not_NaN (k : Str.t) (n : N) :
  Analizador.indice k = Some n -> Analizador.isNaN k = false.
Proof.
  unfold Analizador.indice. destruct k as [|c k]; [done|].
  destruct (decide (c :: k = [0x30])) as [->|Hne]; [done|].
  assert (forall X : option N,
             match c :: k with
             | [] => None
             | [0x30] => Some 0
             | _ :: _ => X
             end = Some n -> X = Some n) as Hm.
  { intros X. destruct c as [|p]; [by destruct k|].
    repeat (destruct p as [p|p|]; try done);
      by destruct k. }
  intros H. apply Hm in H. clear Hm.
  destruct (Str.is_digit c && negb (c =? 0x30) && forallb Str.is_digit (c :: k)) eqn:Hd;
    [|done].
  apply andb_true_iff in Hd as [_ Hd]. by apply digits_not_NaN.
Qed.

Lemma palabras_no_indice (texto : Str.t) (p : Str.t) :
  In p (Analizador.palabras_de texto) -> Analizador.indice p = None.
Proof.
  unfold Analizador.palabras_de. intros H.
  apply list_elem_of_In, list_elem_of_filter in H as [H _].
  apply andb_true_iff in H as [_ H].
  destruct (Analizador.indice p) as [n|] eqn:Hi; [|done].
  apply indice_not_NaN in Hi. congruence.
Qed.

Lemma Object_entries_sin_indices (o : Analizador.Frecuencia) :
  Forall (fun e => Analizador.indice (fst e) = None) o ->
  Analizador.Object_entries o = o.
Proof.
  intros H. unfold Analizador.Object_entries.
  assert (forall acc,
             fold_left (fun acc e => match Analizador.indice (fst e) with
                                     | Some n => Analizador.insertar_indice (n, e) acc
                                     | None => acc
                                     end) o acc = acc) as Hf.
  { induction H as [|e o He Ho IH]; intros acc; simpl; [done|].
    rewrite He. apply IH. }
  rewrite Hf. clear Hf. simpl.
  induction H as [|e o He Ho IH]; [done|].
  rewrite filter_cons_True by done. by rewrite IH.
Qed.

(** *** The sort *)

Lemma comparar_cuentas (y x : Str.t * Analizador.fval) :
  Spec.es_cuenta y -> Spec.es_cuenta x -> Analizador.comparar y x = (Spec.peso x - Spec.peso y)%Z.
Proof.
  intros [n Hn] [m Hm]. unfold Analizador.comparar, Spec.peso. by rewrite Hn, Hm.
Qed.

Lemma insertar_In_entry (x z : Str.t * Analizador.fval)
    (l : list (Str.t * Analizador.fval)) :
  In z (Analizador.insertar x l) -> z = x \/ In z l.
Proof.
  induction l as [|y l IH]; simpl.
  - intros [<-|[]]. by left.
  - destruct (Analizador.comparar y x <=? 0)%Z; simpl; intuition.
Qed.

Lemma insertar_Permutation (x : Str.t * Analizador.fval)
    (l : list (Str.t * Analizador.fval)) :
  Permutation (Analizador.insertar x l) (x :: l).
Proof.
  induction l as [|y l IH]; simpl; [done|].
  destruct (Analizador.comparar y x <=? 0)%Z; [|done].
  rewrite IH. apply perm_swap.
Qed.

Lemma insertar_sorted (L : list (Str.t * Analizador.fval)) (x : Str.t * Analizador.fval)
    (acc : list (Str.t * Analizador.fval)) :
  Spec.es_cuenta x ->
  Forall Spec.es_cuenta acc ->
  (forall y, In y acc -> Spec.antes_en L y x) ->
  StronglySorted (Spec.orden L) acc ->
  StronglySorted (Spec.orden L) (Analizador.insertar x acc).
Proof.
  intros Hx Hacc Hantes Hs.
  induction Hs as [|y acc Hs IH Hy]; simpl.
  - repeat constructor.
  - apply Forall_cons in Hacc as [Hcy Hacc].
    rewrite (comparar_cuentas y x) by done.
    destruct (Z.leb_spec (Spec.peso x - Spec.peso y) 0).
    + constructor.
      * apply IH; [done|]. intros z Hz. apply Hantes. by right.
      * apply List.Forall_forall. intros z Hz.
        apply insertar_In_entry in Hz as [->|Hz].
        -- unfold Spec.orden. destruct (decide (Spec.peso x = Spec.peso y)) as [Heq|Hne].
           ++ right. split; [done|]. apply Hantes. by left.
           ++ left. lia.
        -- by apply (proj1 (List.Forall_forall _ _) Hy).
    + constructor; [by constructor|].
      constructor; [left; lia|].
      apply List.Forall_forall. intros z Hz.
      pose proof (proj1 (List.Forall_forall _ _) Hy z Hz) as [Hlt|[Heq _]];
        left; lia.
Qed.

Lemma sort_fold (L rest hechas acc : list (Str.t * Analizador.fval)) :
  L = hechas ++ rest ->
  Forall Spec.es_cuenta L ->
  Permutation acc hechas ->
  StronglySorted (Spec.orden L) acc ->
  let r := fold_left (fun acc x => Analizador.insertar x acc) rest acc in
  Permutation r L /\ StronglySorted (Spec.orden L) r.
Proof.
  revert hechas acc. induction rest as [|x rest IH]; intros hechas acc HL Hc Hp Hs; simpl.
  - rewrite app_nil_r in HL. subst. done.
  - assert (Forall Spec.es_cuenta hechas /\ Spec.es_cuenta x /\ Forall Spec.es_cuenta rest)
      as (Hch & Hcx & Hcr).
    { subst L. apply Forall_app in Hc as [? Hc]. by apply Forall_cons in Hc as [? ?]. }
    apply (IH (hechas ++ [x])).
    + by rewrite <- app_assoc.
    + done.
    + rewrite insertar_Permutation, Hp. apply Permutation_cons_append.
    + apply insertar_sorted; [done| | |done].
      * eapply Permutation_Forall; [symmetry; exact Hp | done].
      * intros y Hy. eapply Permutation_in in Hy; [|exact Hp].
        apply in_split in Hy as (d1 & d2 & ->).
        exists d1, (d2 ++ x :: rest). split.
        -- rewrite HL. by rewrite <- !app_assoc.
        -- apply in_or_app. right. by left.
Qed.

Lemma sort_spec (L : list (Str.t * Analizador.fval)) :
  Forall Spec.es_cuenta L ->
  Permutation (Analizador.sort L) L /\ StronglySorted (Spec.orden L) (Analizador.sort L).
Proof.
  intros Hc. apply (sort_fold L L [] []); try done. constructor.
Qed.

Lemma StronglySorted_map {A B} (R : A -> A -> Prop) (R' : B -> B -> Prop) (g : A -> B)
    (l : list A) :
  (forall a b, In a l -> In b l -> R a b -> R' (g a) (g b)) ->
  StronglySorted R l -> StronglySorted R' (map g l).
Proof.
  intros H Hs. induction Hs as [|a l Hs IH Ha]; simpl; constructor.
  - apply IH. intros x y Hx Hy. apply H; by right.
  - apply List.Forall_forall. intros b Hb. apply in_map_iff in Hb as [y [<- Hy]].
    apply H; [by left | by right|]. by apply (proj1 (List.Forall_forall _ _) Ha).
Qed.

Lemma antes_en_map {A B} (g : A -> B) (l : list A) (a b : A) :
  Spec.antes_en l a b -> Spec.antes_en (map g l) (g a) (g b).
Proof.
  intros (l1 & l2 & -> & Hb). exists (map g l1), (map g l2).
  split; [by rewrite map_app | by apply in_map].
Qed.

(** X25.  The extractor ranks the tokens by frequency, first occurrence
    first among equals, when no token is the name of an inherited property:
    its result is the first five of the distinct tokens so ordered. *)
Theorem keyword_ranking (texto : Str.t) :
  let palabras := Analizador.palabras_de texto in
  Forall (fun p => Spec.heredada p = false) palabras ->
  exists r,
    Analizador.extraerPalabrasClave texto = firstn 5 r
    /\ Permutation r (Spec.primeras palabras)
    /\ StronglySorted (Spec.precede palabras) r.
Proof.
  intros palabras Hh. unfold Analizador.extraerPalabrasClave. fold palabras.
  rewrite contar_palabras_tabla by done.
  assert (map fst (Spec.tabla palabras) = Spec.primeras palabras) as Hkeys.
  { unfold Spec.tabla. rewrite map_map. simpl. apply map_id. }
  rewrite Object_entries_sin_indices.
  2:{ apply List.Forall_forall. intros e He.
      apply (palabras_no_indice texto). fold palabras.
      apply primeras_In. rewrite <- Hkeys. by apply in_map. }
  assert (Forall Spec.es_cuenta (Spec.tabla palabras)) as Hc.
  { apply List.Forall_forall. intros e He. unfold Spec.tabla in He.
    apply in_map_iff in He as [p [<- _]]. by eexists. }
  destruct (sort_spec _ Hc) as [Hp Hs].
  exists (map fst (Analizador.sort (Spec.tabla palabras))).
  split; [by rewrite firstn_map|]. split.
  - rewrite <- Hkeys. by apply Permutation_map.
  - eapply StronglySorted_map; [|exact Hs].
    intros a b Ha Hb Hab.
    assert (forall e, In e (Analizador.sort (Spec.tabla palabras)) ->
                      Spec.peso e = Z.of_nat (Spec.veces (fst e) palabras)) as Hpeso.
    { intros e He. eapply Permutation_in in He; [|exact Hp].
      unfold Spec.tabla in He. apply in_map_iff in He as [p [<- _]]. done. }
    unfold Spec.orden in Hab. rewrite !Hpeso in Hab by done.
    destruct Hab as [Hlt|[Heq Hant]]; [left; lia|].
    right. split; [lia|]. rewrite <- Hkeys. by apply antes_en_map.
Qed.


(** C9.  [frecuencia] is an object literal, and a token that is the name of
    an inherited property is not counted: reading it gives the inherited
    function, [+ 1] makes a string of it, and the comparator of the sort
    then returns NaN.  In "El constructor pollo pollo" the token
    "constructor" occurs once and "pollo" twice, and the extractor returns
    "constructor" first.  On "el pollo pollo estaba horrible horrible
    horrible" it returns "horrible", "pollo", "estaba": there is no cut-off
    parameter, five keywords at most are returned, and the first two are
    "horrible" and "pollo". *)
Theorem keyword_order_inherited_name :
  Analizador.palabras_de Ejemplos.texto_constructor
    = map Str.lit ["constructor"; "pollo"; "pollo"]%string
  /\ Analizador.extraerPalabrasClave Ejemplos.texto_constructor
     = map Str.lit ["constructor"; "pollo"]%string
  /\ Analizador.extraerPalabrasClave Ejemplos.texto_pollo
     = map Str.lit ["horrible"; "pollo"; "estaba"]%string
  /\ firstn 2 (Analizador.extraerPalabrasClave Ejemplos.texto_pollo)
     = map Str.lit ["horrible"; "pollo"]%string.
Proof. vm_compute. repeat split. Qed.

(** The ranking on the example of section 8: no token is an inherited
    name there. *)
Lemma keyword_ranking_pollo :
  exists r,
    Analizador.extraerPalabrasClave Ejemplos.texto_pollo = firstn 5 r
    /\ Permutation r (Spec.primeras (Analizador.palabras_de Ejemplos.texto_pollo))
    /\ StronglySorted (Spec.precede (Analizador.palabras_de Ejemplos.texto_pollo)) r.
Proof.
  apply (keyword_ranking Ejemplos.texto_pollo).
  vm_compute. repeat constructor.
Defined.

(** The complaint of a new customer on the AI server, with the insertion
    into [quejas] rejected and with no request rejected. *)
Lemma procesarQuejaConIA_atomic_queja_ana :
  match Analizador.procesarQuejaConIA 0 (fun _ => None) (Spec.falla_en 5)
          Ejemplos.catalogo Ejemplos.cache Ejemplos.queja_ana Ejemplos.mundo with
  | (Ok r, w') => Db.transaccion w' = None /\ Analizador.r_success r = true
  | (Throw _, w') =>
      Db.confirmado w' = Db.confirmado Ejemplos.mundo /\ Db.transaccion w' = None
  end.
Proof.
  apply (procesarQuejaConIA_atomic 0 (fun _ => None) (Spec.falla_en 5)
           Ejemplos.catalogo Ejemplos.cache Ejemplos.queja_ana Ejemplos.mundo).
  reflexivity.
Defined.

Example procesarQuejaConIA_commits :
  let '(r, w') :=
    Analizador.procesarQuejaConIA 0 (fun _ => None) (fun _ => false)
      Ejemplos.catalogo Ejemplos.cache Ejemplos.queja_ana Ejemplos.mundo in
  (exists a, r = Ok a)
  /\ map Db.c_total_quejas (Db.clientes (Db.confirmado w')) = [1%Z]
  /\ map Db.q_urgencia (Db.quejas (Db.confirmado w')) = [1%Z]
  /\ Db.insights_ia (Db.confirmado w') = [].
Proof. vm_compute. repeat split. by eexists. Qed.

(** ** More on the normalizer *)

Lemma filter_digits_id (d : Str.t) :
  forallb Str.is_digit d = true -> filter (fun c => Str.is_digit c = true) d = d.
Proof.
  induction d as [|c d IH]; simpl; [done|].
  intros H. apply andb_true_iff in H as [Hc Hd].
  rewrite filter_cons_True by done. by rewrite IH.
Qed.

Lemma digits_no_includes (d p : Str.t) (c : N) (p' : Str.t) :
  forallb Str.is_digit d = true -> p = c :: p' -> Str.is_digit c = false ->
  Str.includes d p = false.
Proof.
  intros Hd -> Hc. induction d as [|x d IH]; [done|].
  simpl in Hd. apply andb_true_iff in Hd as [Hx Hd].
  cbn [Str.includes Str.startsWith].
  rewrite IH by done.
  destruct (N.eqb_spec c x) as [->|_]; [congruence | done].
Qed.

Lemma digits_not_edna (d : Str.t) :
  forallb Str.is_digit d = true -> Str.eqb d (Str.lit "edna") = false.
Proof.
  intros Hd. apply Str_eqb_neq. intros ->. by vm_compute in Hd.
Qed.

Lemma limpiarTelefono_digits (d : Str.t) :
  forallb Str.is_digit d = true -> length d = 10%nat ->
  Analizador.limpiarTelefono (Js.String d) = Ok (Some d).
Proof.
  intros Hd Hl. unfold Analizador.limpiarTelefono.
  assert (Js.truthy (Js.String d) = true) as -> by (by destruct d).
  cbn [negb Js.eq_string]. rewrite digits_not_edna by done.
  cbn [Js.includes Js.toString mbind result_bind].
  rewrite (digits_no_includes d (Str.lit "url") 0x75 (Str.lit "rl")) by done.
  rewrite filter_digits_id by done. by rewrite Hl.
Qed.

(** X1.  A telephone given as a string normalises to exactly ten digits, and
    a normalised telephone is left as it is when normalised again. *)
Theorem limpiarTelefono_idempotent (s d : Str.t) :
  Analizador.limpiarTelefono (Js.String s) = Ok (Some d) ->
  length d = 10%nat
  /\ forallb Str.is_digit d = true
  /\ Analizador.limpiarTelefono (Js.String d) = Ok (Some d).
Proof.
  intros H. destruct (limpiarTelefono_texto s) as [r [Hr Hd]].
  rewrite Hr in H. injection H as ->. destruct Hd as [Hl Hd].
  split; [done|]. split; [done|]. by apply limpiarTelefono_digits.
Qed.

Lemma limpiarTelefono_idempotent_witness :
  length (Str.lit "5512345678") = 10%nat
  /\ forallb Str.is_digit (Str.lit "5512345678") = true
  /\ Analizador.limpiarTelefono (Js.String (Str.lit "5512345678"))
     = Ok (Some (Str.lit "5512345678")).
Proof.
  apply (limpiarTelefono_idempotent (Str.lit "+52 (55) 1234-5678") (Str.lit "5512345678")).
  reflexivity.
Defined.

Lemma toString_throws (v : Js.value) (e : error) :
  Js.toString v = Throw e -> e = TypeError.
Proof.
  revert v e. fix IH 1. intros v e. destruct v as [ | |b|n|s|l|props]; simpl.
  - by intros [= <-].
  - by intros [= <-].
  - by destruct b.
  - done.
  - done.
  - generalize (@nil Str.t). induction l as [|x l IHl]; intros acc; [done|].
    destruct x as [ | |b|n|s|l'|props] eqn:Hx; try apply IHl.
    + destruct b; apply IHl.
    + rewrite <- Hx. destruct (Js.toString x) as [s'|e'] eqn:Hs; [apply IHl|].
      intros [= <-]. by apply (IH x).
    + rewrite <- Hx. destruct (Js.toString x) as [s'|e'] eqn:Hs; [apply IHl|].
      intros [= <-]. by apply (IH x).
  - destruct (Js.own props _); [by intros [= <-] | done].
Qed.

Lemma trimStart_split (s : Str.t) :
  exists pre, s = pre ++ Str.trimStart s /\ forallb Str.is_space pre = true.
Proof.
  induction s as [|c s IH]; simpl; [by exists []|].
  destruct (Str.is_space c) eqn:Hc; [|by exists []].
  destruct IH as [pre [Hs Hpre]]. exists (c :: pre). simpl.
  split; [by rewrite <- Hs | by rewrite Hc].
Qed.

Lemma trimStart_head (s : Str.t) :
  match Str.trimStart s with
  | c :: _ => Str.is_space c = false
  | [] => True
  end.
Proof.
  induction s as [|c s IH]; simpl; [done|].
  by destruct (Str.is_space c) eqn:Hc.
Qed.

(** [trim] leaves a string with no white space at either end. *)
Lemma trim_ends (s : Str.t) :
  match Str.trim s with
  | c :: _ => Str.is_space c = false
  | [] => True
  end
  /\ match rev (Str.trim s) with
     | c :: _ => Str.is_space c = false
     | [] => True
     end.
Proof.
  unfold Str.trim. set (t := Str.trimStart s).
  pose proof (trimStart_head s) as Ht. fold t in Ht.
  pose proof (trimStart_head (rev t)) as Hu.
  destruct (trimStart_split (rev t)) as [pre [Hsplit _]].
  set (u := Str.trimStart (rev t)) in *.
  split; [|by rewrite rev_involutive].
  assert (t = rev u ++ rev pre) as Ht2.
  { rewrite <- rev_app_distr, <- Hsplit. by rewrite rev_involutive. }
  destruct (rev u) as [|c r]; [done|]. rewrite Ht2 in Ht. done.
Qed.

(** X2.  What [limpiarTexto] makes of any value: null exactly for the falsy
    ones; otherwise a string of at most 1000 code units that does not begin
    with white space and is a prefix of the trimmed text; it throws, a
    TypeError, only on arrays and objects. *)
Theorem limpiarTexto_shape (v : Js.value) :
  match Analizador.limpiarTexto v with
  | Ok None => Js.truthy v = false
  | Ok (Some s) =>
      Js.truthy v = true
      /\ (length s <= 1000)%nat
      /\ match s with c :: _ => Str.is_space c = false | [] => True end
      /\ exists t, Js.toString v = Ok t /\ s = firstn 1000 (Str.trim t)
  | Throw e =>
      e = TypeError
      /\ match v with Js.Array _ | Js.Object _ => True | _ => False end
  end.
Proof.
  unfold Analizador.limpiarTexto. destruct (Js.truthy v) eqn:Hv; [|done].
  cbn [negb]. destruct (Js.toString v) as [t|e] eqn:Ht; cbn [mbind result_bind].
  - split; [done|]. unfold Str.substring0. split; [apply firstn_le_length|].
    split; [|by exists t].
    pose proof (trim_ends t) as [Hh _].
    by destruct (Str.trim t) as [|c r].
  - split; [by apply toString_throws in Ht|].
    destruct v as [ | |b|n|s|l|props]; try done. by destruct b.
Qed.

Lemma normalizarDatos_inv (ahora : Z) (Date_parse : Str.t -> option Z)
    (datos : gmap Str.t Js.value) (d : Analizador.DatosNormalizados) :
  Analizador.normalizarDatos ahora Date_parse datos = Ok d ->
  Analizador.limpiarTexto
    (Js.or_ (Analizador.campo datos "nombre") (Analizador.campo datos "Nombre"))
  = Ok (Analizador.nombre d)
  /\ Analizador.limpiarTelefono
       (Js.or_ (Analizador.campo datos "telefono") (Analizador.campo datos "Telefono"))
     = Ok (Analizador.telefono d)
  /\ Analizador.limpiarTexto
       (Js.or_ (Js.or_ (Js.or_ (Analizador.campo datos "descripcion")
                               (Analizador.campo datos "Descripción"))
                       (Analizador.campo datos "descripción"))
               (Js.String (Str.lit "Sin descripción")))
     = Ok (Analizador.descripcion d)
  /\ Analizador.limpiarTexto
       (Js.or_ (Analizador.campo datos "sucursal") (Analizador.campo datos "Sucursal"))
     = Ok (Analizador.sucursal d).
Proof.
  unfold Analizador.normalizarDatos.
  destruct (Analizador.limpiarTexto (Js.or_ (Analizador.campo datos "nombre") _))
    as [n|]; cbn [mbind result_bind]; [|done].
  destruct (Analizador.limpiarTelefono _) as [t|]; cbn [mbind result_bind]; [|done].
  destruct (Analizador.limpiarTexto (Js.or_ (Js.or_ _ _) _))
    as [x|]; cbn [mbind result_bind]; [|done].
  destruct (Analizador.limpiarTexto (Js.or_ (Analizador.campo datos "sucursal") _))
    as [u|]; cbn [mbind result_bind]; [|done].
  by intros [= <-].
Qed.

Lemma limpiarTexto_corto (v : Js.value) (r : option Str.t) :
  Analizador.limpiarTexto v = Ok r -> Forma.corto r.
Proof.
  unfold Analizador.limpiarTexto. destruct (negb (Js.truthy v)); [by intros [= <-]|].
  destruct (Js.toString v) as [t|]; cbn [mbind result_bind]; [|done].
  intros H. assert (r = Some (Str.substring0 1000 (Str.trim t))) as -> by congruence.
  unfold Forma.corto, Str.substring0. apply firstn_le_length.
Qed.

Lemma limpiarTelefono_valido (s : Str.t) (r : option Str.t) :
  Analizador.limpiarTelefono (Js.String s) = Ok r -> Forma.telefono_valido r.
Proof.
  intros H. destruct (limpiarTelefono_texto s) as [r' [Hr Hd]].
  rewrite Hr in H. injection H as ->. by destruct r.
Qed.

(** X3.  On a request body whose properties are all strings [normalizarDatos]
    returns: the three text fields hold at most 1000 code units, the
    description is not null, and the telephone is null or ten digits. *)
Theorem normalizarDatos_on_strings (ahora : Z) (Date_parse : Str.t -> option Z)
    (datos : gmap Str.t Js.value) :
  (forall k v, datos !! k = Some v -> exists s, v = Js.String s) ->
  exists d,
    Analizador.normalizarDatos ahora Date_parse datos = Ok d
    /\ Forma.corto (Analizador.nombre d)
    /\ Forma.corto (Analizador.descripcion d)
    /\ Forma.corto (Analizador.sucursal d)
    /\ Analizador.descripcion d <> None
    /\ Forma.telefono_valido (Analizador.telefono d).
Proof.
  intros H. destruct (normalizarDatos_textos ahora Date_parse datos H) as [d Hd].
  exists d. split; [done|].
  pose proof (descripcion_no_nula _ _ _ _ Hd) as Hnn.
  apply normalizarDatos_inv in Hd as (Hn & Ht & Hx & Hu).
  repeat split; try (eapply limpiarTexto_corto; eassumption); try done.
  assert (forall k, Analizador.campo datos k = Js.Undefined
                    \/ exists s, Analizador.campo datos k = Js.String s) as Hc.
  { intros k. unfold Analizador.campo.
    destruct (datos !! Str.lit k) as [v|] eqn:Hk; [|by left].
    apply H in Hk as [s ->]. right. by exists s. }
  destruct (Hc "telefono"%string) as [Ha|[a Ha]], (Hc "Telefono"%string) as [Hb|[b Hb]];
    rewrite Ha, Hb in Ht; unfold Js.or_ in Ht; simpl in Ht.
  - by injection Ht as <-.
  - eapply limpiarTelefono_valido; eassumption.
  - destruct a; simpl in Ht; [by injection Ht as <-|].
    eapply limpiarTelefono_valido; eassumption.
  - destruct a; simpl in Ht; eapply limpiarTelefono_valido; eassumption.
Qed.

Lemma normalizarDatos_on_strings_witness :
  exists d,
    Analizador.normalizarDatos 0 (fun _ => None) Ejemplos.queja_ana = Ok d
    /\ Forma.corto (Analizador.nombre d)
    /\ Forma.corto (Analizador.descripcion d)
    /\ Forma.corto (Analizador.sucursal d)
    /\ Analizador.descripcion d <> None
    /\ Forma.telefono_valido (Analizador.telefono d).
Proof.
  apply (normalizarDatos_on_strings 0 (fun _ => None) Ejemplos.queja_ana).
  intros k v. unfold Ejemplos.queja_ana, Ejemplos.body. simpl.
  intros Hk. apply lookup_insert_Some in Hk as [[_ <-]|[_ Hk]]; [by eexists|].
  apply lookup_insert_Some in Hk as [[_ <-]|[_ Hk]]; [by eexists|].
  apply lookup_insert_Some in Hk as [[_ <-]|[_ Hk]]; [by eexists|].
  by rewrite lookup_empty in Hk.
Defined.

Lemma campo_insert (datos : gmap Str.t Js.value) (k : Str.t) (v : Js.value)
    (n : string) :
  Str.lit n <> k ->
  Analizador.campo (<[k:=v]> datos) n = Analizador.campo datos n.
Proof. intros H. unfold Analizador.campo. by rewrite lookup_insert_ne. Qed.

(** X4.  [normalizarDatos] reads eleven property names and nothing else: a
    property of the body under any other name has no effect on the
    result. *)
Theorem normalizarDatos_ignores_other_keys (ahora : Z) (Date_parse : Str.t -> option Z)
    (datos : gmap Str.t Js.value) (k : Str.t) (v : Js.value) :
  Forall (fun n => Str.lit n <> k) Forma.nombres_leidos ->
  Analizador.normalizarDatos ahora Date_parse (<[k:=v]> datos)
  = Analizador.normalizarDatos ahora Date_parse datos.
Proof.
  intros H. unfold Forma.nombres_leidos in H.
  repeat (apply Forall_cons in H as [? H]).
  unfold Analizador.normalizarDatos. by rewrite !campo_insert.
Qed.

Lemma normalizarDatos_ignores_other_keys_witness :
  Analizador.normalizarDatos 0 (fun _ => None)
    (<[Str.lit "email" := Js.Num 7]> Ejemplos.queja_ana)
  = Analizador.normalizarDatos 0 (fun _ => None) Ejemplos.queja_ana.
Proof.
  apply (normalizarDatos_ignores_other_keys 0 (fun _ => None) Ejemplos.queja_ana
           (Str.lit "email") (Js.Num 7)).
  unfold Forma.nombres_leidos. repeat constructor; by vm_compute.
Defined.

(** ** More on urgency *)

Lemma bono_sentimiento_rango (s : Sql.Sentimiento) :
  (0 <= Spec.bono_sentimiento s <= 2)%Z.
Proof.
  unfold Spec.bono_sentimiento.
  destruct (Str.eqb _ _); [lia|]. destruct (Str.eqb _ _); lia.
Qed.

Lemma bono_categoria_rango (v : Js.value) : (0 <= Spec.bono_categoria v <= 2)%Z.
Proof.
  unfold Spec.bono_categoria.
  destruct (Js.eq_string _ _); [lia|]. destruct (Js.eq_string _ _); [lia|].
  destruct (Js.eq_string _ _); lia.
Qed.


(** X5.  Whatever the sentiment and the second argument, [calcularUrgencia]
    returns a level between 1 and 5 or throws a TypeError, and it throws
    exactly when the property [descripcion] of the argument holds something
    other than a string, [null] or [undefined]. *)
Theorem calcularUrgencia_range (s : Sql.Sentimiento) (cat : gmap string Js.value) :
  match Analizador.calcularUrgencia s cat with
  | Ok u =>
      (1 <= u <= 5)%Z
      /\ match Analizador.prop cat "descripcion" with
         | Js.Undefined | Js.Null | Js.String _ => True
         | _ => False
         end
  | Throw e =>
      e = TypeError
      /\ match Analizador.prop cat "descripcion" with
         | Js.Undefined | Js.Null | Js.String _ => False
         | _ => True
         end
  end.
Proof.
  rewrite calcularUrgencia_forma. cbv zeta.
  pose proof (bono_sentimiento_rango s).
  pose proof (bono_categoria_rango (Analizador.prop cat "categoria_nombre")).
  destruct (Analizador.prop cat "descripcion") as [ | |b|n|d|l|props]; try done;
    (split; [|done]); try lia.
  destruct (Spec.emergencia d); lia.
Qed.

(** X6.  When the second argument of [calcularUrgencia] does carry the
    complaint text in a property [descripcion], and the text holds an
    emergency keyword in any letter case, the urgency is 5 whatever the
    sentiment and the category. *)
Theorem calcularUrgencia_override (s : Sql.Sentimiento) (cat : gmap string Js.value)
    (d : Str.t) :
  Analizador.prop cat "descripcion" = Js.String d ->
  Spec.emergencia d = true ->
  Analizador.calcularUrgencia s cat = Ok 5%Z.
Proof.
  intros Hd He. rewrite calcularUrgencia_forma. cbv zeta. by rewrite Hd, He.
Qed.

Lemma calcularUrgencia_override_witness :
  Analizador.calcularUrgencia Ejemplos.negativo
    (<["descripcion"%string := Js.String Ejemplos.texto_hospital]>
       Analizador.categoria_por_defecto)
  = Ok 5%Z.
Proof.
  apply (calcularUrgencia_override Ejemplos.negativo _ Ejemplos.texto_hospital);
    reflexivity.
Defined.

Lemma some_urgente_no_texto (v : Js.value) :
  match v with Js.String _ => False | _ => True end ->
  Basico.some_urgente v Basico.palabrasUrgentes = Throw TypeError.
Proof. by destruct v. Qed.

(** X7.  The urgency of the basic server is 1, 3, 4 or 5, never 2; it is 5
    exactly when the description holds one of its urgent words; and the
    computation throws, a TypeError, exactly when the description is not a
    string. *)
Theorem basic_urgency_levels (s : Sql.Sentimiento) (descripcion : Js.value) :
  match Basico.calcular_urgencia s descripcion with
  | Ok u =>
      exists texto, descripcion = Js.String texto
        /\ In u [1; 3; 4; 5]%Z
        /\ (u =? 5)%Z = Spec.urgente_basico texto
  | Throw e =>
      e = TypeError /\ match descripcion with Js.String _ => False | _ => True end
  end.
Proof.
  destruct descripcion as [ | |b|n|texto|l|props];
    try (unfold Basico.calcular_urgencia; by rewrite some_urgente_no_texto).
  rewrite calcular_urgencia_texto. exists texto. split; [done|].
  destruct (Spec.urgente_basico texto); [split; [simpl; tauto | done]|].
  destruct (Spec.bono_sentimiento s =? 2)%Z; [split; [simpl; tauto | done]|].
  destruct (Spec.bono_sentimiento s =? 1)%Z; split; simpl; tauto || done.
Qed.

(** The scorer returns the classification of the two counts. *)
Lemma analizar_clasificar (texto : Str.t) :
  Sql.analizar_sentimiento_basico (Some texto)
  = Spec.clasificar (Spec.negCount texto) (Spec.posCount texto).
Proof.
  unfold Sql.analizar_sentimiento_basico, Spec.clasificar, Spec.negCount, Spec.posCount.
  rewrite !contar_cuenta
    by (apply palabras_negativas_planas || apply palabras_positivas_planas).
  set (n := Spec.cuenta Sql.palabras_negativas texto).
  set (p := Spec.cuenta Sql.palabras_positivas texto).
  destruct (Nat.ltb_spec (p + 1) n), (Nat.ltb_spec p n), (Nat.ltb_spec n p);
    repeat match goal with
           | |- context [(?a >? ?b)%Z] => destruct (Z.gtb_spec a b); try lia
           end; reflexivity.
Qed.

Lemma bono_clasificar (n p : nat) :
  Spec.bono_sentimiento (Spec.clasificar n p)
  = (if (p + 1 <? n)%nat then 2 else if (p <? n)%nat then 1 else 0)%Z.
Proof.
  unfold Spec.clasificar.
  destruct (p + 1 <? n)%nat; [reflexivity|].
  destruct (p <? n)%nat; [reflexivity|].
  by destruct (n <? p)%nat.
Qed.

(** X8.  In the pipeline of the AI server the urgency of a text is the
    clamped sum of the two bonuses: it never throws, it reaches the
    threshold 4 of the insights only when the negative keywords in the text
    outnumber the positive ones, and it reaches 5 only when they do so by
    two or more and the category is "Higiene y Limpieza". *)
Theorem pipeline_urgency (cache : Analizador.Cache) (texto : Str.t) :
  exists u,
    Analizador.calcularUrgencia (Sql.analizar_sentimiento_basico (Some texto))
      (Analizador.categorizarQueja cache texto) = Ok u
    /\ (1 <= u <= 5)%Z
    /\ ((4 <= u)%Z -> (Spec.posCount texto < Spec.negCount texto)%nat)
    /\ (u = 5%Z ->
        (Spec.posCount texto + 1 < Spec.negCount texto)%nat
        /\ Analizador.prop (Analizador.categorizarQueja cache texto) "categoria_nombre"
           = Js.String (Str.lit "Higiene y Limpieza")).
Proof.
  destruct (categorizarQueja_forma cache texto) as (a & b & c & d & e & ->).
  rewrite calcularUrgencia_categorizacion, analizar_clasificar, bono_clasificar.
  destruct (prop_categorizacion a b c d e) as (_ & -> & _).
  eexists. split; [reflexivity|].
  pose proof (bono_categoria_rango b) as Hb.
  assert (Spec.bono_categoria b = 2%Z -> b = Js.String (Str.lit "Higiene y Limpieza")) as Hh.
  { unfold Spec.bono_categoria.
    destruct (Js.eq_string b (Str.lit "Higiene y Limpieza")) eqn:Heq.
    - intros _. destruct b; try done. simpl in Heq. by apply Str_eqb_eq in Heq as ->.
    - destruct (Js.eq_string b (Str.lit "Calidad del Producto")); [done|].
      by destruct (Js.eq_string b (Str.lit "Personal")). }
  destruct (Nat.ltb_spec (Spec.posCount texto + 1) (Spec.negCount texto));
    [|destruct (Nat.ltb_spec (Spec.posCount texto) (Spec.negCount texto))].
  - split; [lia|]. split; [lia|]. intros H5. split; [done|]. apply Hh. lia.
  - split; [lia|]. split; [lia|]. lia.
  - split; [lia|]. split; lia.
Qed.

(** ** More on the branch resolver *)

Lemma ltb_irrefl (a : Str.t) : Str.ltb a a = false.
Proof.
  induction a as [|x a IH]; simpl; [done|].
  rewrite N.ltb_irrefl, N.eqb_refl, IH. done.
Qed.

Lemma ltb_trans (a b c : Str.t) :
  Str.ltb a b = true -> Str.ltb b c = true -> Str.ltb a c = true.
Proof.
  revert b c. induction a as [|x a IH]; intros [|y b] [|z c]; simpl; try done.
  rewrite !orb_true_iff, !andb_true_iff, !N.ltb_lt, !N.eqb_eq.
  intros [H1|[H1 H1']] [H2|[H2 H2']].
  - left. lia.
  - left. lia.
  - left. lia.
  - right. split; [lia|]. by apply (IH b c).
Qed.

Lemma ltb_total (a b : Str.t) :
  Str.ltb a b = false -> Str.ltb b a = false -> a = b.
Proof.
  revert b. induction a as [|x a IH]; intros [|y b]; simpl; try done.
  rewrite !orb_false_iff, !andb_false_iff, !N.ltb_ge, !N.eqb_neq.
  intros [H1 H1'] [H2 H2'].
  assert (x = y) as -> by lia.
  f_equal. apply IH; tauto.
Qed.

Lemma antes_no_despues (a b : Sql.Candidata) :
  Sql.antes a b = true <-> Forma.no_despues a b.
Proof.
  unfold Sql.antes, Forma.no_despues.
  rewrite orb_true_iff, andb_true_iff, negb_true_iff, Z.ltb_lt, Z.eqb_eq. done.
Qed.

Lemma no_despues_total (a b : Sql.Candidata) :
  Sql.antes a b = false -> Forma.no_despues b a.
Proof.
  unfold Sql.antes, Forma.no_despues.
  rewrite orb_false_iff, andb_false_iff, negb_false_iff, Z.ltb_ge, Z.eqb_neq.
  intros [H1 [H2|H2]].
  - left. lia.
  - destruct (decide (Sql.confianza a = Sql.confianza b)) as [Heq|Hne]; [|left; lia].
    right. split; [done|].
    destruct (Str.ltb (Sql.nombre a) (Sql.nombre b)) eqn:Hab; [|done].
    pose proof (ltb_trans _ _ _ Hab H2) as Hc. by rewrite ltb_irrefl in Hc.
Qed.

Lemma no_despues_trans (a b c : Sql.Candidata) :
  Forma.no_despues a b -> Forma.no_despues b c -> Forma.no_despues a c.
Proof.
  unfold Forma.no_despues. intros [H1|[H1 H1']] [H2|[H2 H2']].
  - left. lia.
  - left. lia.
  - left. lia.
  - right. split; [lia|].
    destruct (Str.ltb (Sql.nombre c) (Sql.nombre a)) eqn:Hca; [|done].
    destruct (Str.ltb (Sql.nombre b) (Sql.nombre c)) eqn:Hbc.
    + pose proof (ltb_trans _ _ _ Hbc Hca). congruence.
    + pose proof (ltb_total _ _ Hbc H2') as Heq. rewrite Heq in H1'. congruence.
Qed.

Lemma insertar_sorted_candidata (x : Sql.Candidata) (l : list Sql.Candidata) :
  StronglySorted Forma.no_despues l ->
  StronglySorted Forma.no_despues (Sql.insertar x l).
Proof.
  induction 1 as [|y l Hs IH Hy]; simpl; [repeat constructor|].
  destruct (Sql.antes y x) eqn:Hyx.
  - constructor; [done|].
    apply List.Forall_forall. intros z Hz. apply insertar_In in Hz as [->|Hz].
    + by apply antes_no_despues.
    + by apply (proj1 (List.Forall_forall _ _) Hy).
  - apply no_despues_total in Hyx. constructor; [by constructor|].
    constructor; [done|].
    apply List.Forall_forall. intros z Hz.
    eapply no_despues_trans; [exact Hyx|].
    by apply (proj1 (List.Forall_forall _ _) Hy).
Qed.

Lemma ordenar_sorted (l : list Sql.Candidata) :
  StronglySorted Forma.no_despues (Sql.ordenar l).
Proof.
  unfold Sql.ordenar.
  assert (forall acc, StronglySorted Forma.no_despues acc ->
            StronglySorted Forma.no_despues
              (fold_left (fun acc x => Sql.insertar x acc) l acc)) as H.
  { induction l as [|x l IH]; intros acc Hacc; simpl; [done|].
    apply IH. by apply insertar_sorted_candidata. }
  apply H. constructor.
Qed.

Lemma insertar_Permutation_candidata (x : Sql.Candidata) (l : list Sql.Candidata) :
  Permutation (Sql.insertar x l) (x :: l).
Proof.
  induction l as [|y l IH]; simpl; [done|].
  destruct (Sql.antes y x); [|done]. rewrite IH. apply perm_swap.
Qed.

Lemma ordenar_Permutation (l : list Sql.Candidata) : Permutation (Sql.ordenar l) l.
Proof.
  unfold Sql.ordenar.
  assert (forall acc, Permutation (fold_left (fun acc x => Sql.insertar x acc) l acc)
                                  (acc ++ l)) as H.
  { induction l as [|x l IH]; intros acc; simpl; [by rewrite app_nil_r|].
    rewrite IH, insertar_Permutation_candidata. simpl.
    apply Permutation_middle. }
  apply (H []).
Qed.

Lemma StronglySorted_take {A} (R : A -> A -> Prop) (n : nat) (l : list A) :
  StronglySorted R l -> StronglySorted R (firstn n l).
Proof.
  intros H. revert n. induction H as [|x l Hs IH Hx]; intros [|n]; simpl;
    try constructor; [apply IH|].
  apply List.Forall_forall. intros y Hy. apply In_take in Hy.
  by apply (proj1 (List.Forall_forall _ _) Hx).
Qed.

Lemma StronglySorted_weaken {A} (R R' : A -> A -> Prop) (l : list A) :
  (forall x y, R x y -> R' x y) -> StronglySorted R l -> StronglySorted R' l.
Proof.
  intros HR Hs. induction Hs as [|x l Hs IH Hx]; constructor; [exact IH|].
  eapply List.Forall_impl; [|exact Hx]. intros y. apply HR.
Qed.

(** X9.  The query of the branch resolver lists its rows best first, by
    decreasing confidence; with a limit there are no more than that many,
    and they are the first of the whole ordered list. *)
Theorem resolver_sorted (c : Sql.Catalogo) (busqueda : Sql.text) (limite : option Z)
    (rows : list Sql.Candidata) :
  Sql.consulta_sucursales c busqueda limite = Ok rows ->
  StronglySorted Forma.por_confianza rows
  /\ (forall n, limite = Some n -> (Z.of_nat (length rows) <= n)%Z)
  /\ exists todas,
       Sql.consulta_sucursales c busqueda None = Ok todas
       /\ StronglySorted Forma.por_confianza todas
       /\ exists resto, todas = rows ++ resto.
Proof.
  unfold Sql.consulta_sucursales.
  set (todas := Sql.ordenar _). intros H.
  assert (StronglySorted Forma.por_confianza todas) as Hs.
  { apply (StronglySorted_weaken Forma.no_despues); [|apply ordenar_sorted].
    unfold Forma.no_despues, Forma.por_confianza. intros x y [Hy|[Hy _]]; lia. }
  unfold Sql.LIMIT in *.
  destruct limite as [n|].
  - destruct (Z.ltb_spec n 0); [done|]. injection H as <-.
    split; [by apply StronglySorted_take|]. split.
    + intros m [= <-]. rewrite length_take. lia.
    + exists todas. split; [done|]. split; [done|].
      exists (skipn (Z.to_nat n) todas). by rewrite firstn_skipn.
  - injection H as <-. split; [done|]. split; [done|].
    exists todas. split; [done|]. split; [done|]. exists []. by rewrite app_nil_r.
Qed.

Lemma resolver_sorted_witness :
  StronglySorted Forma.por_confianza [Ejemplos.pino_suarez]
  /\ (forall n, Some 3%Z = Some n -> (Z.of_nat (length [Ejemplos.pino_suarez]) <= n)%Z)
  /\ exists todas,
       Sql.consulta_sucursales Ejemplos.catalogo (Some (Str.lit "monterrey")) None
       = Ok todas
       /\ StronglySorted Forma.por_confianza todas
       /\ exists resto, todas = [Ejemplos.pino_suarez] ++ resto.
Proof.
  apply (resolver_sorted Ejemplos.catalogo (Some (Str.lit "monterrey")) (Some 3%Z)
           [Ejemplos.pino_suarez]).
  vm_compute. reflexivity.
Defined.

(** *** The best tier *)

Lemma CASE_best (branches : list (Sql.tri * Z)) (d : Z) :
  StronglySorted (fun a b => (snd b <= snd a)%Z) branches ->
  Forall (fun cv => Sql.is_true (fst cv) = true -> (snd cv <= Sql.CASE branches d)%Z)
         branches.
Proof.
  induction 1 as [|[c v] rest Hs IH Hv]; [constructor|].
  cbn [Sql.CASE]. destruct (Sql.is_true c) eqn:Hc.
  - constructor; [simpl; lia|].
    eapply Forall_impl; [exact Hv|]. simpl. intros [c' v'] H _. simpl in *. lia.
  - constructor; [simpl; congruence | exact IH].
Qed.

Lemma CASE_exists (branches : list (Sql.tri * Z)) (d : Z) :
  existsb Sql.is_true (map fst branches) = true ->
  Exists (fun cv => Sql.is_true (fst cv) = true /\ snd cv = Sql.CASE branches d) branches.
Proof.
  induction branches as [|[c v] rest IH]; simpl; [done|].
  destruct (Sql.is_true c) eqn:Hc.
  - intros _. by left.
  - intros H. right. by apply IH.
Qed.

Lemma niveles_de_sorted (busqueda : Sql.text) (f : Sql.Sucursal * Sql.Municipio * Sql.Estado) :
  StronglySorted (fun a b => (snd b <= snd a)%Z) (Forma.niveles_de busqueda f).
Proof.
  destruct f as [[s m] e]. unfold Forma.niveles_de, Sql.condiciones, Spec.niveles.
  cbn [combine]. repeat constructor; simpl; lia.
Qed.

Lemma niveles_de_fst (busqueda : Sql.text) (f : Sql.Sucursal * Sql.Municipio * Sql.Estado) :
  map fst (Forma.niveles_de busqueda f) = Sql.condiciones busqueda f.
Proof. by destruct f as [[s m] e]. Qed.

(** A row that was returned comes from a joined row that passed the
    filter. *)
Lemma candidata_origen (c : Sql.Catalogo) (busqueda : Sql.text) (limite : option Z)
    (rows : list Sql.Candidata) (r : Sql.Candidata) :
  Sql.consulta_sucursales c busqueda limite = Ok rows ->
  In r rows ->
  exists f, In f (Sql.unir c) /\ r = Sql.fila busqueda f
            /\ Sql.is_true (Sql.filtro busqueda f) = true.
Proof.
  unfold Sql.consulta_sucursales. intros Hrows Hr.
  eapply LIMIT_In in Hr; [|exact Hrows].
  apply ordenar_In, in_map_iff in Hr as [f [<- Hf]].
  apply list_elem_of_In, list_elem_of_filter in Hf as [Hfil Hf].
  apply list_elem_of_In in Hf. by exists f.
Qed.

Lemma confianza_fila (busqueda : Sql.text) (f : Sql.Sucursal * Sql.Municipio * Sql.Estado) :
  Sql.confianza (Sql.fila busqueda f) = Sql.confianza_de busqueda f
  /\ Sql.sucursal_id (Sql.fila busqueda f) = Sql.s_id (fst (fst f)).
Proof. by destruct f as [[s m] e]. Qed.

(** X10.  The confidence of a row of the resolver's query is that of the
    best tier its branch satisfies: no condition that holds has a higher
    level, and one that holds has exactly this level.  So a hint equal to
    the external key gives 1.00, and one equal to the name in another letter
    case at least 0.95. *)
Theorem resolver_best_tier (c : Sql.Catalogo) (busqueda : Sql.text) (limite : option Z)
    (rows : list Sql.Candidata) (r : Sql.Candidata) :
  Sql.consulta_sucursales c busqueda limite = Ok rows ->
  In r rows ->
  exists f,
    In f (Sql.unir c) /\ r = Sql.fila busqueda f
    /\ Forall (fun cv => Sql.is_true (fst cv) = true -> (snd cv <= Sql.confianza r)%Z)
              (Forma.niveles_de busqueda f)
    /\ Exists (fun cv => Sql.is_true (fst cv) = true /\ snd cv = Sql.confianza r)
              (Forma.niveles_de busqueda f).
Proof.
  intros Hrows Hr.
  destruct (candidata_origen _ _ _ _ _ Hrows Hr) as (f & Hf & -> & Hfil).
  exists f. split; [done|]. split; [done|].
  destruct (confianza_fila busqueda f) as [-> _].
  unfold Sql.confianza_de. fold (Forma.niveles_de busqueda f).
  split.
  - apply CASE_best, niveles_de_sorted.
  - apply CASE_exists. rewrite niveles_de_fst. by apply filtro_nivel.
Qed.

Lemma resolver_best_tier_witness :
  exists f,
    In f (Sql.unir Ejemplos.catalogo)
    /\ Ejemplos.pino_suarez = Sql.fila (Some (Str.lit "monterrey")) f
    /\ Forall (fun cv => Sql.is_true (fst cv) = true
                         -> (snd cv <= Sql.confianza Ejemplos.pino_suarez)%Z)
              (Forma.niveles_de (Some (Str.lit "monterrey")) f)
    /\ Exists (fun cv => Sql.is_true (fst cv) = true
                         /\ snd cv = Sql.confianza Ejemplos.pino_suarez)
              (Forma.niveles_de (Some (Str.lit "monterrey")) f).
Proof.
  apply (resolver_best_tier Ejemplos.catalogo (Some (Str.lit "monterrey")) (Some 3%Z)
           [Ejemplos.pino_suarez] Ejemplos.pino_suarez).
  - vm_compute. reflexivity.
  - simpl. left. reflexivity.
Defined.

(** *** Wild cards in the hint *)

Lemma like_all_percent (p s : Str.t) :
  p <> [] -> forallb (N.eqb 0x25) p = true -> Sql.like_match p s = true.
Proof.
  induction p as [|c p IH]; [done|]. intros _ H. cbn [forallb] in H.
  apply andb_true_iff in H as [Hc Hp]. apply N.eqb_eq in Hc as <-.
  destruct p as [|c' p']; [apply like_percent|].
  rewrite like_any. rewrite IH; done.
Qed.

Lemma toLowerCase_percent (h : Str.t) :
  forallb (N.eqb 0x25) h = true -> Str.toLowerCase h = h.
Proof.
  induction h as [|c h IH]; [done|]. intros H. cbn [forallb] in H.
  apply andb_true_iff in H as [Hc Hh]. apply N.eqb_eq in Hc as <-.
  cbn [Str.toLowerCase map]. fold (Str.toLowerCase h). by rewrite IH.
Qed.

Lemma patron_percent (h : Str.t) :
  forallb (N.eqb 0x25) h = true ->
  Sql.LOWER (Sql.concat (Sql.concat Sql.pct (Some h)) Sql.pct)
  = Some (0x25 :: h ++ [0x25])
  /\ forallb (N.eqb 0x25) (0x25 :: h ++ [0x25]) = true.
Proof.
  intros H.
  assert (forallb (N.eqb 0x25) (0x25 :: h ++ [0x25]) = true) as Hp.
  { simpl. rewrite forallb_app, H. done. }
  split; [|done].
  change (Sql.LOWER _) with (Some (Str.toLowerCase (0x25 :: h ++ [0x25]))).
  by rewrite toLowerCase_percent.
Qed.

Lemma filtro_percent (h : Str.t) (f : Sql.Sucursal * Sql.Municipio * Sql.Estado) :
  forallb (N.eqb 0x25) h = true ->
  Sql.is_true (Sql.filtro (Some h) f)
  = Sql.is_true (Sql.eq_bool (Sql.s_activa (fst (fst f))) (Some true))
  /\ (75 <= Sql.confianza_de (Some h) f)%Z.
Proof.
  intros H. destruct (patron_percent h H) as [Hpat Hall].
  assert (forall s, Sql.LIKE (Some s)
                      (Sql.LOWER (Sql.concat (Sql.concat Sql.pct (Some h)) Sql.pct))
                    = Some true) as Hlike.
  { intros s. rewrite Hpat. unfold Sql.LIKE. f_equal. by apply like_all_percent. }
  split.
  - destruct f as [[s m] e]. unfold Sql.filtro. cbn [fst].
    unfold Sql.LOWER at 1 3. cbn [option_map]. rewrite !Hlike.
    destruct (Sql.eq_bool _ _) as [[|]|], (Sql.eq_text _ _) as [[|]|],
      (Sql.eq_text _ _) as [[|]|]; reflexivity.
  - pose proof (CASE_best _ 30%Z (niveles_de_sorted (Some h) f)) as Hb.
    unfold Sql.confianza_de. fold (Forma.niveles_de (Some h) f).
    destruct f as [[s m] e]. unfold Forma.niveles_de, Sql.condiciones, Spec.niveles in *.
    cbn [combine] in *.
    do 3 apply Forall_cons in Hb as [_ Hb]. apply Forall_cons in Hb as [Hb _].
    apply Hb. cbn [fst]. unfold Sql.LOWER at 1. cbn [option_map]. by rewrite Hlike.
Qed.

(** X11.  The hint goes into the [LIKE] pattern of the resolver's query as
    it is.  A hint made of percent signs only is therefore a pattern that
    every name matches: every active branch that joins a municipality and a
    state is a row of the query, with a confidence of at least 0.75. *)
Theorem resolver_percent_hint (c : Sql.Catalogo) (h : Str.t) (rows : list Sql.Candidata) :
  forallb (N.eqb 0x25) h = true ->
  Sql.consulta_sucursales c (Some h) None = Ok rows ->
  Permutation (map Sql.sucursal_id rows)
              (map (fun f => Sql.s_id (fst (fst f))) (Forma.activas c))
  /\ Forall (fun r => (75 <= Sql.confianza r)%Z) rows.
Proof.
  intros H. unfold Sql.consulta_sucursales, Sql.LIMIT. intros [= <-].
  assert (filter (fun f => Sql.is_true (Sql.filtro (Some h) f) = true) (Sql.unir c)
          = Forma.activas c) as ->.
  { unfold Forma.activas. apply list_filter_iff. intros f.
    destruct (filtro_percent h f H) as [-> _]. done. }
  split.
  - rewrite ordenar_Permutation, map_map. apply Permutation_refl'.
    apply map_ext. intros f. by destruct (confianza_fila (Some h) f).
  - apply List.Forall_forall. intros r Hr.
    eapply Permutation_in in Hr; [|apply ordenar_Permutation].
    apply in_map_iff in Hr as [f [<- _]].
    destruct (confianza_fila (Some h) f) as [-> _]. by apply filtro_percent.
Qed.

Lemma resolver_percent_hint_witness :
  Permutation (map Sql.sucursal_id Muestras.todas_con_porcentaje)
              (map (fun f => Sql.s_id (fst (fst f))) (Forma.activas Ejemplos.catalogo))
  /\ Forall (fun r => (75 <= Sql.confianza r)%Z) Muestras.todas_con_porcentaje.
Proof.
  apply (resolver_percent_hint Ejemplos.catalogo (Str.lit "%")
           Muestras.todas_con_porcentaje).
  - reflexivity.
  - vm_compute. reflexivity.
Defined.

(** *** buscarSucursalInteligente *)

(** X12.  What [buscarSucursalInteligente] answers.  Without a hint (none,
    or the empty text) it sends no request and names no branch, "Sin
    especificar" with confidence 0.  With a hint it sends one request and
    throws, whatever the hint and the catalogue: the request is rejected, or
    the function [buscar_sucursales_inteligente] raises, its select list not
    having the column types that it declares.  The committed tables stay as
    they are. *)
Theorem buscarSucursalInteligente_outcome (falla : nat -> bool) (catalogo : Sql.Catalogo)
    (u : option Str.t) (w : Db.Mundo) :
  match u with
  | None | Some [] =>
      Analizador.buscarSucursalInteligente falla catalogo u w
      = (Ok {| Analizador.b_sucursal_id := None;
               Analizador.b_sucursal_nombre := Str.lit "Sin especificar";
               Analizador.b_confianza := 0; Analizador.b_candidatas := [] |}, w)
  | Some _ =>
      exists e w',
        Analizador.buscarSucursalInteligente falla catalogo u w = (Throw e, w')
        /\ Db.enviadas w' = S (Db.enviadas w)
        /\ Db.confirmado w' = Db.confirmado w
  end.
Proof.
  unfold Analizador.buscarSucursalInteligente.
  destruct u as [[|x u]|]; [done| |done].
  unfold mbind, Db.M_bind, Db.query.
  destruct (falla (Db.enviadas w)); [by eexists _, _|].
  cbn [Db.enviar Db.transaccion Db.confirmado Db.secuencias Db.enviadas].
  rewrite buscar_sucursales_inteligente_raises. cbn [mbind result_bind].
  destruct (Db.transaccion w) as [[t [|]]|]; by eexists _, _.
Qed.

(** ** The category cache *)

Lemma existsb_Zeqb_In (x : Z) (l : list Z) :
  existsb (fun y => (y =? x)%Z) l = true <-> In x l.
Proof.
  rewrite existsb_exists. split.
  - intros [y [Hy Hxy]]. by apply Z.eqb_eq in Hxy as ->.
  - intros H. exists x. split; [done | apply Z.eqb_refl].
Qed.

Lemma primeras_ids_In (x : Z) (l : list Z) : In x (Filas.primeras_ids l) <-> In x l.
Proof.
  induction l as [|y l IH]; simpl; [done|].
  rewrite filter_In, IH, negb_true_iff, Z.eqb_neq.
  destruct (decide (y = x)) as [->|Hne]; [tauto|].
  split; [tauto|]. intros [H|H]; [tauto|]. right. split; [done | congruence].
Qed.

Lemma primeras_ids_NoDup (l : list Z) : List.NoDup (Filas.primeras_ids l).
Proof.
  induction l as [|y l IH]; simpl; constructor.
  - rewrite filter_In, negb_true_iff, Z.eqb_neq. tauto.
  - by apply List.NoDup_filter.
Qed.

Lemma primeras_ids_snoc (x : Z) (l : list Z) :
  Filas.primeras_ids (l ++ [x])
  = if existsb (fun y => (y =? x)%Z) l then Filas.primeras_ids l
    else Filas.primeras_ids l ++ [x].
Proof.
  induction l as [|y l IH]; simpl; [done|].
  rewrite IH. destruct (Z.eqb_spec y x) as [->|Hyx]; simpl.
  - destruct (existsb _ l); [done|].
    rewrite List.filter_app. simpl. rewrite Z.eqb_refl. simpl. by rewrite app_nil_r.
  - destruct (existsb _ l); [done|].
    rewrite List.filter_app. simpl.
    destruct (Z.eqb_spec x y) as [->|_]; [done|]. done.
Qed.

Section Mapa.

Variable g : Z -> Analizador.Categoria.

Lemma Map_has_map (L : list Z) (k : Z) :
  Analizador.Map_has (map (fun id => (id, g id)) L) k = existsb (fun y => (y =? k)%Z) L.
Proof. unfold Analizador.Map_has. induction L as [|y L IH]; simpl; [done|]. by rewrite IH. Qed.

Lemma Map_set_absent (L : list Z) (k : Z) (v : Analizador.Categoria) :
  existsb (fun y => (y =? k)%Z) L = false ->
  Analizador.Map_set (map (fun id => (id, g id)) L) k v
  = map (fun id => (id, g id)) L ++ [(k, v)].
Proof.
  induction L as [|y L IH]; simpl; [done|].
  intros H. apply orb_false_iff in H as [Hy HL]. rewrite Hy. by rewrite IH.
Qed.

Lemma Map_push_absent (L : list Z) (k : Z) (s : Analizador.Subcategoria) :
  existsb (fun y => (y =? k)%Z) L = false ->
  Analizador.Map_push (map (fun id => (id, g id)) L) k s
  = map (fun id => (id, g id)) L.
Proof.
  induction L as [|y L IH]; simpl; [done|].
  intros H. apply orb_false_iff in H as [Hy HL]. rewrite Hy. by rewrite IH.
Qed.

Lemma Map_push_present (L : list Z) (k : Z) (s : Analizador.Subcategoria) :
  List.NoDup L -> In k L ->
  Analizador.Map_push (map (fun id => (id, g id)) L) k s
  = map (fun id =>
           (id, if (id =? k)%Z then
                  {| Analizador.cat_id := Analizador.cat_id (g id);
                     Analizador.cat_nombre := Analizador.cat_nombre (g id);
                     Analizador.cat_subcategorias :=
                       Analizador.cat_subcategorias (g id) ++ [s] |}
                else g id)) L.
Proof.
  induction 1 as [|y L Hy HL IH]; simpl; [done|].
  destruct (Z.eqb_spec y k) as [->|Hyk].
  - intros _. f_equal. apply map_ext_in. intros id Hid.
    destruct (Z.eqb_spec id k) as [->|_]; done.
  - intros [->|Hk]; [done|]. by rewrite IH.
Qed.

End Mapa.

Lemma Map_push_app (m : Analizador.Cache) (k : Z) (v : Analizador.Categoria)
    (s : Analizador.Subcategoria) :
  Analizador.Map_has m k = false ->
  Analizador.Map_push (m ++ [(k, v)]) k s
  = m ++ [(k, {| Analizador.cat_id := Analizador.cat_id v;
                 Analizador.cat_nombre := Analizador.cat_nombre v;
                 Analizador.cat_subcategorias := Analizador.cat_subcategorias v ++ [s] |})].
Proof.
  unfold Analizador.Map_has. induction m as [|[k' v'] m IH]; simpl.
  - by rewrite Z.eqb_refl.
  - intros H. apply orb_false_iff in H as [Hk Hm]. rewrite Hk. by rewrite IH.
Qed.

Lemma nombre_de_snoc (id : Z) (pre : list Analizador.FilaCategoria)
    (row : Analizador.FilaCategoria) :
  Filas.nombre_de id (pre ++ [row])
  = if existsb (fun y => (y =? id)%Z) (map Analizador.f_id pre)
    then Filas.nombre_de id pre
    else if (Analizador.f_id row =? id)%Z then Analizador.f_nombre row else [].
Proof.
  unfold Filas.nombre_de. rewrite find_app.
  induction pre as [|r pre IH]; simpl; [by destruct (_ =? _)%Z|].
  destruct (Analizador.f_id r =? id)%Z; simpl; [done | exact IH].
Qed.

Lemma subcategorias_de_snoc (id : Z) (pre : list Analizador.FilaCategoria)
    (row : Analizador.FilaCategoria) :
  Filas.subcategorias_de id (pre ++ [row])
  = Filas.subcategorias_de id pre ++ Filas.subcategoria_de id row.
Proof. unfold Filas.subcategorias_de. rewrite flat_map_app. simpl. by rewrite app_nil_r. Qed.

Lemma subcategorias_de_absent (id : Z) (pre : list Analizador.FilaCategoria) :
  existsb (fun y => (y =? id)%Z) (map Analizador.f_id pre) = false ->
  Filas.subcategorias_de id pre = [].
Proof.
  unfold Filas.subcategorias_de, Filas.subcategoria_de.
  induction pre as [|r pre IH]; simpl; [done|].
  intros H. apply orb_false_iff in H as [Hr Hpre]. rewrite Hr. simpl. by apply IH.
Qed.

Lemma categoria_de_otro (pre : list Analizador.FilaCategoria)
    (row : Analizador.FilaCategoria) (id : Z) :
  In id (map Analizador.f_id pre) -> id <> Analizador.f_id row ->
  Filas.categoria_de (pre ++ [row]) id = Filas.categoria_de pre id.
Proof.
  intros Hin Hne. unfold Filas.categoria_de.
  rewrite nombre_de_snoc, subcategorias_de_snoc.
  apply existsb_Zeqb_In in Hin. rewrite Hin.
  unfold Filas.subcategoria_de.
  destruct (Z.eqb_spec (Analizador.f_id row) id) as [Heq|_]; [congruence|].
  by rewrite app_nil_r.
Qed.

Lemma cargar_fila_tabla (pre : list Analizador.FilaCategoria)
    (row : Analizador.FilaCategoria) :
  Analizador.cargar_fila (Filas.tabla pre) row = Filas.tabla (pre ++ [row]).
Proof.
  unfold Analizador.cargar_fila, Filas.tabla.
  set (k := Analizador.f_id row).
  rewrite map_app. simpl map. rewrite primeras_ids_snoc. fold k.
  assert (existsb (fun y => (y =? k)%Z) (Filas.primeras_ids (map Analizador.f_id pre))
          = existsb (fun y => (y =? k)%Z) (map Analizador.f_id pre)) as Hex.
  { apply eq_true_iff_eq. by rewrite !existsb_Zeqb_In, primeras_ids_In. }
  change (fun id => Filas.categoria_de pre id)
    with (fun id => (id, snd (Filas.categoria_de pre id))).
  change (map (Filas.categoria_de pre))
    with (map (fun id => (id, snd (Filas.categoria_de pre id)))).
  rewrite Map_has_map, Hex.
  destruct (existsb (fun y => (y =? k)%Z) (map Analizador.f_id pre)) eqn:Hin; cbn [negb].
  - (* the category is known *)
    assert (forall L, (forall id, In id L -> In id (map Analizador.f_id pre)) ->
              forall extra,
                Filas.subcategoria_de k row = extra ->
                map (fun id =>
                       (id, if (id =? k)%Z then
                              {| Analizador.cat_id := id;
                                 Analizador.cat_nombre := Filas.nombre_de id pre;
                                 Analizador.cat_subcategorias :=
                                   Filas.subcategorias_de id pre ++ extra |}
                            else snd (Filas.categoria_de pre id))) L
                = map (Filas.categoria_de (pre ++ [row])) L) as Hmap.
    { intros L HL extra Hextra. apply map_ext_in. intros id Hid.
      destruct (Z.eqb_spec id k) as [->|Hne].
      - unfold Filas.categoria_de. rewrite nombre_de_snoc, subcategorias_de_snoc.
        by rewrite Hin, Hextra.
      - rewrite categoria_de_otro; [done | by apply HL | done]. }
    assert (forall id, In id (Filas.primeras_ids (map Analizador.f_id pre)) ->
                       In id (map Analizador.f_id pre)) as HL
      by (intros id; apply primeras_ids_In).
    destruct (Analizador.f_subcategoria row) as [[|c s]|] eqn:Hsub.
    + rewrite <- (Hmap _ HL []).
      * apply map_ext. intros id. destruct (Z.eqb_spec id k) as [->|_]; [|done].
        unfold Filas.categoria_de. simpl. by rewrite app_nil_r.
      * unfold Filas.subcategoria_de. fold k. by rewrite Z.eqb_refl, Hsub.
    + rewrite Map_push_present.
      * rewrite <- (Hmap _ HL
                      [{| Analizador.sub_nombre := c :: s;
                          Analizador.sub_keywords := default [] (Analizador.f_keywords row) |}]).
        -- done.
        -- unfold Filas.subcategoria_de. fold k. by rewrite Z.eqb_refl, Hsub.
      * apply primeras_ids_NoDup.
      * apply primeras_ids_In. by apply existsb_Zeqb_In.
    + rewrite <- (Hmap _ HL []).
      * apply map_ext. intros id. destruct (Z.eqb_spec id k) as [->|_]; [|done].
        unfold Filas.categoria_de. simpl. by rewrite app_nil_r.
      * unfold Filas.subcategoria_de. fold k. by rewrite Z.eqb_refl, Hsub.
  - (* a new category *)
    rewrite Map_set_absent by (by rewrite Hex).
    rewrite map_app. simpl map.
    assert (map (fun id => (id, snd (Filas.categoria_de pre id)))
                (Filas.primeras_ids (map Analizador.f_id pre))
            = map (Filas.categoria_de (pre ++ [row]))
                  (Filas.primeras_ids (map Analizador.f_id pre))) as Hold.
    { apply map_ext_in. intros id Hid. apply (proj1 (primeras_ids_In _ _)) in Hid.
      rewrite categoria_de_otro; [done | done |].
      intros ->. apply (proj2 (existsb_Zeqb_In _ _)) in Hid. fold k in Hid. congruence. }
    assert (Filas.categoria_de (pre ++ [row]) k
            = (k, {| Analizador.cat_id := k;
                     Analizador.cat_nombre := Analizador.f_nombre row;
                     Analizador.cat_subcategorias := Filas.subcategoria_de k row |}))
      as Hnew.
    { unfold Filas.categoria_de.
      rewrite nombre_de_snoc, subcategorias_de_snoc, Hin.
      rewrite subcategorias_de_absent by done. fold k. by rewrite Z.eqb_refl. }
    rewrite Hnew, <- Hold.
    assert (Analizador.Map_has
              (map (fun id => (id, snd (Filas.categoria_de pre id)))
                 (Filas.primeras_ids (map Analizador.f_id pre))) k = false) as Hhas
      by (by rewrite Map_has_map, Hex).
    unfold Filas.subcategoria_de. fold k. rewrite Z.eqb_refl.
    destruct (Analizador.f_subcategoria row) as [[|c s]|]; try done.
    by rewrite Map_push_app.
Qed.

Lemma cargarCaches_tabla (rows : list Analizador.FilaCategoria) :
  Analizador.cargarCaches rows = Filas.tabla rows.
Proof.
  unfold Analizador.cargarCaches.
  assert (forall pre, fold_left Analizador.cargar_fila rows (Filas.tabla pre)
                      = Filas.tabla (pre ++ rows)) as H.
  { induction rows as [|row rows IH]; intros pre; simpl.
    - by rewrite app_nil_r.
    - rewrite cargar_fila_tabla, IH. by rewrite <- app_assoc. }
  apply (H []).
Qed.

(** X13.  [cargarCaches] groups the rows of its query by category id: the
    keys of the cache are the distinct ids of the rows, each once, in the
    order in which they first occur; the entry of an id carries that id,
    the name found in the first row of the id, and one subcategory for each
    row of the id whose subcategory name is neither NULL nor empty, in row
    order, a NULL keyword array being stored as the empty list. *)
Theorem cargarCaches_entries (rows : list Analizador.FilaCategoria) :
  let cache := Analizador.cargarCaches rows in
  map fst cache = Filas.primeras_ids (map Analizador.f_id rows)
  /\ List.NoDup (map fst cache)
  /\ (forall id, In id (map fst cache) <-> In id (map Analizador.f_id rows))
  /\ (forall id c, In (id, c) cache ->
        Analizador.cat_id c = id
        /\ Analizador.cat_nombre c = Filas.nombre_de id rows
        /\ Analizador.cat_subcategorias c = Filas.subcategorias_de id rows).
Proof.
  intros cache. subst cache. rewrite cargarCaches_tabla. unfold Filas.tabla.
  assert (map fst (map (Filas.categoria_de rows)
                       (Filas.primeras_ids (map Analizador.f_id rows)))
          = Filas.primeras_ids (map Analizador.f_id rows)) as Hfst.
  { rewrite map_map. simpl. apply map_id. }
  rewrite Hfst. repeat split.
  - apply primeras_ids_NoDup.
  - apply primeras_ids_In.
  - apply primeras_ids_In.
  - apply in_map_iff in H as [id' [[= <- <-] _]]. done.
  - apply in_map_iff in H as [id' [[= <- <-] _]]. done.
  - apply in_map_iff in H as [id' [[= <- <-] _]]. done.
Qed.

Lemma In_aplanar (cache : Analizador.Cache) (id : Z) (c : Analizador.Categoria)
    (s : Analizador.Subcategoria) (k : Str.t) :
  In (id, c, s, k) (Spec.aplanar cache)
  <-> In (id, c) cache /\ In s (Analizador.cat_subcategorias c)
      /\ In k (Analizador.sub_keywords s).
Proof.
  unfold Spec.aplanar. rewrite in_flat_map. split.
  - intros [[id' c'] [He H]]. simpl in H. apply in_flat_map in H as [s' [Hs H]].
    apply in_map_iff in H as [k' [[= <- <- <- <-] Hk]]. done.
  - intros (He & Hs & Hk). exists (id, c). split; [done|]. simpl.
    apply in_flat_map. exists s. split; [done|]. apply in_map_iff. by exists k.
Qed.

Lemma In_subcategorias_de (id : Z) (rows : list Analizador.FilaCategoria)
    (s : Analizador.Subcategoria) :
  In s (Filas.subcategorias_de id rows) ->
  exists row, In row rows /\ Analizador.f_id row = id
    /\ Analizador.sub_nombre s <> []
    /\ Analizador.f_subcategoria row = Some (Analizador.sub_nombre s)
    /\ Analizador.sub_keywords s = default [] (Analizador.f_keywords row).
Proof.
  unfold Filas.subcategorias_de. rewrite in_flat_map. intros [row [Hrow H]].
  exists row. split; [done|]. unfold Filas.subcategoria_de in H.
  destruct (Z.eqb_spec (Analizador.f_id row) id) as [Hid|_]; [|done].
  destruct (Analizador.f_subcategoria row) as [[|x n]|]; try done.
  destruct H as [<-|[]]. done.
Qed.

(** Where a result of the categorizer other than the default comes from. *)
Lemma categorizarQueja_origen (rows : list Analizador.FilaCategoria) (texto : Str.t) :
  let r := Analizador.categorizarQueja (Analizador.cargarCaches rows) texto in
  r = Analizador.categoria_por_defecto
  \/ exists row primera k,
       In row rows
       /\ List.find (fun x => (Analizador.f_id x =? Analizador.f_id row)%Z) rows
          = Some primera
       /\ (exists n, Analizador.f_subcategoria row = Some n /\ n <> []
                     /\ Analizador.prop r "subcategoria_nombre" = Js.String n)
       /\ In k (default [] (Analizador.f_keywords row))
       /\ Spec.presente texto k = true
       /\ Analizador.prop r "categoria_id" = Js.Num (Analizador.f_id row)
       /\ Analizador.prop r "categoria_nombre" = Js.String (Analizador.f_nombre primera)
       /\ Analizador.prop r "keyword_encontrada" = Js.String k.
Proof.
  intros r. subst r. unfold Analizador.categorizarQueja.
  rewrite buscar_categoria_find.
  destruct (List.find _ _) as [[[[id c] s] k]|] eqn:Hfind; simpl; [right | by left].
  apply find_some in Hfind as [Hin Hk].
  apply In_aplanar in Hin as (He & Hs & Hkw).
  rewrite cargarCaches_tabla in He. unfold Filas.tabla in He.
  apply in_map_iff in He as [id' [[= <- <-] _]]. simpl in Hs.
  apply In_subcategorias_de in Hs as (row & Hrow & Hid & Hne & Hsub & Hkws).
  destruct (List.find (fun x => (Analizador.f_id x =? Analizador.f_id row)%Z) rows)
    as [primera|] eqn:Hprimera.
  - exists row, primera, k. split; [done|]. split; [done|].
    split; [exists (Analizador.sub_nombre s); by repeat split|].
    rewrite <- Hkws. split; [done|]. split; [exact Hk|].
    split; [by rewrite Hid|]. split; [|done].
    change (Js.String (Filas.nombre_de id' rows) = Js.String (Analizador.f_nombre primera)).
    unfold Filas.nombre_de. rewrite <- Hid. by rewrite Hprimera.
  - exfalso. apply (find_none _ _ Hprimera) in Hrow. by rewrite Z.eqb_refl in Hrow.
Qed.

(** X14.  Whatever the rows of the catalogue query and the text, the
    categorizer working on the cache loaded from these rows either gives the
    default category, or reports a row of the query: the row has a
    non-empty subcategory name, which is the reported subcategory; one of
    its keywords is present in the text and is the reported keyword; the
    reported category id is the id of the row, and the reported category
    name is the name in the first row of that id. *)
Theorem categorizarQueja_from_row (rows : list Analizador.FilaCategoria) (texto : Str.t) :
  let r := Analizador.categorizarQueja (Analizador.cargarCaches rows) texto in
  (r = Analizador.categoria_por_defecto
   /\ Analizador.prop r "categoria_id" = Js.Num 10
   /\ Analizador.prop r "keyword_encontrada" = Js.Null)
  \/ exists row primera n k,
       In row rows /\ In primera rows
       /\ Analizador.f_id primera = Analizador.f_id row
       /\ Analizador.f_subcategoria row = Some n /\ n <> []
       /\ In k (default [] (Analizador.f_keywords row))
       /\ Str.includes (Str.toLowerCase texto) (Str.toLowerCase k) = true
       /\ Analizador.prop r "categoria_id" = Js.Num (Analizador.f_id row)
       /\ Analizador.prop r "categoria_nombre" = Js.String (Analizador.f_nombre primera)
       /\ Analizador.prop r "subcategoria_nombre" = Js.String n
       /\ Analizador.prop r "keyword_encontrada" = Js.String k.
Proof.
  intros r. destruct (categorizarQueja_origen rows texto) as [Hdef|H].
  - left. fold r in Hdef. by rewrite Hdef.
  - right. destruct H as (row & primera & k & Hrow & Hfind & (n & Hn & Hne & Hsub)
                          & Hk & Hpres & Hid & Hnom & Hkey).
    exists row, primera, n, k. apply find_some in Hfind as [Hin Heq].
    apply Z.eqb_eq in Heq. by repeat split.
Qed.

(** ** Empty keywords and the empty text *)

Lemma startsWith_nil (s : Str.t) : Str.startsWith s [] = true.
Proof. by destruct s. Qed.

Lemma includes_nil (s : Str.t) : Str.includes s [] = true.
Proof. destruct s; simpl; by rewrite ?startsWith_nil. Qed.

Lemma toLowerCase_nil (k : Str.t) : Str.toLowerCase k = [] <-> k = [].
Proof. unfold Str.toLowerCase. by destruct k. Qed.

Lemma includes_in_nil (p : Str.t) : Str.includes [] p = true <-> p = [].
Proof. destruct p; simpl; split; done. Qed.

(** X15.  A subcategory that holds the empty keyword captures every
    complaint: the categorizer then never gives the default category,
    whatever the text.  Without an empty keyword, the empty description gets
    the default category. *)
Theorem empty_keyword_matches_everything (cache : Analizador.Cache) :
  if Filas.keyword_vacia cache then
    forall texto,
      Analizador.categorizarQueja cache texto <> Analizador.categoria_por_defecto
      /\ Analizador.prop (Analizador.categorizarQueja cache texto) "keyword_encontrada"
         <> Js.Null
  else Analizador.categorizarQueja cache [] = Analizador.categoria_por_defecto.
Proof.
  unfold Filas.keyword_vacia, Analizador.categorizarQueja.
  destruct (existsb _ _) eqn:Hex.
  - intros texto. rewrite buscar_categoria_find.
    apply existsb_exists in Hex as [x [Hx Hk]].
    destruct (List.find (Spec.coincide texto) (Spec.aplanar cache))
      as [[[[id c] s] k]|] eqn:Hfind.
    + simpl. split; [|done]. intros H.
      apply (f_equal (fun o => Analizador.prop o "keyword_encontrada")) in H.
      done.
    + exfalso. apply (find_none _ _ Hfind) in Hx.
      unfold Spec.coincide, Spec.presente in Hx.
      destruct (snd x); [|done]. by rewrite includes_nil in Hx.
  - rewrite buscar_categoria_find.
    destruct (List.find (Spec.coincide []) (Spec.aplanar cache)) as [x|] eqn:Hfind;
      [|done].
    exfalso. apply find_some in Hfind as [Hx Hk].
    unfold Spec.coincide, Spec.presente in Hk.
    change (Str.toLowerCase []) with (@nil N) in Hk.
    apply (proj1 (includes_in_nil _)) in Hk. apply (proj1 (toLowerCase_nil _)) in Hk.
    assert (existsb (fun x => match snd x with [] => true | _ :: _ => false end)
                    (Spec.aplanar cache) = true) as Habs.
    { apply existsb_exists. exists x. by rewrite Hk. }
    congruence.
Qed.

(** ** The category seeds *)

Section Siembra.

Import Semillas.

Lemma existsb_app_true {A : Type} (f : A -> bool) (l l' : list A) :
  existsb f l = true -> existsb f (l ++ l') = true.
Proof. intros H. rewrite existsb_app, H. done. Qed.

Lemma clave_libre (cs : list CategoriaQueja) (seq : Z) :
  Forall (fun c => (c_id c < seq)%Z) cs ->
  existsb (fun c => (c_id c =? seq)%Z) cs = false.
Proof.
  induction 1 as [|c cs Hc _ IH]; simpl; [done|].
  rewrite IH. destruct (Z.eqb_spec (c_id c) seq); [lia | done].
Qed.

Lemma clave_libre_sub (scs : list SubcategoriaQueja) (seq : Z) :
  Forall (fun sc => (sc_id sc < seq)%Z) scs ->
  existsb (fun sc => (sc_id sc =? seq)%Z) scs = false.
Proof.
  induction 1 as [|c cs Hc _ IH]; simpl; [done|].
  rewrite IH. destruct (Z.eqb_spec (sc_id c) seq); [lia | done].
Qed.

(** The category loop on tables whose keys come from the sequence: it ends
    without error, keeps what was there and leaves every name of the list in
    the table. *)
Lemma categorias_loop (L : list (Str.t * Str.t * Z * Z * bool)) (b : Base) :
  Forall (fun c => (c_id c < categorias_quejas_id_seq b)%Z) (categorias_quejas b) ->
  exists b',
    for_of insertar_categoria L b = (Ok tt, b')
    /\ subcategorias_quejas b' = subcategorias_quejas b
    /\ subcategorias_quejas_id_seq b' = subcategorias_quejas_id_seq b
    /\ Forall (fun c => (c_id c < categorias_quejas_id_seq b')%Z) (categorias_quejas b')
    /\ (forall f, existsb f (categorias_quejas b) = true ->
                  existsb f (categorias_quejas b') = true)
    /\ (forall nombre desc criticidad tiempo seguimiento,
          In (nombre, desc, criticidad, tiempo, seguimiento) L ->
          existsb (fun c => Str.eqb (c_nombre c) nombre) (categorias_quejas b') = true).
Proof.
  revert b. induction L as [|[[[[nombre desc] criticidad] tiempo] seguimiento] L IH];
    intros b Hinv.
  - exists b. repeat split; try done.
  - simpl. destruct (existsb (fun c => Str.eqb (c_nombre c) nombre) (categorias_quejas b))
      eqn:Hnombre.
    + edestruct (IH {| categorias_quejas := categorias_quejas b;
                       categorias_quejas_id_seq := categorias_quejas_id_seq b + 1;
                       subcategorias_quejas := subcategorias_quejas b;
                       subcategorias_quejas_id_seq := subcategorias_quejas_id_seq b |})
        as (b' & Hrun & Hsub & Hseq & Hinv' & Hkeep & Hnames).
      { simpl. eapply List.Forall_impl; [|exact Hinv]. simpl. intros; lia. }
      exists b'. simpl in *. repeat split; try done.
      intros n d c t s [[= <- <- <- <- <-]|Hin].
      * by apply Hkeep.
      * by eapply Hnames.
    + rewrite (clave_libre _ _ Hinv).
      edestruct (IH {| categorias_quejas :=
                         categorias_quejas b
                         ++ [{| c_id := categorias_quejas_id_seq b; c_nombre := nombre;
                                c_descripcion := desc; c_nivel_criticidad := criticidad;
                                c_tiempo_resolucion_esperado := tiempo;
                                c_requiere_seguimiento := seguimiento |}];
                       categorias_quejas_id_seq := categorias_quejas_id_seq b + 1;
                       subcategorias_quejas := subcategorias_quejas b;
                       subcategorias_quejas_id_seq := subcategorias_quejas_id_seq b |})
        as (b' & Hrun & Hsub & Hseq & Hinv' & Hkeep & Hnames).
      { simpl. apply Forall_app. split.
        - eapply List.Forall_impl; [|exact Hinv]. simpl. intros; lia.
        - constructor; [simpl; lia | constructor]. }
      exists b'. simpl in *. repeat split; try done.
      * intros f Hf. apply Hkeep. by apply existsb_app_true.
      * intros n d c t s [[= <- <- <- <- <-]|Hin].
        -- apply Hkeep. rewrite existsb_app. simpl. rewrite Str_eqb_refl.
           by rewrite orb_true_r.
        -- by eapply Hnames.
Qed.

(** The category loop when every name of the list is in the table already:
    nothing but the sequence moves. *)
Lemma categorias_loop_presentes (L : list (Str.t * Str.t * Z * Z * bool)) (b : Base) :
  (forall nombre desc criticidad tiempo seguimiento,
      In (nombre, desc, criticidad, tiempo, seguimiento) L ->
      existsb (fun c => Str.eqb (c_nombre c) nombre) (categorias_quejas b) = true) ->
  for_of insertar_categoria L b
  = (Ok tt, {| categorias_quejas := categorias_quejas b;
               categorias_quejas_id_seq := categorias_quejas_id_seq b + Z.of_nat (length L);
               subcategorias_quejas := subcategorias_quejas b;
               subcategorias_quejas_id_seq := subcategorias_quejas_id_seq b |}).
Proof.
  revert b. induction L as [|[[[[nombre desc] criticidad] tiempo] seguimiento] L IH];
    intros b Hpres.
  - simpl. rewrite Z.add_0_r. by destruct b.
  - simpl for_of. unfold insertar_categoria. cbn [categorias_quejas].
    rewrite (Hpres nombre desc criticidad tiempo seguimiento) by (by left).
    rewrite IH.
    + cbn [categorias_quejas categorias_quejas_id_seq subcategorias_quejas
             subcategorias_quejas_id_seq].
      do 2 f_equal. cbn [length]. lia.
    + intros n d c t s Hin. cbn [categorias_quejas]. eapply Hpres. right. exact Hin.
Qed.

Lemma filas_nuevas_app (id : Z) (L L' : list (Str.t * Z * Str.t * list Str.t)) :
  filas_nuevas id (L ++ L')
  = filas_nuevas id L ++ filas_nuevas (id + Z.of_nat (length L)) L'.
Proof.
  revert id. induction L as [|[[[n c] d] k] L IH]; intros id.
  - simpl. by rewrite Z.add_0_r.
  - simpl filas_nuevas. rewrite IH. simpl app. do 3 f_equal.
    cbn [length]. lia.
Qed.

Lemma filas_nuevas_length (id : Z) (L : list (Str.t * Z * Str.t * list Str.t)) :
  length (filas_nuevas id L) = length L.
Proof. revert id. induction L as [|[[[n c] d] k] L IH]; intros id; simpl; [done|]. by rewrite IH. Qed.

Lemma filas_nuevas_claves (id : Z) (L : list (Str.t * Z * Str.t * list Str.t)) :
  Forall (fun sc => (id <= sc_id sc < id + Z.of_nat (length L))%Z) (filas_nuevas id L).
Proof.
  revert id. induction L as [|[[[n c] d] k] L IH]; intros id; [constructor|].
  simpl filas_nuevas. constructor.
  - simpl sc_id. simpl length. lia.
  - eapply List.Forall_impl; [|apply IH]. simpl. intros; lia.
Qed.

(** The subcategory loop on a table whose keys come from the sequence: it
    ends without error exactly when every category that the list refers to
    exists, and then it adds every row of the list. *)
Lemma subcategorias_loop (L : list (Str.t * Z * Str.t * list Str.t)) (b : Base) :
  Forall (fun sc => (sc_id sc < subcategorias_quejas_id_seq b)%Z) (subcategorias_quejas b) ->
  (forall nombre catId desc keywords,
      In (nombre, catId, desc, keywords) L ->
      existsb (fun c => (c_id c =? catId)%Z) (categorias_quejas b) = true) ->
  for_of insertar_subcategoria L b = (Ok tt, tras_subcategorias L b).
Proof.
  revert b. induction L as [|[[[nombre catId] desc] keywords] L IH]; intros b Hinv Hfk.
  - unfold tras_subcategorias. simpl. rewrite Z.add_0_r, app_nil_r. by destruct b.
  - simpl for_of. unfold insertar_subcategoria.
    cbn [subcategorias_quejas categorias_quejas].
    rewrite (clave_libre_sub _ _ Hinv).
    rewrite (Hfk nombre catId desc keywords) by (by left). cbn [negb].
    rewrite IH.
    + unfold tras_subcategorias.
      cbn [subcategorias_quejas categorias_quejas subcategorias_quejas_id_seq
             categorias_quejas_id_seq filas_nuevas length].
      rewrite <- app_assoc. simpl app. do 2 f_equal. lia.
    + cbn [subcategorias_quejas subcategorias_quejas_id_seq].
      apply Forall_app. split.
      * eapply List.Forall_impl; [|exact Hinv]. simpl. intros; lia.
      * constructor; [simpl; lia | constructor].
    + intros n c d k Hin. cbn [categorias_quejas]. eapply Hfk. right. exact Hin.
Qed.

Lemma subcategorias_loop_referencias (L : list (Str.t * Z * Str.t * list Str.t)) (b b' : Base) :
  Forall (fun sc => (sc_id sc < subcategorias_quejas_id_seq b)%Z) (subcategorias_quejas b) ->
  for_of insertar_subcategoria L b = (Ok tt, b') ->
  forall nombre catId desc keywords,
    In (nombre, catId, desc, keywords) L ->
    existsb (fun c => (c_id c =? catId)%Z) (categorias_quejas b) = true.
Proof.
  revert b. induction L as [|[[[nombre catId] desc] keywords] L IH]; intros b Hinv Hrun;
    [done|].
  simpl for_of in Hrun. unfold insertar_subcategoria in Hrun.
  cbn [subcategorias_quejas categorias_quejas] in Hrun.
  rewrite (clave_libre_sub _ _ Hinv) in Hrun.
  destruct (existsb (fun c => (c_id c =? catId)%Z) (categorias_quejas b)) eqn:Hfk;
    cbn [negb] in Hrun; [|done].
  intros n c d k [[= <- <- <- <-]|Hin]; [done|].
  eapply IH in Hrun; [exact Hrun | | exact Hin].
  cbn [subcategorias_quejas subcategorias_quejas_id_seq].
  apply Forall_app. split.
  - eapply List.Forall_impl; [|exact Hinv]. simpl. intros; lia.
  - constructor; [simpl; lia | constructor].
Qed.

(** X16.  Running the category and subcategory seeds a second time: on
    tables whose keys come from their sequences and on which a first run
    ended without error, a second run ends without error too, leaves
    [categorias_quejas] as it is (only its sequence moves on by ten), and
    adds the ten subcategories once more under new keys, since [ON CONFLICT
    DO NOTHING] finds no unique index but the primary key. *)
Theorem seeds_rerun (b b1 : Base) :
  claves_de_secuencia b ->
  insertar_categorias_y_subcategorias b = (Ok tt, b1) ->
  insertar_categorias_y_subcategorias b1
  = (Ok tt,
     {| categorias_quejas := categorias_quejas b1;
        categorias_quejas_id_seq := categorias_quejas_id_seq b1 + 10;
        subcategorias_quejas :=
          subcategorias_quejas b1
          ++ filas_nuevas (subcategorias_quejas_id_seq b1) subcategorias;
        subcategorias_quejas_id_seq := subcategorias_quejas_id_seq b1 + 10 |}).
Proof.
  intros [HinvC HinvS] Hrun. unfold insertar_categorias_y_subcategorias in *.
  destruct (categorias_loop categorias b HinvC)
    as (bc & Hcat & Hsub & Hseq & HinvC' & _ & Hnames).
  rewrite Hcat in Hrun.
  assert (Forall (fun sc => (sc_id sc < subcategorias_quejas_id_seq bc)%Z)
                 (subcategorias_quejas bc)) as HinvS' by (by rewrite Hsub, Hseq).
  pose proof (subcategorias_loop_referencias _ _ _ HinvS' Hrun) as Hfk.
  rewrite (subcategorias_loop _ _ HinvS' Hfk) in Hrun.
  injection Hrun as <-. unfold tras_subcategorias.
  cbn [categorias_quejas categorias_quejas_id_seq subcategorias_quejas
         subcategorias_quejas_id_seq].
  rewrite categorias_loop_presentes by exact Hnames.
  rewrite subcategorias_loop.
  - unfold tras_subcategorias.
    cbn [categorias_quejas categorias_quejas_id_seq subcategorias_quejas
           subcategorias_quejas_id_seq].
    reflexivity.
  - cbn [subcategorias_quejas subcategorias_quejas_id_seq].
    apply Forall_app. split.
    + eapply List.Forall_impl; [|exact HinvS']. simpl. intros; lia.
    + eapply List.Forall_impl; [|apply filas_nuevas_claves]. simpl. intros; lia.
  - exact Hfk.
Qed.

Lemma seeds_rerun_witness :
  insertar_categorias_y_subcategorias sembrada
  = (Ok tt,
     {| categorias_quejas := categorias_quejas sembrada;
        categorias_quejas_id_seq := categorias_quejas_id_seq sembrada + 10;
        subcategorias_quejas :=
          subcategorias_quejas sembrada
          ++ filas_nuevas (subcategorias_quejas_id_seq sembrada) subcategorias;
        subcategorias_quejas_id_seq := subcategorias_quejas_id_seq sembrada + 10 |}).
Proof.
  apply (seeds_rerun vacia sembrada).
  - split; constructor.
  - vm_compute. reflexivity.
Defined.

(** X17.  With the catalogue as the seeds leave it, whatever the order in
    which the query of [cargarCaches] returns its rows and whatever the
    text, the categorizer never names 'Infraestructura', 'Promociones' or
    'Personal': the seeds give these categories no subcategory ('Personal
    Grosero' is registered under category 2, 'Servicio al Cliente'). *)
Theorem seeded_categories_unreachable (rows : list Analizador.FilaCategoria)
    (texto nombre : Str.t) :
  Permutation rows (consulta_categorias sembrada) ->
  In nombre sin_subcategorias ->
  Analizador.prop (Analizador.categorizarQueja (Analizador.cargarCaches rows) texto)
                  "categoria_nombre"
  <> Js.String nombre.
Proof.
  intros Hperm Hnombre.
  destruct (categorizarQueja_origen rows texto) as [Hdef|H].
  - rewrite Hdef. intros [= <-]. vm_compute in Hnombre.
    destruct Hnombre as [H|[H|[H|[]]]]; discriminate H.
  - destruct H as (row & primera & k & Hrow & Hfind & (n & Hn & _) & _ & _ & _ & Hnom & _).
    rewrite Hnom. intros [= <-].
    apply find_some in Hfind as [Hprimera Hid].
    apply (Permutation_in _ Hperm) in Hrow, Hprimera.
    assert (sin_alcance sin_subcategorias (consulta_categorias sembrada) = true) as Hcheck
      by (vm_compute; reflexivity).
    unfold sin_alcance in Hcheck.
    rewrite forallb_forall in Hcheck. specialize (Hcheck row Hrow).
    rewrite forallb_forall in Hcheck. specialize (Hcheck primera Hprimera).
    rewrite Hn, Hid in Hcheck. cbn [andb implb] in Hcheck.
    apply negb_true_iff in Hcheck.
    apply (proj2 (existsb_eqb_In _ _)) in Hnombre. congruence.
Qed.

Lemma seeded_categories_unreachable_witness :
  Analizador.prop
    (Analizador.categorizarQueja
       (Analizador.cargarCaches (consulta_categorias sembrada))
       (Str.lit "El empleado fue muy grosero"))
    "categoria_nombre"
  <> Js.String (Str.lit "Personal").
Proof.
  apply seeded_categories_unreachable.
  - apply Permutation_refl.
  - right. right. left. reflexivity.
Defined.

End Siembra.

(** ** What a successful run writes *)

Section Exito.

Import Db Escritura.

Variable falla : nat -> bool.

Lemma bind_Ok {A B} (m : M A) (k : A -> M B) (w w'' : Mundo) (b : B) :
  (m ≫= k) w = (Ok b, w'') ->
  exists a w', m w = (Ok a, w') /\ k a w' = (Ok b, w'').
Proof.
  unfold mbind, M_bind. destruct (m w) as [[a|e] w']; [eauto | done].
Qed.

Lemma lift_Ok {A} (r : result A) (w w' : Mundo) (a : A) :
  lift r w = (Ok a, w') -> r = Ok a /\ w' = w.
Proof. unfold lift. by intros [= -> ->]. Qed.

Lemma mret_Ok {A} (x a : A) (w w' : Mundo) :
  (mret x : M A) w = (Ok a, w') -> a = x /\ w' = w.
Proof. unfold mret, M_ret. by intros [= -> ->]. Qed.

Lemma query_Ok {A} (st : Sentencia A) (c t : Tablas) (s : Secuencias) (n : nat)
    (a : A) (w' : Mundo) :
  query falla st (en_curso c t s n) = (Ok a, w') ->
  exists t' s', st t s = Ok (a, t', s') /\ w' = en_curso c t' s' (S n).
Proof.
  unfold query, en_curso. simpl. destruct (falla n); [done|].
  destruct (st t s) as [[[a' t'] s']|e]; [|done].
  intros [= -> <-]. eauto.
Qed.

Lemma analizarSentimiento_Ok (texto : option Str.t) (c t : Tablas) (s : Secuencias)
    (n : nat) (a : Sql.Sentimiento) (w' : Mundo) :
  Analizador.analizarSentimiento falla texto (en_curso c t s n) = (Ok a, w') ->
  a = Sql.analizar_sentimiento_basico texto /\ w' = en_curso c t s (S n).
Proof.
  unfold Analizador.analizarSentimiento. intros H.
  apply query_Ok in H as (t' & s' & [= <- <- <-] & ->). done.
Qed.

Lemma buscarSucursalInteligente_Ok (catalogo : Sql.Catalogo) (u : option Str.t)
    (w w' : Mundo) (b : Analizador.Busqueda) :
  Analizador.buscarSucursalInteligente falla catalogo u w = (Ok b, w') ->
  identificado u = false /\ Analizador.b_sucursal_id b = None /\ w' = w.
Proof.
  unfold Analizador.buscarSucursalInteligente.
  destruct u as [[|x u]|].
  - intros H. by apply mret_Ok in H as [-> ->].
  - unfold mbind, M_bind, query. destruct (falla (enviadas w)); [done|].
    rewrite buscar_sucursales_inteligente_raises. cbn [mbind result_bind].
    by destruct (transaccion (enviar w)) as [[t [|]]|].
  - intros H. by apply mret_Ok in H as [-> ->].
Qed.

Lemma puntos_length (s : Str.t) : (length (Str.puntos s) <= length s)%nat.
Proof.
  assert (forall n s, (length s <= n)%nat -> (length (Str.puntos s) <= length s)%nat) as H.
  { clear s. induction n as [|n IH]; intros [|c [|d s]] Hs; simpl in *; try lia.
    destruct (Str.alto c && Str.bajo d); simpl.
    - assert (length (Str.puntos s) <= length s)%nat by (apply IH; lia). lia.
    - assert (length (Str.puntos (d :: s)) <= length (d :: s))%nat
        by (apply IH; simpl; lia).
      simpl in *. lia. }
  by apply (H (length s)).
Qed.

Lemma VARCHAR_corto (n : nat) (s : Str.t) :
  (length s <= n)%nat -> Sql.VARCHAR n (Some s) = Ok (Some s).
Proof.
  intros H. unfold Sql.VARCHAR. pose proof (puntos_length s).
  destruct (Nat.leb_spec (length (Str.puntos s)) n); [done | lia].
Qed.

Lemma VARCHAR_NULL (n : nat) (v r : Sql.text) :
  Sql.VARCHAR n v = Ok r -> (v = None <-> r = None).
Proof.
  unfold Sql.VARCHAR. destruct v as [s|]; [|by intros [= <-]].
  destruct (_ <=? _)%nat; [by intros [= <-]|].
  destruct (forallb _ _); [by intros [= <-] | done].
Qed.

(** A normalised telephone is none or ten digits, whatever the value of the
    body it comes from. *)
Lemma limpiarTelefono_diez (v : Js.value) (r : option Str.t) :
  Analizador.limpiarTelefono v = Ok r -> Forma.telefono_valido r.
Proof.
  unfold Analizador.limpiarTelefono.
  destruct (negb (Js.truthy v)); [by intros [= <-]|].
  destruct (Js.eq_string v (Str.lit "edna")); [by intros [= <-]|].
  destruct (Js.includes v (Str.lit "url")) as [[|]|]; cbn [mbind result_bind];
    [by intros [= <-]| |done].
  destruct (Js.toString v) as [s|]; cbn [mbind result_bind]; [|done].
  set (d := filter (fun c => Str.is_digit c = true) s).
  pose proof (filter_digits s) as Hd. fold d in Hd.
  destruct (Nat.eqb_spec (length d) 10) as [H10|_]; [by intros [= <-]|].
  destruct (Nat.eqb_spec (length d) 12) as [H12|_]; [|by intros [= <-]].
  destruct (Str.startsWith d (Str.lit "52")); [|by intros [= <-]].
  intros [= <-]. split.
  - change (length (skipn 2 d) = 10%nat). rewrite length_skipn. lia.
  - apply forallb_forall. intros c Hc. apply (proj1 (forallb_forall _ _) Hd).
    by apply (In_drop 2 d c).
Qed.

Lemma VARCHAR_telefono (tel : option Str.t) :
  Forma.telefono_valido tel -> Sql.VARCHAR 20 tel = Ok tel.
Proof.
  destruct tel as [d|]; [|done]. intros [Hl _]. apply VARCHAR_corto. lia.
Qed.

Lemma insert_cliente_Ok (nombre telefono segmento : option Str.t) (t t' : Tablas)
    (s s' : Secuencias) (id : Z) :
  insert_cliente nombre telefono segmento t s = Ok (id, t', s') ->
  exists cl,
    t' = mas_cliente t cl
    /\ s' = {| clientes_id_seq := clientes_id_seq s + 1;
               quejas_id_seq := quejas_id_seq s;
               insights_ia_id_seq := insights_ia_id_seq s |}
    /\ id = clientes_id_seq s
    /\ c_id cl = clientes_id_seq s
    /\ c_total_quejas cl = 0%Z
    /\ Sql.VARCHAR 200 nombre = Ok (c_nombre cl)
    /\ Sql.VARCHAR 20 telefono = Ok (c_telefono cl)
    /\ Sql.VARCHAR 50 segmento = Ok (c_segmento_cliente cl).
Proof.
  unfold insert_cliente.
  destruct (Sql.VARCHAR 200 nombre) as [n'|]; cbn [mbind result_bind]; [|done].
  destruct (Sql.VARCHAR 20 telefono) as [tel'|]; cbn [mbind result_bind]; [|done].
  destruct (Sql.VARCHAR 50 segmento) as [seg'|]; cbn [mbind result_bind]; [|done].
  intros [= <- <- <-]. eexists. split; [reflexivity|]. by repeat split.
Qed.

Lemma obtenerOCrearCliente_Ok (datos : Analizador.DatosNormalizados)
    (c t : Tablas) (s : Secuencias) (n : nat) (id : Z) (w' : Mundo) :
  Analizador.obtenerOCrearCliente falla datos (en_curso c t s n) = (Ok id, w') ->
  exists n',
    (identificado (Analizador.telefono datos) = true
     /\ head (map c_id (con_telefono (Analizador.telefono datos) t)) = Some id
     /\ w' = en_curso c t s n')
    \/ ((identificado (Analizador.telefono datos) = false
         \/ con_telefono (Analizador.telefono datos) t = [])
        /\ id = clientes_id_seq s
        /\ exists cl,
             w' = en_curso c (mas_cliente t cl)
                    {| clientes_id_seq := clientes_id_seq s + 1;
                       quejas_id_seq := quejas_id_seq s;
                       insights_ia_id_seq := insights_ia_id_seq s |}
                    n'
             /\ c_id cl = clientes_id_seq s
             /\ c_total_quejas cl = 0%Z
             /\ Sql.VARCHAR 200 (Analizador.nombre datos) = Ok (c_nombre cl)
             /\ Sql.VARCHAR 20 (Analizador.telefono datos) = Ok (c_telefono cl)
             /\ c_segmento_cliente cl
                = Some (if identificado (Analizador.telefono datos)
                        then Str.lit "nuevo" else Str.lit "anonimo")).
Proof.
  unfold Analizador.obtenerOCrearCliente. intros H.
  apply bind_Ok in H as (e & w1 & He & H).
  destruct (Analizador.telefono datos) as [[|x tel]|] eqn:Htel.
  - apply mret_Ok in He as [-> ->].
    apply query_Ok in H as (t' & s' & Hst & ->).
    apply insert_cliente_Ok in Hst as (cl & -> & -> & -> & Hid & Htot & Hn & Ht & Hs).
    exists (S n). right. split; [by left|]. split; [done|].
    exists cl. repeat split; try done. by injection Hs as <-.
  - apply bind_Ok in He as (rows & w2 & Hq & He).
    apply query_Ok in Hq as (t' & s' & [= <- <- <-] & ->).
    apply mret_Ok in He as [-> ->].
    destruct (head _) as [id'|] eqn:Hhead.
    + apply mret_Ok in H as [-> ->]. exists (S n). left. done.
    + apply query_Ok in H as (t' & s' & Hst & ->).
      apply insert_cliente_Ok in Hst as (cl & -> & -> & -> & Hid & Htot & Hn & Ht & Hs).
      exists (S (S n)). right. split.
      { right. unfold con_telefono. by destruct (filter _ (clientes t)). }
      split; [done|]. exists cl. repeat split; try done. by injection Hs as <-.
  - apply mret_Ok in He as [-> ->].
    apply query_Ok in H as (t' & s' & Hst & ->).
    apply insert_cliente_Ok in Hst as (cl & -> & -> & -> & Hid & Htot & Hn & Ht & Hs).
    exists (S n). right. split; [by left|]. split; [done|].
    exists cl. repeat split; try done. by injection Hs as <-.
Qed.

Lemma generarInsights_Ok (quejaId : Z) (categoria : Analizador.Categorizacion)
    (urgencia : Z) (c t : Tablas) (s : Secuencias) (n : nat) (w' : Mundo) :
  Analizador.generarInsightsSiEsNecesario falla quejaId categoria urgencia
    (en_curso c t s n) = (Ok (), w') ->
  exists n' nuevos,
    w' = en_curso c
           {| clientes := clientes t; quejas := quejas t;
              insights_ia := insights_ia t ++ nuevos |}
           {| clientes_id_seq := clientes_id_seq s; quejas_id_seq := quejas_id_seq s;
              insights_ia_id_seq := insights_ia_id_seq s + Z.of_nat (length nuevos) |}
           n'
    /\ map i_id nuevos = (if (4 <=? urgencia)%Z then [insights_ia_id_seq s] else []).
Proof.
  unfold Analizador.generarInsightsSiEsNecesario.
  destruct (4 <=? urgencia)%Z.
  - intros H. apply bind_Ok in H as (nombre & w1 & Hn & H).
    apply lift_Ok in Hn as [Hn ->].
    apply query_Ok in H as (t' & s' & Hst & ->).
    unfold insert_insight in Hst.
    destruct (Sql.VARCHAR 200 _) as [titulo|]; cbn [mbind result_bind] in Hst; [|done].
    injection Hst as <- <-.
    eexists (S n), [_]. split; [reflexivity | done].
  - intros H. apply mret_Ok in H as [_ ->]. exists n, [].
    split; [|done]. simpl. rewrite Z.add_0_r, app_nil_r. by destruct t, s.
Qed.

Lemma try_catch_Ok {A} (m : M A) (w w' : Mundo) (a : A) :
  try_catch m (fun error => ROLLBACK falla ≫= λ _, throw error) w = (Ok a, w') ->
  m w = (Ok a, w').
Proof.
  unfold try_catch. destruct (m w) as [[a'|e] w1]; [done|].
  unfold mbind, M_bind, ROLLBACK, throw. by destruct (falla _).
Qed.

End Exito.

(** X18.  What a run of [procesarQuejaConIA] that returns has committed, on
    a connection with no transaction open.  The body named no branch, and
    the complaint has none.  Exactly one complaint row was added, last,
    whose key is the next value of the sequence and the [queja_id] returned,
    whose urgency (between 1 and 5) and sentiment are those returned and
    whose customer is either the first customer already registered under the
    normalised phone or a new customer, added last with the next key and
    that phone.  That customer's [total_quejas] is the number of complaint
    rows that now refer to it, the other customers being left as they were.
    One insight row was added exactly when the urgency is 4 or 5. *)
Theorem procesarQuejaConIA_success (ahora : Z) (Date_parse : Str.t -> option Z)
    (falla : nat -> bool) (catalogo : Sql.Catalogo) (cache : Analizador.Cache)
    (datos : gmap Str.t Js.value) (w w' : Db.Mundo) (r : Analizador.Resultado) :
  Db.transaccion w = None ->
  Analizador.procesarQuejaConIA ahora Date_parse falla catalogo cache datos w = (Ok r, w') ->
  exists dn q nuevos insights,
    Analizador.normalizarDatos ahora Date_parse datos = Ok dn
    /\ Escritura.identificado (Analizador.sucursal dn) = false
    /\ Db.transaccion w' = None
    /\ Db.quejas (Db.confirmado w') = Db.quejas (Db.confirmado w) ++ [q]
    /\ Db.q_id q = Db.quejas_id_seq (Db.secuencias w)
    /\ Analizador.r_queja_id r = Db.q_id q
    /\ Analizador.descripcion dn = Some (Db.q_descripcion q)
    /\ Db.q_sucursal_id q = None
    /\ Db.q_datos_originales q = datos
    /\ Db.q_urgencia q = Analizador.r_urgencia r
    /\ (1 <= Analizador.r_urgencia r <= 5)%Z
    /\ Db.q_sentimiento q = Analizador.r_sentimiento r
    /\ Db.clientes (Db.confirmado w')
       = map (fun c =>
                if (Db.c_id c =? Db.q_cliente_id q)%Z
                then Escritura.con_total
                       (Escritura.quejas_de (Db.q_cliente_id q) (Db.confirmado w')) c
                else c)
             (Db.clientes (Db.confirmado w) ++ nuevos)
    /\ ((nuevos = []
         /\ Escritura.identificado (Analizador.telefono dn) = true
         /\ head (map Db.c_id
                    (Escritura.con_telefono (Analizador.telefono dn) (Db.confirmado w)))
            = Some (Db.q_cliente_id q))
        \/ (map Db.c_id nuevos = [Db.clientes_id_seq (Db.secuencias w)]
            /\ map Db.c_telefono nuevos = [Analizador.telefono dn]
            /\ Db.q_cliente_id q = Db.clientes_id_seq (Db.secuencias w)
            /\ (Escritura.identificado (Analizador.telefono dn) = false
                \/ Escritura.con_telefono (Analizador.telefono dn) (Db.confirmado w) = [])))
    /\ Db.insights_ia (Db.confirmado w') = Db.insights_ia (Db.confirmado w) ++ insights
    /\ length insights = (if (4 <=? Analizador.r_urgencia r)%Z then 1 else 0)%nat.
Proof.
  intros Hw Hrun. unfold Analizador.procesarQuejaConIA in Hrun.
  apply bind_Ok in Hrun as ([] & w0 & Hconnect & Hrun).
  unfold Db.connect in Hconnect.
  destruct (falla (Db.enviadas w)) eqn:Hf0; [done|]. injection Hconnect as <-.
  apply try_catch_Ok in Hrun.
  apply bind_Ok in Hrun as ([] & w1 & Hbegin & Hrun).
  unfold Db.BEGIN in Hbegin. simpl in Hbegin. rewrite Hw in Hbegin.
  destruct (falla (S (Db.enviadas w))); [done|].
  injection Hbegin as <-.
  change (Db.con_transaccion (Db.enviar (Db.enviar w))
            (Some (Db.confirmado (Db.enviar (Db.enviar w)), false)))
    with (Escritura.en_curso (Db.confirmado w) (Db.confirmado w) (Db.secuencias w)
            (S (S (Db.enviadas w)))) in Hrun.
  set (T := Db.confirmado w) in *. set (S0 := Db.secuencias w) in *.
  remember (S (S (Db.enviadas w))) as n eqn:Hn in Hrun. clear Hn.
  apply bind_Ok in Hrun as (dn & w2 & Hdn & Hrun). apply lift_Ok in Hdn as [Hdn ->].
  apply bind_Ok in Hrun as (sent & w2 & Hsent & Hrun).
  apply analizarSentimiento_Ok in Hsent as [-> ->].
  apply bind_Ok in Hrun as (texto & w2 & Htexto & Hrun).
  apply lift_Ok in Htexto as [Htexto ->].
  apply bind_Ok in Hrun as (busqueda & w2 & Hbusqueda & Hrun).
  apply buscarSucursalInteligente_Ok in Hbusqueda as (Hsucursal & Hbid & ->).
  apply bind_Ok in Hrun as (urgencia & w2 & Hurgencia & Hrun).
  apply lift_Ok in Hurgencia as [Hurgencia ->].
  apply bind_Ok in Hrun as (clienteId & w2 & Hcliente & Hrun).
  apply obtenerOCrearCliente_Ok in Hcliente as [n2 Hcliente].
  apply bind_Ok in Hrun as (quejaId & w3 & Hqueja & Hrun).
  apply bind_Ok in Hrun as ([] & w4 & Hstats & Hrun).
  apply bind_Ok in Hrun as ([] & w5 & Hinsight & Hrun).
  apply bind_Ok in Hrun as ([] & w6 & Hcommit & Hrun).
  apply mret_Ok in Hrun as [-> ->].
  assert (1 <= urgencia <= 5)%Z as Hrango.
  { rewrite calcularUrgencia_forma in Hurgencia. cbv zeta in Hurgencia.
    pose proof (bono_sentimiento_rango (Sql.analizar_sentimiento_basico
                                          (Analizador.descripcion dn))).
    pose proof (bono_categoria_rango
                  (Analizador.prop (Analizador.categorizarQueja cache texto)
                     "categoria_nombre")).
    destruct (Analizador.prop _ "descripcion"); try done;
      injection Hurgencia as <-; try lia.
    destruct (Spec.emergencia _); lia. }
  destruct (Analizador.descripcion dn) as [d|] eqn:Hd; [|done].
  injection Htexto as ->.
  assert (Forma.telefono_valido (Analizador.telefono dn)) as Htel.
  { destruct (normalizarDatos_inv _ _ _ _ Hdn) as (_ & Ht & _).
    by apply limpiarTelefono_diez in Ht. }
  assert (exists t2 s2 nuevos,
             w2 = Escritura.en_curso T t2 s2 n2
             /\ Db.clientes t2 = Db.clientes T ++ nuevos
             /\ Db.quejas t2 = Db.quejas T
             /\ Db.insights_ia t2 = Db.insights_ia T
             /\ Db.quejas_id_seq s2 = Db.quejas_id_seq S0
             /\ ((nuevos = []
                  /\ Escritura.identificado (Analizador.telefono dn) = true
                  /\ head (map Db.c_id (Escritura.con_telefono (Analizador.telefono dn) T))
                     = Some clienteId)
                 \/ (map Db.c_id nuevos = [Db.clientes_id_seq S0]
                     /\ map Db.c_telefono nuevos = [Analizador.telefono dn]
                     /\ clienteId = Db.clientes_id_seq S0
                     /\ (Escritura.identificado (Analizador.telefono dn) = false
                         \/ Escritura.con_telefono (Analizador.telefono dn) T = []))))
    as (t2 & s2 & nuevos & -> & Hc2 & Hq2 & Hi2 & Hs2 & Hnuevos).
  { destruct Hcliente as [(Hid & Hhead & ->)|(Hno & -> & cl & -> & Hcid & _ & _ & Hct & _)].
    - exists T, S0, []. rewrite app_nil_r. repeat split; try done. by left.
    - eexists _, _, [cl]. split; [reflexivity|]. repeat split; try done.
      right. rewrite (VARCHAR_telefono _ Htel) in Hct. injection Hct as Hct.
      simpl. rewrite Hcid, <- Hct. by repeat split. }
  clear Hcliente.
  apply query_Ok in Hqueja as (t3 & s3 & Hst & ->).
  injection Hst as <- <- <-.
  unfold Analizador.actualizarEstadisticasCliente in Hstats.
  apply query_Ok in Hstats as (t4 & s4 & Hst & ->).
  injection Hst as <- <-.
  apply generarInsights_Ok in Hinsight as (n5 & insights & -> & Hinsights).
  unfold Db.COMMIT, Escritura.en_curso in Hcommit. simpl in Hcommit.
  destruct (falla n5); [done|]. injection Hcommit as <-.
  eexists dn, _, nuevos, insights. simpl.
  split; [exact Hdn|]. split; [exact Hsucursal|]. split; [done|].
  split; [rewrite Hq2; reflexivity|]. simpl.
  split; [exact Hs2|]. split; [done|]. split; [done|]. split; [exact Hbid|].
  split; [done|]. split; [done|]. split; [done|]. split; [done|].
  split.
  { rewrite Hc2. unfold Escritura.quejas_de, Escritura.con_total. simpl. reflexivity. }
  split; [exact Hnuevos|]. split; [by rewrite Hi2|].
  destruct (4 <=? urgencia)%Z; by apply (f_equal length) in Hinsights;
    rewrite length_map in Hinsights.
Qed.

Lemma procesarQuejaConIA_success_witness :
  exists r w',
    Analizador.procesarQuejaConIA 0 (fun _ => None) (fun _ => false)
      Ejemplos.catalogo Ejemplos.cache Ejemplos.queja_ana Ejemplos.mundo = (Ok r, w')
    /\ exists q,
         Db.quejas (Db.confirmado w') = Db.quejas (Db.confirmado Ejemplos.mundo) ++ [q]
         /\ Analizador.r_queja_id r = Db.q_id q.
Proof.
  eexists _, _. split; [vm_compute; reflexivity|].
  edestruct (procesarQuejaConIA_success 0 (fun _ => None) (fun _ => false)
               Ejemplos.catalogo Ejemplos.cache Ejemplos.queja_ana Ejemplos.mundo)
    as (dn & q & nuevos & insights & _ & _ & _ & Hq & _ & Hid & _).
  - reflexivity.
  - vm_compute. reflexivity.
  - exists q. split; [exact Hq | exact Hid].
Defined.

(** ** A body that names a branch *)

Lemma firstn_no_vacio {A} (n : nat) (l : list A) :
  l <> [] -> firstn (S n) l <> [].
Proof. by destruct l. Qed.

(** X19.  A body whose [sucursal] is a string with a visible character makes
    [procesarQuejaConIA] throw, whatever else it holds and whatever the
    state of the database: the branch search calls
    [buscar_sucursales_inteligente], which raises on every call.  The
    committed tables stay as they are.  The body of the server's own
    [/test-ia] endpoint is such a body. *)
Theorem procesarQuejaConIA_sucursal_fails (ahora : Z) (Date_parse : Str.t -> option Z)
    (falla : nat -> bool) (catalogo : Sql.Catalogo) (cache : Analizador.Cache)
    (datos : gmap Str.t Js.value) (w : Db.Mundo) (s : Str.t) :
  Db.transaccion w = None ->
  Analizador.campo datos "sucursal" = Js.String s ->
  Str.trim s <> [] ->
  exists e w',
    Analizador.procesarQuejaConIA ahora Date_parse falla catalogo cache datos w
    = (Throw e, w')
    /\ Db.confirmado w' = Db.confirmado w
    /\ Db.transaccion w' = None.
Proof.
  intros Hw Hcampo Htrim.
  pose proof (procesarQuejaConIA_atomic ahora Date_parse falla catalogo cache datos w Hw)
    as Hatomic.
  destruct (Analizador.procesarQuejaConIA ahora Date_parse falla catalogo cache datos w)
    as [[r|e] w'] eqn:Hrun; [exfalso | by exists e, w'].
  clear Hatomic. unfold Analizador.procesarQuejaConIA in Hrun.
  apply bind_Ok in Hrun as ([] & w0 & _ & Hrun).
  apply try_catch_Ok in Hrun.
  apply bind_Ok in Hrun as ([] & w1 & _ & Hrun).
  apply bind_Ok in Hrun as (dn & w2 & Hdn & Hrun). apply lift_Ok in Hdn as [Hdn ->].
  apply bind_Ok in Hrun as (sent & w2 & _ & Hrun).
  apply bind_Ok in Hrun as (texto & w3 & _ & Hrun).
  apply bind_Ok in Hrun as (busqueda & w4 & Hbusqueda & _).
  apply buscarSucursalInteligente_Ok in Hbusqueda as (Hsucursal & _).
  destruct (normalizarDatos_inv _ _ _ _ Hdn) as (_ & _ & _ & Hs).
  assert (s <> []) as Hne by (by intros ->).
  unfold Js.or_ in Hs. rewrite Hcampo in Hs.
  assert (Js.truthy (Js.String s) = true) as Ht by (by destruct s).
  rewrite Ht, limpiarTexto_texto in Hs.
  destruct s as [|c s]; [done|]. injection Hs as Hs.
  rewrite <- Hs in Hsucursal. unfold Str.substring0 in Hsucursal.
  destruct (Str.trim (c :: s)); done.
Qed.

Lemma procesarQuejaConIA_sucursal_fails_witness :
  exists e w',
    Analizador.procesarQuejaConIA 0 (fun _ => None) (fun _ => false)
      Ejemplos.catalogo Ejemplos.cache Muestras.queja_prueba Ejemplos.mundo
    = (Throw e, w')
    /\ Db.confirmado w' = Db.confirmado Ejemplos.mundo
    /\ Db.transaccion w' = None.
Proof.
  apply (procesarQuejaConIA_sucursal_fails 0 (fun _ => None) (fun _ => false)
           Ejemplos.catalogo Ejemplos.cache Muestras.queja_prueba Ejemplos.mundo
           (Str.lit "monterrey")).
  - reflexivity.
  - vm_compute. reflexivity.
  - vm_compute. discriminate.
Defined.

(** ** Customers by phone *)

Lemma con_telefono_mas (tel : option Str.t) (t : Db.Tablas) (c : Db.Cliente) :
  Db.c_telefono c = tel ->
  Escritura.identificado tel = true ->
  Escritura.con_telefono tel (Escritura.mas_cliente t c)
  = Escritura.con_telefono tel t ++ [c].
Proof.
  intros Htel Hid. unfold Escritura.con_telefono. simpl.
  rewrite filter_app. f_equal.
  rewrite filter_cons_True; [done|].
  rewrite Htel. destruct tel as [[|x tel]|]; try done. simpl.
  by rewrite N.eqb_refl, Str_eqb_refl.
Qed.

(** X20.  Two consecutive calls of [obtenerOCrearCliente] in a transaction,
    for the same normalised phone (none, or ten digits).  With a phone the
    second call returns the customer of the first and writes nothing: a
    customer is created once per phone.  Without one each call inserts a
    customer of its own, with consecutive keys: anonymous complaints are
    never attached to the same customer. *)
Theorem obtenerOCrearCliente_reuses (falla : nat -> bool)
    (d1 d2 : Analizador.DatosNormalizados) (c t : Db.Tablas) (s : Db.Secuencias)
    (n : nat) (id1 id2 : Z) (w1 w2 : Db.Mundo) :
  Forma.telefono_valido (Analizador.telefono d1) ->
  Analizador.telefono d2 = Analizador.telefono d1 ->
  Analizador.obtenerOCrearCliente falla d1 (Escritura.en_curso c t s n) = (Ok id1, w1) ->
  Analizador.obtenerOCrearCliente falla d2 w1 = (Ok id2, w2) ->
  match Analizador.telefono d1 with
  | Some _ =>
      id2 = id1
      /\ Db.transaccion w2 = Db.transaccion w1
      /\ Db.secuencias w2 = Db.secuencias w1
  | None =>
      id1 = Db.clientes_id_seq s
      /\ id2 = (id1 + 1)%Z
      /\ exists c1 c2 t2,
           Db.transaccion w2 = Some (t2, false)
           /\ Db.clientes t2 = Db.clientes t ++ [c1; c2]
           /\ Db.c_id c1 = id1 /\ Db.c_id c2 = id2
           /\ Db.c_segmento_cliente c1 = Some (Str.lit "anonimo")
           /\ Db.c_segmento_cliente c2 = Some (Str.lit "anonimo")
  end.
Proof.
  intros Hvalido Htel H1 H2.
  assert (Escritura.identificado (Analizador.telefono d1)
          = match Analizador.telefono d1 with Some _ => true | None => false end) as Hident.
  { destruct (Analizador.telefono d1) as [[|x tel]|]; try done. by destruct Hvalido. }
  apply obtenerOCrearCliente_Ok in H1
    as [n1 [(Hid & Hhead & ->)|(Hno & -> & c1 & -> & Hc1 & _ & _ & Ht1 & Hs1)]].
  - rewrite Hident in Hid.
    destruct (Analizador.telefono d1) as [tel|] eqn:Hd1; [|done].
    apply obtenerOCrearCliente_Ok in H2 as [n2 [(_ & Hhead2 & ->)|(Hno & _)]].
    + rewrite Htel in Hhead2. split; [congruence | done].
    + rewrite Htel, Hident in Hno. destruct Hno as [Hno|Hno]; [done|].
      by rewrite Hno in Hhead.
  - rewrite (VARCHAR_telefono _ Hvalido) in Ht1. injection Ht1 as Ht1.
    apply obtenerOCrearCliente_Ok in H2
      as [n2 [(Hid & Hhead & ->)|(Hno2 & -> & c2 & -> & Hc2 & _ & _ & _ & Hs2)]].
    + rewrite Htel in Hid, Hhead. rewrite Hident in Hid.
      destruct (Analizador.telefono d1) as [tel|] eqn:Hd1; [|done].
      destruct Hno as [Hno|Hno]; [by rewrite Hident in Hno|].
      rewrite con_telefono_mas, Hno in Hhead by (by rewrite ?Hident).
      simpl in Hhead. split; [congruence | done].
    + rewrite Htel in Hno2, Hs2. rewrite Hident in Hno, Hno2, Hs1, Hs2.
      destruct (Analizador.telefono d1) as [tel|] eqn:Hd1.
      * exfalso. destruct Hno as [Hno|Hno]; [done|]. destruct Hno2 as [Hno2|Hno2]; [done|].
        rewrite con_telefono_mas in Hno2 by (by rewrite ?Hident).
        by destruct (Escritura.con_telefono _ t).
      * simpl. split; [done|]. split; [done|].
        exists c1, c2. eexists. split; [reflexivity|]. simpl.
        rewrite <- app_assoc. by repeat split.
Qed.

Lemma obtenerOCrearCliente_reuses_witness :
  1%Z = 1%Z
  /\ Db.transaccion Muestras.tras_segunda = Db.transaccion Muestras.tras_primera
  /\ Db.secuencias Muestras.tras_segunda = Db.secuencias Muestras.tras_primera.
Proof.
  apply (obtenerOCrearCliente_reuses (fun _ => false) Muestras.ana Muestras.ana
           (Db.confirmado Ejemplos.mundo) (Db.confirmado Ejemplos.mundo)
           (Db.secuencias Ejemplos.mundo) 2 1 1
           Muestras.tras_primera Muestras.tras_segunda).
  - split; reflexivity.
  - reflexivity.
  - vm_compute. reflexivity.
  - vm_compute. reflexivity.
Defined.

(** ** What the basic server writes *)

Section SinTransaccion.

Import Db Escritura.

Variable falla : nat -> bool.

Lemma bind_run {A B} (m : M A) (k : A -> M B) (w : Mundo) :
  (m ≫= k) w
  = match m w with
    | (Ok a, w') => k a w'
    | (Throw e, w') => (Throw e, w')
    end.
Proof. reflexivity. Qed.

(** A statement sent outside a transaction. *)
Lemma query_libre {A} (st : Sentencia A) (t : Tablas) (s : Secuencias) (n : nat) :
  query falla st (libre t s n)
  = if falla n then (Throw (QueryError n), libre t s (S n))
    else match st t s with
         | Ok (a, t', s') => (Ok a, libre t' s' (S n))
         | Throw e => (Throw e, libre t s (S n))
         end.
Proof.
  unfold query, libre. simpl. destruct (falla n); [done|].
  by destruct (st t s) as [[[a t'] s']|e].
Qed.

(** A query that only reads leaves the tables and the sequences alone. *)
Lemma select_libre {A} (f : Tablas -> A) (t : Tablas) (s : Secuencias) (n : nat) :
  exists r, query falla (SELECT f) (libre t s n) = (r, libre t s (S n)).
Proof.
  rewrite query_libre. unfold SELECT. destruct (falla n); eauto.
Qed.

Variable ahora : Z.
Variable catalogo : Sql.Catalogo.
Variable serializar : Js.value -> Str.t.

(** Step 2 of the handler only reads. *)
Lemma sucursal_bloque (sucursal : Js.value) (t : Tablas) (s : Secuencias) (n : nat) :
  exists r n',
    (if Js.truthy sucursal then
       x ← lift (Analizador.plantilla sucursal);
       query falla (Basico.select_sucursal catalogo (Str.lit "%" ++ x ++ Str.lit "%"))
     else mret None) (libre t s n)
    = (r, libre t s n').
Proof.
  destruct (Js.truthy sucursal); [|by eexists _, _].
  rewrite bind_run. unfold lift at 1.
  destruct (Analizador.plantilla sucursal) as [x|e]; [|by eexists _, _].
  unfold Basico.select_sucursal.
  destruct (select_libre
              (fun _ : Tablas =>
                 head
                   (s0 ← Sql.sucursales catalogo;
                    m ← filter
                          (fun m => Sql.is_true
                                      (Sql.eq_int (Sql.s_municipio_id s0) (Some (Sql.m_id m)))
                                    = true)
                          (Sql.municipios catalogo);
                    if Sql.is_true
                         (Sql.OR (Sql.LIKE (Sql.LOWER (Some (Sql.s_nombre s0)))
                                    (Sql.LOWER (Some (Str.lit "%" ++ x ++ Str.lit "%"))))
                                 (Sql.LIKE (Sql.LOWER (Some (Sql.m_nombre m)))
                                    (Sql.LOWER (Some (Str.lit "%" ++ x ++ Str.lit "%")))))
                    then [Sql.s_id s0] else []))
              t s n) as [r Hr].
  rewrite Hr. by eexists _, _.
Qed.

(** Step 3 of the handler leaves the tables alone or adds one customer,
    whose key is the next value of the sequence and whose counter is 0. *)
Lemma cliente_bloque (nombre telefono : Js.value) (t : Tablas) (s : Secuencias) (n : nat) :
  exists r t' s' n',
    (if Js.truthy telefono && negb (Js.eq_string telefono (Str.lit "edna")) then
       clienteExistente ←
         query falla (select_cliente_por_telefono (Basico.parametro serializar telefono));
       match clienteExistente with
       | id :: _ => mret id
       | [] =>
           query falla
             (insert_cliente (Basico.parametro serializar nombre)
                (Basico.parametro serializar telefono) None)
       end
     else
       query falla
         (insert_cliente
            (Basico.parametro serializar
               (Js.or_ nombre (Js.String (Str.lit "Cliente Anónimo")))) None None))
      (libre t s n)
    = (r, libre t' s' n')
    /\ quejas_id_seq s' = quejas_id_seq s
    /\ ((t' = t /\ s' = s)
        \/ exists c, t' = mas_cliente t c /\ c_id c = clientes_id_seq s
                     /\ c_total_quejas c = 0%Z /\ r = Ok (c_id c)).
Proof.
  assert (forall a b n0,
             exists r t' s',
               query falla (insert_cliente a b None) (libre t s n0)
               = (r, libre t' s' (S n0))
               /\ quejas_id_seq s' = quejas_id_seq s
               /\ ((t' = t /\ s' = s)
                   \/ exists c, t' = mas_cliente t c /\ c_id c = clientes_id_seq s
                                /\ c_total_quejas c = 0%Z /\ r = Ok (c_id c))) as Hins.
  { intros a b n0. rewrite query_libre. destruct (falla n0).
    { eexists _, _, _. split; [reflexivity|]. split; [done | by left]. }
    destruct (insert_cliente a b None t s) as [[[id t'] s']|e] eqn:Hst.
    - apply insert_cliente_Ok in Hst as (cl & -> & -> & -> & Hid & Htot & _).
      eexists _, _, _. split; [reflexivity|]. split; [done|]. right.
      exists cl. by rewrite Hid.
    - eexists _, _, _. split; [reflexivity|]. split; [done | by left]. }
  destruct (_ && _).
  - rewrite bind_run, query_libre. destruct (falla n).
    { eexists _, _, _, _. split; [reflexivity|]. split; [done | by left]. }
    unfold select_cliente_por_telefono, SELECT.
    destruct (map c_id _) as [|id rows].
    + destruct (Hins (Basico.parametro serializar nombre)
                  (Basico.parametro serializar telefono) (S n))
        as (r & t' & s' & -> & H). by eexists _, _, _, _.
    + eexists _, _, _, _. split; [reflexivity|]. split; [done | by left].
  - destruct (Hins (Basico.parametro serializar
                      (Js.or_ nombre (Js.String (Str.lit "Cliente Anónimo")))) None n)
      as (r & t' & s' & -> & H). by eexists _, _, _, _.
Qed.

(** X21.  What the handler of the basic server leaves in the tables, on a
    connection with no transaction open, whatever the body and whichever
    requests the server rejects.  It never touches [insights_ia] nor an
    existing customer row.  It adds at most one customer row, with the next
    key of the sequence and a counter of 0 that it never updates.  On
    success it has added exactly one complaint row, with the key and the
    urgency that the response reports; on an error response it has added no
    complaint row, but the customer row may be there. *)
Theorem basic_webhook_writes (body : gmap Str.t Js.value) (w : Mundo) :
  transaccion w = None ->
  let '(respuesta, w') :=
    Basico.webhook_nueva_queja ahora falla catalogo serializar body w in
  transaccion w' = None
  /\ insights_ia (confirmado w') = insights_ia (confirmado w)
  /\ (clientes (confirmado w') = clientes (confirmado w)
      \/ exists c,
           clientes (confirmado w') = clientes (confirmado w) ++ [c]
           /\ c_id c = clientes_id_seq (secuencias w)
           /\ c_total_quejas c = 0%Z)
  /\ match Basico.analisis respuesta with
     | Some a =>
         Basico.success respuesta = true
         /\ Basico.status respuesta = 200%Z
         /\ exists q,
              quejas (confirmado w') = quejas (confirmado w) ++ [q]
              /\ q_id q = quejas_id_seq (secuencias w)
              /\ Basico.a_queja_id a = q_id q
              /\ Basico.a_urgencia a = q_urgencia q
              /\ q_datos_originales q = body
     | None =>
         Basico.success respuesta = false
         /\ Basico.status respuesta = 500%Z
         /\ quejas (confirmado w') = quejas (confirmado w)
     end.
Proof.
  intros Hw. destruct w as [T S0 tx n]. simpl in Hw. subst tx.
  change (Build_Mundo T S0 None n) with (libre T S0 n).
  unfold Basico.webhook_nueva_queja, Basico.procesar. cbv zeta.
  rewrite bind_run. unfold connect at 1. cbn [enviadas libre].
  destruct (falla n); [simpl; by eauto 10|].
  match goal with
  | |- context [enviar ?w0] => change (enviar w0) with (libre T S0 (S n))
  end.
  rewrite bind_run, query_libre.
  destruct (falla (S n)); [simpl; by eauto 10|].
  unfold SELECT at 1. rewrite bind_run.
  match goal with
  | |- context [(if Js.truthy ?v then _ else mret None) (libre ?t ?s ?m)] =>
      destruct (sucursal_bloque v t s m) as (r1 & n1 & ->)
  end.
  destruct r1 as [sucursalId|e]; [|simpl; by eauto 10].
  rewrite bind_run.
  match goal with
  | |- context [(if Js.truthy ?tel && _ then _ else
                   query falla (insert_cliente
                                  (Basico.parametro serializar (Js.or_ ?nom _)) None None))
                  (libre ?t ?s ?m)] =>
      destruct (cliente_bloque nom tel t s m) as (r2 & T2 & S2 & n2 & -> & Hseq & Hcliente)
  end.
  assert (insights_ia T2 = insights_ia T
          /\ quejas T2 = quejas T
          /\ (clientes T2 = clientes T
              \/ exists c, clientes T2 = clientes T ++ [c]
                           /\ c_id c = clientes_id_seq S0 /\ c_total_quejas c = 0%Z))
    as (Hi & Hq & Hc).
  { destruct Hcliente as [[-> _]|(c & -> & Hid & Htotal & _)]; simpl; eauto 10. }
  clear Hcliente.
  destruct r2 as [clienteId|e]; [|simpl; by eauto 10].
  rewrite bind_run. unfold lift at 1.
  destruct (Basico.calcular_urgencia _ _) as [urgencia|e]; [|simpl; by eauto 10].
  rewrite bind_run, query_libre.
  destruct (falla n2); [simpl; by eauto 10|].
  unfold insert_queja.
  destruct (Basico.parametro serializar (Basico.campo body "descripcion")) as [d|];
    [|simpl; by eauto 10].
  simpl. repeat split; try done.
  eexists. rewrite Hq. split; [reflexivity|]. simpl. by rewrite Hseq.
Qed.

End SinTransaccion.

Lemma basic_webhook_writes_witness :
  let '(respuesta, w') :=
    Basico.webhook_nueva_queja 0 (Spec.falla_en 4) Ejemplos.catalogo (fun _ => [])
      Ejemplos.queja_ana Ejemplos.mundo in
  Db.transaccion w' = None
  /\ Db.insights_ia (Db.confirmado w') = Db.insights_ia (Db.confirmado Ejemplos.mundo)
  /\ (Db.clientes (Db.confirmado w') = Db.clientes (Db.confirmado Ejemplos.mundo)
      \/ exists c,
           Db.clientes (Db.confirmado w')
           = Db.clientes (Db.confirmado Ejemplos.mundo) ++ [c]
           /\ Db.c_id c = Db.clientes_id_seq (Db.secuencias Ejemplos.mundo)
           /\ Db.c_total_quejas c = 0%Z)
  /\ match Basico.analisis respuesta with
     | Some a =>
         Basico.success respuesta = true
         /\ Basico.status respuesta = 200%Z
         /\ exists q,
              Db.quejas (Db.confirmado w')
              = Db.quejas (Db.confirmado Ejemplos.mundo) ++ [q]
              /\ Db.q_id q = Db.quejas_id_seq (Db.secuencias Ejemplos.mundo)
              /\ Basico.a_queja_id a = Db.q_id q
              /\ Basico.a_urgencia a = Db.q_urgencia q
              /\ Db.q_datos_originales q = Ejemplos.queja_ana
     | None =>
         Basico.success respuesta = false
         /\ Basico.status respuesta = 500%Z
         /\ Db.quejas (Db.confirmado w') = Db.quejas (Db.confirmado Ejemplos.mundo)
     end.
Proof.
  apply (basic_webhook_writes (Spec.falla_en 4) 0 Ejemplos.catalogo (fun _ => [])
           Ejemplos.queja_ana Ejemplos.mundo).
  reflexivity.
Defined.

(** ** The shape of the keywords *)

Lemma lower_unit_minuscula (c : N) :
  Str.is_word (Str.lower_unit c) = true -> Letras.minuscula (Str.lower_unit c) = true.
Proof.
  unfold Str.is_word, Letras.minuscula, Str.lower_unit, Str.is_digit.
  destruct (N.leb_spec 0x41 c), (N.leb_spec c 0x5A); simpl;
    try (destruct (N.leb_spec 0xC0 c), (N.leb_spec c 0xDE), (N.eqb_spec c 0xD7); simpl);
    repeat match goal with
           | |- context [?a <=? ?b] => destruct (N.leb_spec a b); simpl
           | |- context [?a =? ?b] => destruct (N.eqb_spec a b); simpl
           end; try done; lia.
Qed.

Lemma reemplazar_signos_letras (s : Str.t) (c : N) :
  In c (Analizador.reemplazar_signos (Str.toLowerCase s)) ->
  Str.is_space c = true \/ Letras.minuscula c = true.
Proof.
  unfold Analizador.reemplazar_signos, Str.toLowerCase. rewrite map_map.
  intros H. apply in_map_iff in H as [c0 [<- _]].
  destruct (Str.is_word (Str.lower_unit c0)) eqn:Hw; simpl.
  - right. by apply lower_unit_minuscula.
  - destruct (Str.is_space (Str.lower_unit c0)) eqn:Hs; [by left|]. by left.
Qed.

Lemma split_aux_chars (s actual : Str.t) (h : bool) (p : Str.t) (c : N) :
  In p (Analizador.split_aux s actual h) -> In c p ->
  In c actual \/ (In c s /\ Str.is_space c = false).
Proof.
  revert actual h. induction s as [|c0 s IH]; intros actual h; simpl.
  - intros [<-|[]] Hc. left. by apply in_rev.
  - destruct (Str.is_space c0) eqn:Hs.
    + destruct h.
      * intros Hp Hc. destruct (IH _ _ Hp Hc) as [H|[H1 H2]]; [by left | right; eauto].
      * intros [<-|Hp] Hc.
        -- left. by apply in_rev.
        -- destruct (IH _ _ Hp Hc) as [[]|[H1 H2]]. right; eauto.
    + intros Hp Hc. destruct (IH _ _ Hp Hc) as [[<-|H]|[H1 H2]]; eauto.
Qed.

Lemma palabras_de_letras (texto p : Str.t) :
  In p (Analizador.palabras_de texto) ->
  Forall (fun c => Letras.minuscula c = true) p
  /\ (3 < length p)%nat
  /\ ~ In p Analizador.palabrasComunes.
Proof.
  unfold Analizador.palabras_de. intros H.
  apply list_elem_of_In, list_elem_of_filter in H as [H Hp].
  apply andb_true_iff in H as [H _]. apply andb_true_iff in H as [Hlen Hcomun].
  apply list_elem_of_In in Hp. split; [|split].
  - apply List.Forall_forall. intros c Hc.
    destruct (split_aux_chars _ _ _ _ _ Hp Hc) as [[]|[Hin Hs]].
    apply reemplazar_signos_letras in Hin as [Hin|Hin]; [congruence | done].
  - by apply Nat.ltb_lt in Hlen.
  - apply negb_true_iff in Hcomun. intros Hin.
    apply (proj2 (existsb_eqb_In _ _)) in Hin. congruence.
Qed.

(** X22.  The tokens that the extractor counts, for any description: each
    has more than three characters, all of them lower-case ASCII letters,
    digits or underscores, is not a stop word and does not read as a number.
    A letter with an accent is not a word character of the regular
    expression, so it splits the word it stands in: the stop word
    [está] can never be met. *)
Theorem palabras_de_tokens (texto p : Str.t) :
  In p (Analizador.palabras_de texto) ->
  (3 < length p)%nat
  /\ Forall (fun c => Letras.minuscula c = true) p
  /\ ~ In p Analizador.palabrasComunes
  /\ Analizador.isNaN p = true
  /\ p <> Str.lit "está".
Proof.
  intros H. destruct (palabras_de_letras texto p H) as (Hletras & Hlen & Hcomun).
  split; [done|]. split; [done|]. split; [done|]. split.
  - unfold Analizador.palabras_de in H.
    apply list_elem_of_In, list_elem_of_filter in H as [H _].
    by apply andb_true_iff in H as [_ H].
  - intros ->. vm_compute in Hletras.
    do 3 apply Forall_cons in Hletras as [_ Hletras].
    by apply Forall_cons in Hletras as [Hletras _].
Qed.

Lemma palabras_de_tokens_witness :
  (3 < length (Str.lit "horrible"))%nat
  /\ Forall (fun c => Letras.minuscula c = true) (Str.lit "horrible")
  /\ ~ In (Str.lit "horrible") Analizador.palabrasComunes
  /\ Analizador.isNaN (Str.lit "horrible") = true
  /\ Str.lit "horrible" <> Str.lit "está".
Proof.
  apply (palabras_de_tokens Ejemplos.texto_pollo (Str.lit "horrible")).
  vm_compute. tauto.
Defined.

(** *** The own properties of [frecuencia] *)

Lemma set_own_claves (o : Analizador.Frecuencia) (k : Str.t) (v : Analizador.fval) :
  map fst (Analizador.set_own o k v)
  = if existsb (Str.eqb k) (map fst o) then map fst o else map fst o ++ [k].
Proof.
  induction o as [|[k' v'] o IH]; simpl; [done|].
  rewrite (Str_eqb_sym k k'). destruct (Str.eqb k' k); simpl; [done|].
  rewrite IH. by destruct (existsb _ _).
Qed.

Lemma contar_palabras_claves (palabras : list Str.t) :
  let claves := map fst (Analizador.contar_palabras palabras) in
  List.NoDup claves
  /\ (forall p, In p claves <-> In p palabras /\ p <> Analizador.__proto__).
Proof.
  unfold Analizador.contar_palabras.
  assert (forall o,
             List.NoDup (map fst o) ->
             let claves :=
               map fst (fold_left (fun frecuencia palabra =>
                                     Analizador.asignar frecuencia palabra
                                       (Analizador.mas_uno frecuencia palabra))
                                  palabras o) in
             List.NoDup claves
             /\ (forall p, In p claves
                           <-> In p (map fst o)
                               \/ (In p palabras /\ p <> Analizador.__proto__))) as H.
  { induction palabras as [|x l IH]; intros o Ho; simpl.
    - split; [done|]. intros p. tauto.
    - set (o' := Analizador.asignar o x (Analizador.mas_uno o x)).
      assert (List.NoDup (map fst o')
              /\ forall p, In p (map fst o')
                           <-> In p (map fst o) \/ (p = x /\ p <> Analizador.__proto__))
        as [Ho' Hin'].
      { unfold o', Analizador.asignar.
        destruct (Str.eqb x Analizador.__proto__) eqn:Hproto.
        - apply Str_eqb_eq in Hproto. split; [done|]. intros p. split; [tauto|].
          intros [H|[-> H]]; [done | congruence].
        - apply Str_eqb_neq in Hproto. rewrite set_own_claves.
          destruct (existsb (Str.eqb x) (map fst o)) eqn:Hex.
          + split; [done|]. intros p. split; [tauto|].
            intros [H|[-> _]]; [done | by apply existsb_eqb_In].
          + split.
            * apply NoDup_ListNoDup, NoDup_app. repeat split.
              -- by apply NoDup_ListNoDup.
              -- intros y Hy Hy'. apply list_elem_of_In in Hy.
                 apply list_elem_of_singleton in Hy' as ->.
                 apply (proj2 (existsb_eqb_In _ _)) in Hy. congruence.
              -- apply NoDup_singleton.
            * intros p. rewrite in_app_iff. simpl. split.
              -- intros [H|[<-|[]]]; [by left | by right].
              -- intros [H|[-> _]]; [by left | right; by left]. }
      destruct (IH o' Ho') as [Hnd Hin]. split; [exact Hnd|].
      intros p. rewrite Hin, Hin'. split.
      + intros [[H|[-> H]]|[H1 H2]]; [by left | right | right]; split; try done;
          [by left | by right].
      + intros [H|[[<-|H1] H2]]; [left; by left | left; right; by split | right; by split]. }
  destruct (H [] (List.NoDup_nil _)) as [Hnd Hin]. split; [exact Hnd|].
  intros p. rewrite Hin. simpl. tauto.
Qed.

Lemma sort_Permutation (l : list (Str.t * Analizador.fval)) :
  Permutation (Analizador.sort l) l.
Proof.
  unfold Analizador.sort.
  assert (forall acc, Permutation (fold_left (fun acc x => Analizador.insertar x acc) l acc)
                                  (acc ++ l)) as H.
  { induction l as [|x l IH]; intros acc; simpl.
    - by rewrite app_nil_r.
    - rewrite IH, insertar_Permutation. simpl. apply Permutation_middle. }
  apply (H []).
Qed.

(** X23.  The keywords of any description: at most five, all different;
    each is a token of the description of more than three characters, made
    of lower-case ASCII letters, digits and underscores only (an accented
    letter splits a word), that is not a stop word and is not '__proto__'.
    When the description has at most five distinct tokens, every token
    other than '__proto__' is a keyword. *)
Theorem extraerPalabrasClave_shape (texto : Str.t) :
  let r := Analizador.extraerPalabrasClave texto in
  (length r <= 5)%nat
  /\ List.NoDup r
  /\ (forall p, In p r ->
        In p (Analizador.palabras_de texto)
        /\ p <> Analizador.__proto__
        /\ (3 < length p)%nat
        /\ ~ In p Analizador.palabrasComunes
        /\ Forall (fun c => Letras.minuscula c = true) p)
  /\ ((length (Spec.primeras (Analizador.palabras_de texto)) <= 5)%nat ->
      forall p, In p (Analizador.palabras_de texto) -> p <> Analizador.__proto__ ->
                In p r).
Proof.
  intros r. subst r. unfold Analizador.extraerPalabrasClave.
  set (palabras := Analizador.palabras_de texto).
  destruct (contar_palabras_claves palabras) as [Hnd Hin].
  set (o := Analizador.contar_palabras palabras) in *.
  assert (Analizador.Object_entries o = o) as ->.
  { apply Object_entries_sin_indices, List.Forall_forall. intros e He.
    apply (palabras_no_indice texto).
    apply (proj1 (Hin (fst e))). by apply in_map. }
  pose proof (sort_Permutation o) as Hperm.
  assert (Permutation (map fst (Analizador.sort o)) (map fst o)) as Hkeys
    by (by apply Permutation_map).
  assert (List.NoDup (map fst (Analizador.sort o))) as Hnd'
    by (eapply Permutation_NoDup; [symmetry; exact Hkeys | exact Hnd]).
  rewrite <- firstn_map. split; [|split; [|split]].
  - rewrite length_firstn. lia.
  - rewrite <- (firstn_skipn 5 (map fst (Analizador.sort o))) in Hnd'.
    by apply NoDup_app_remove_r in Hnd'.
  - intros p H. apply In_take in H. apply (Permutation_in _ Hkeys) in H.
    apply (proj1 (Hin p)) in H as [H Hproto].
    destruct (palabras_de_letras texto p H) as (Hletras & Hlen & Hcomun). done.
  - intros Hlen p Hp Hproto.
    assert (length (map fst (Analizador.sort o)) <= 5)%nat as Hcorto.
    { rewrite (Permutation_length Hkeys).
      etransitivity; [|exact Hlen].
      apply NoDup_incl_length; [exact Hnd|].
      intros q Hq. apply primeras_In. by apply (proj1 (Hin q)) in Hq as [Hq _]. }
    rewrite firstn_all2 by exact Hcorto.
    apply (Permutation_in _ (Permutation_sym Hkeys)). by apply (proj2 (Hin p)).
Qed.

(** ** The query of GET /api/quejas *)

(** X24.  The statement that GET /api/quejas sends: its parameters are the
    filters given (those that are truthy), in the order sentimiento,
    categoria, urgencia_min, followed by the limit (20 when absent); its
    placeholders are $1, $2, ... in text order, as many as the parameters;
    and its text is the one built from the mere presence of the filters, so
    no value of the request reaches the SQL text. *)
Theorem construir_consulta_placeholders (limit sentimiento categoria urgencia_min : Js.value) :
  let '(query, params) :=
    Listado.construir_consulta limit sentimiento categoria urgencia_min in
  params
  = List.filter Js.truthy [sentimiento; categoria; urgencia_min]
    ++ [match limit with Js.Undefined => Js.Num 20 | _ => limit end]
  /\ Listado.marcadores query = map N.of_nat (seq 1 (length params))
  /\ query
     = fst (Listado.construir_consulta Js.Undefined
              (Js.Bool (Js.truthy sentimiento)) (Js.Bool (Js.truthy categoria))
              (Js.Bool (Js.truthy urgencia_min))).
Proof.
  assert (forall (a b c : bool) v1 v2 v3 w1 w2 w3,
             Js.truthy v1 = a -> Js.truthy v2 = b -> Js.truthy v3 = c ->
             Js.truthy w1 = a -> Js.truthy w2 = b -> Js.truthy w3 = c ->
             forall l1 l2,
               fst (Listado.construir_consulta l1 v1 v2 v3)
               = fst (Listado.construir_consulta l2 w1 w2 w3)) as Htexto.
  { intros a b c v1 v2 v3 w1 w2 w3 H1 H2 H3 H4 H5 H6 l1 l2.
    unfold Listado.construir_consulta, Listado.filtrar.
    rewrite H1, H2, H3, H4, H5, H6. destruct a, b, c; vm_compute; reflexivity. }
  assert (forall a b c : bool,
             Listado.marcadores
               (fst (Listado.construir_consulta Js.Undefined (Js.Bool a) (Js.Bool b)
                       (Js.Bool c)))
             = map N.of_nat
                 (seq 1 (length (List.filter Js.truthy [Js.Bool a; Js.Bool b; Js.Bool c]
                                 ++ [Js.Undefined])))) as Hmarcas.
  { intros [] [] []; vm_compute; reflexivity. }
  assert (snd (Listado.construir_consulta limit sentimiento categoria urgencia_min)
          = List.filter Js.truthy [sentimiento; categoria; urgencia_min]
            ++ [match limit with Js.Undefined => Js.Num 20 | _ => limit end]) as Hparams.
  { unfold Listado.construir_consulta, Listado.filtrar. cbn [List.filter].
    destruct (Js.truthy sentimiento), (Js.truthy categoria), (Js.truthy urgencia_min);
      cbn [snd app]; reflexivity. }
  pose proof (Htexto _ _ _ sentimiento categoria urgencia_min
                (Js.Bool (Js.truthy sentimiento)) (Js.Bool (Js.truthy categoria))
                (Js.Bool (Js.truthy urgencia_min)) eq_refl eq_refl eq_refl
                eq_refl eq_refl eq_refl limit Js.Undefined) as Hq.
  destruct (Listado.construir_consulta limit sentimiento categoria urgencia_min)
    as [query params].
  cbn [fst snd] in Hparams, Hq. split; [exact Hparams|]. split; [|exact Hq].
  rewrite Hq, Hmarcas, Hparams. cbn [List.filter Js.truthy]. rewrite !length_app.
  do 2 f_equal.
  by destruct (Js.truthy sentimiento), (Js.truthy categoria), (Js.truthy urgencia_min).
Qed.

(** ** The webhook of the AI server *)

Lemma webhook_all_or_nothing_witness :
  let '(respuesta, w') :=
    Analizador.webhook_nueva_queja 0 (fun _ => None) (Spec.falla_en 5)
      Ejemplos.catalogo Ejemplos.cache Ejemplos.queja_ana Ejemplos.mundo in
  (Analizador.success respuesta = true
   /\ Analizador.status respuesta = 200%Z
   /\ exists r, Analizador.data respuesta = Some r /\ Analizador.r_success r = true)
  \/ (Analizador.success respuesta = false
      /\ Analizador.status respuesta = 500%Z
      /\ Db.confirmado w' = Db.confirmado Ejemplos.mundo).
Proof.
  apply (webhook_all_or_nothing 0 (fun _ => None) (Spec.falla_en 5)
           Ejemplos.catalogo Ejemplos.cache Ejemplos.queja_ana Ejemplos.mundo).
  reflexivity.
Defined.
